(** * Metadata extraction heuristics of the scraper (src/scraper.js)

    A shallow embedding of the [WebScraper] extractors: [extractTitle],
    [extractArticleBody], [extractBreadcrumbs] (with its local helper
    [ensureTrailingSlash]), [extractFaqs] and [makeAbsoluteUrl].

    The extractors run over three capabilities of the platform that are not
    code of the repository: the cheerio document tree, the WHATWG [URL]
    class of Node and [JSON.parse].  Each one is an interface (a type class);
    the extractors and the general theorems are stated over every
    implementation of the interfaces.  A small document tree, a URL parser
    and a JSON parser instantiate them for the concrete pages of the
    scenarios. *)

From Stdlib Require Import String Ascii List Bool Arith Lia Sorted.
Import ListNotations.

Open Scope string_scope.
Open Scope list_scope.
Open Scope nat_scope.

(** String concatenation (the [+] of JavaScript on strings). *)
Infix "+++" := String.append (right associativity, at level 60).

Set Implicit Arguments.

(* ================================================================== *)
(** * JavaScript strings

    A string is a sequence of code units; the model keeps the code units
    below 256, so that a Rocq [ascii] is one code unit and [String.length]
    is the JavaScript [length]. *)

Module Js.

(** White space of [String.prototype.trim] and of the regular expression
    class [\s], restricted to code units below 256: TAB, LF, VT, FF, CR,
    SPACE and NO-BREAK SPACE. *)
Definition isSpace (c : ascii) : bool :=
  let n := nat_of_ascii c in
  ((9 <=? n) && (n <=? 13)) || (n =? 32) || (n =? 160).

(** The class [\w] of regular expressions: [A-Za-z0-9_]. *)
Definition isWord (c : ascii) : bool :=
  let n := nat_of_ascii c in
  ((65 <=? n) && (n <=? 90)) || ((97 <=? n) && (n <=? 122))
  || ((48 <=? n) && (n <=? 57)) || (n =? 95).

(** [toUpperCase] of a one-character string matched by [\w]. *)
Definition upperWord (c : ascii) : ascii :=
  let n := nat_of_ascii c in
  if (97 <=? n) && (n <=? 122) then ascii_of_nat (n - 32) else c.

(** [toLowerCase] of one code unit below 256: the ASCII capitals and the
    capitals of the Latin-1 supplement (U+00C0 to U+00DE but U+00D7). *)
Definition lowerChar (c : ascii) : ascii :=
  let n := nat_of_ascii c in
  if ((65 <=? n) && (n <=? 90))
     || ((192 <=? n) && (n <=? 222) && negb (n =? 215))
  then ascii_of_nat (n + 32) else c.

Fixpoint toLowerCase (s : string) : string :=
  match s with
  | EmptyString => EmptyString
  | String c r => String (lowerChar c) (toLowerCase r)
  end.

(** A string is truthy when it is not empty. *)
Definition truthy (s : string) : bool := negb (s =? "")%string.

Fixpoint trimStart (s : string) : string :=
  match s with
  | EmptyString => EmptyString
  | String c r => if isSpace c then trimStart r else s
  end.

Fixpoint trimEnd (s : string) : string :=
  match s with
  | EmptyString => EmptyString
  | String c r =>
      let r' := trimEnd r in
      if isSpace c && (r' =? "")%string then EmptyString else String c r'
  end.

(** [s.trim()] *)
Definition trim (s : string) : string := trimEnd (trimStart s).

(** [s.replace(/\s+/g, ' ')]: every maximal run of white space becomes one
    space.  [inRun] tells that the previous character was white space. *)
Fixpoint collapseFrom (inRun : bool) (s : string) : string :=
  match s with
  | EmptyString => EmptyString
  | String c r =>
      if isSpace c
      then (if inRun then collapseFrom true r
            else String " " (collapseFrom true r))
      else String c (collapseFrom false r)
  end.

Definition collapseSpaces (s : string) : string := collapseFrom false s.

(** [s.endsWith(t)] *)
Fixpoint endsWith (s t : string) : bool :=
  (s =? t)%string ||
  match s with
  | EmptyString => false
  | String _ r => endsWith r t
  end.

(** [s.split(sep)] for a one-character separator. *)
Fixpoint splitOn (sep : ascii) (s : string) : list string :=
  match s with
  | EmptyString => [EmptyString]
  | String c r =>
      if Ascii.eqb c sep then EmptyString :: splitOn sep r
      else match splitOn sep r with
           | [] => [String c EmptyString]
           | w :: ws => String c w :: ws
           end
  end.

(** [s.replace(/-/g, ' ')] *)
Fixpoint hyphensToSpaces (s : string) : string :=
  match s with
  | EmptyString => EmptyString
  | String c r =>
      String (if Ascii.eqb c "-" then " "%char else c) (hyphensToSpaces r)
  end.

(** [s.replace(/\b\w/g, l => l.toUpperCase())]: a word character is at a
    word boundary when the character before it is not a word character
    (or there is none).  [prevWord] tells that the previous character is
    a word character. *)
Fixpoint capitalizeFrom (prevWord : bool) (s : string) : string :=
  match s with
  | EmptyString => EmptyString
  | String c r =>
      if isWord c
      then String (if prevWord then c else upperWord c) (capitalizeFrom true r)
      else String c (capitalizeFrom false r)
  end.

Definition capitalizeWords (s : string) : string := capitalizeFrom false s.

(** ** Shapes of strings, for the statements about [trim] and
    [collapseSpaces] *)

(** A string that does not start with white space. *)
Definition noLeadingSpace (s : string) : Prop :=
  match s with
  | EmptyString => True
  | String c _ => isSpace c = false
  end.

(** White space in the string is single spaces; [prevSpace] tells that
    the character before the string is white space. *)
Fixpoint tidyFrom (prevSpace : bool) (s : string) : bool :=
  match s with
  | EmptyString => true
  | String c r =>
      if isSpace c
      then negb prevSpace && Ascii.eqb c " " && tidyFrom true r
      else tidyFrom false r
  end.

End Js.

(* ================================================================== *)
(** * Exceptions and mutable arrays

    A computation may throw, and it may push to the array it builds
    ([faqs], [breadcrumbs]).  What was pushed before a [throw] stays in the
    array, as in the source, where the array outlives the inner
    [try]/[catch]. *)

Inductive exn : Type :=
| TypeError (msg : string)
| SyntaxError (msg : string)
(** not an exception of JavaScript: the input is outside of what a model
    of the platform covers *)
| Unmodelled (what : string).

Inductive Result (A : Type) : Type :=
| Ok (a : A)
| Throw (e : exn).

Arguments Ok {A} a.
Arguments Throw {A} e.

Definition M (St A : Type) : Type := St -> Result A * St.

Definition ret {St A} (a : A) : M St A := fun s => (Ok a, s).

Definition bind {St A B} (m : M St A) (k : A -> M St B) : M St B :=
  fun s =>
    match m s with
    | (Ok a, s') => k a s'
    | (Throw e, s') => (Throw e, s')
    end.

Definition throw {St A} (e : exn) : M St A := fun s => (Throw e, s).

(** [try { m } catch (e) { h e }] *)
Definition tryCatch {St A} (m : M St A) (h : exn -> M St A) : M St A :=
  fun s =>
    match m s with
    | (Ok a, s') => (Ok a, s')
    | (Throw e, s') => h e s'
    end.

(** [array.push(x)] on the array under construction. *)
Definition push {A} (x : A) : M (list A) unit := fun s => (Ok tt, s ++ [x]).

(** The array under construction ([faqs.length], [faqs.filter]). *)
Definition getArray {St} : M St St := fun s => (Ok s, s).

(** A computation that cannot throw by its type. *)
Definition lift {St A} (r : Result A) : M St A := fun s => (r, s).

Declare Scope js_scope.
Delimit Scope js_scope with js.
Notation "x <- m ;; k" := (bind m (fun x => k))
  (at level 61, m at next level, right associativity) : js_scope.
Notation "m ;; k" := (bind m (fun _ => k))
  (at level 61, right associativity) : js_scope.
Open Scope js_scope.

(** [if (c) { m }] *)
Definition when {St} (c : bool) (m : M St unit) : M St unit :=
  if c then m else ret tt.

(** [xs.forEach(x => body x)], also cheerio's [each] when the index is not
    used. *)
Fixpoint forEach {St A} (xs : list A) (body : A -> M St unit) : M St unit :=
  match xs with
  | [] => ret tt
  | x :: r => body x ;; forEach r body
  end.

(** [xs.each((index, x) => body index x)], the index counted from [from]. *)
Fixpoint eachFrom {St A} (from : nat) (xs : list A)
         (body : nat -> A -> M St unit) : M St unit :=
  match xs with
  | [] => ret tt
  | x :: r => body from x ;; eachFrom (S from) r body
  end.

Definition forEachIndexed {St A} (xs : list A) (body : nat -> A -> M St unit)
  : M St unit := eachFrom 0 xs body.

(* ================================================================== *)
(** * The platform: cheerio, URL, JSON.parse *)

(** ** CSS selectors

    The selectors of the source are string literals; here they are the
    syntax trees of those literals.  A compound selector is a list of simple
    selectors on one element, a complex selector is a chain of compound
    selectors joined by the descendant combinator (a blank), and a selector
    is a comma-separated list of complex selectors. *)

Inductive attrTest : Type :=
| AttrIs (v : string)       (** [[name="v"]] *)
| AttrHasI (v : string).    (** [[name*="v" i]] *)

Inductive simple : Type :=
| Tag (name : string)                       (** [name] *)
| Class (name : string)                     (** [.name] *)
| Attr (name : string) (test : attrTest).   (** [[name ...]] *)

Definition compound : Type := list simple.
Definition complex : Type := list compound.
Definition selector : Type := list complex.

(** ** The document tree of cheerio *)

Class Cheerio : Type := {
  (** the loaded document, [$] in the source *)
  document : Type;
  (** one node of the tree, [$(element)] in the source *)
  node : Type;
  (** [$(selector)]: the matching elements in document order *)
  select : document -> selector -> list node;
  (** [$(element).find(selector)] *)
  find : node -> selector -> list node;
  (** [$(element).text()] *)
  text : node -> string;
  (** [$(element).attr(name)], [None] for [undefined] *)
  attr : node -> string -> option string;
  (** [$(element).html()], [None] for [null] *)
  html : node -> option string;
  (** what [$(element).next()], [.next().next()], ... give in turn, until the
      selection is empty *)
  nextAll : node -> list node;
  (** [element.type] *)
  nodeType : node -> string;
  (** [$(element).is(selector)] *)
  is_ : node -> selector -> bool;
  (** [element.clone()] *)
  clone : node -> node;
  (** the element once [remove()] was called on these descendants of it *)
  without : node -> list node -> node
}.

(** ** The URL class *)

Record URL : Type := mkURL {
  href : string;
  protocol : string;
  host : string;
  origin : string;
  pathname : string;
  search : string;
  hash : string
}.

Class UrlApi : Type := {
  (** [new URL(input, base)]; [new URL(input)] when [base] is [None].
      The constructor throws a [TypeError] on an invalid URL. *)
  URL_new : string -> option string -> Result URL
}.

(** ** JSON values and JSON.parse *)

#[warnings="-register-all"]
Inductive json : Type :=
| JNull
| JBool (b : bool)
| JNumber (n : nat)   (** the extractor only tests a number for truthiness *)
| JString (s : string)
| JArray (items : list json)
| JObject (fields : list (string * json)).

Class JsonApi : Type := {
  (** [JSON.parse(text)], which throws a [SyntaxError] on malformed text *)
  JSON_parse : string -> Result json
}.

(** A JavaScript value met by the extractors: a JSON value or [undefined]. *)
Definition value : Type := option json.

Definition undefined : value := None.

(** Truthiness: [undefined], [null], [false], [0] and the empty string are
    falsy. *)
Definition truthy (v : value) : bool :=
  match v with
  | None => false
  | Some JNull => false
  | Some (JBool b) => b
  | Some (JNumber n) => negb (n =? 0)
  | Some (JString s) => Js.truthy s
  | Some (JArray _) => true
  | Some (JObject _) => true
  end.

(** [a || b] *)
Definition or_ (a b : value) : value := if truthy a then a else b.

(** [v === 'literal'] *)
Definition isString (v : value) (literal : string) : bool :=
  match v with
  | Some (JString s) => (s =? literal)%string
  | _ => false
  end.

Fixpoint lookup (key : string) (fields : list (string * json)) : value :=
  match fields with
  | [] => None
  | (k, v) :: r => if (k =? key)%string then Some v else lookup key r
  end.

(** [v[key]] and [v.key], for the keys the extractor reads ([@type],
    [mainEntity], [name], [acceptedAnswer], [text]): an own property of an
    object, [undefined] on the other values, a [TypeError] on [null] and
    [undefined]. *)
Definition getProp (v : value) (key : string) : Result value :=
  match v with
  | None => Throw (TypeError "Cannot read properties of undefined")
  | Some JNull => Throw (TypeError "Cannot read properties of null")
  | Some (JObject fields) => Ok (lookup key fields)
  | Some _ => Ok undefined
  end.

(** [v.forEach(callback)]: only an array has the method. *)
Definition forEachValue {St} (v : value) (callback : value -> M St unit)
  : M St unit :=
  match v with
  | Some (JArray items) => forEach items (fun item => callback (Some item))
  | None => throw (TypeError "Cannot read properties of undefined")
  | Some JNull => throw (TypeError "Cannot read properties of null")
  | Some _ => throw (TypeError "forEach is not a function")
  end.

(** [v.toLowerCase()]: only a string has the method. *)
Definition toLowerCase (v : value) : Result string :=
  match v with
  | Some (JString s) => Ok (Js.toLowerCase s)
  | None => Throw (TypeError "Cannot read properties of undefined")
  | Some JNull => Throw (TypeError "Cannot read properties of null")
  | Some _ => Throw (TypeError "toLowerCase is not a function")
  end.

(** ** Selections *)

Section Selections.
Context {C : Cheerio}.

(** [selection.text()]: the texts of the elements, concatenated. *)
Definition textOf (selection : list node) : string :=
  fold_right (fun n acc => text n +++ acc) EmptyString selection.

(** [selection.attr(name)]: the attribute of the first element. *)
Definition attrOf (selection : list node) (name : string) : option string :=
  match selection with
  | [] => None
  | n :: _ => attr n name
  end.

(** [selection.first()] *)
Definition first (selection : list node) : list node :=
  match selection with
  | [] => []
  | n :: _ => [n]
  end.

(** [selection.not(selector)] *)
Definition not_ (selection : list node) (sel : selector) : list node :=
  filter (fun n => negb (is_ n sel)) selection.

(** [selection.next()] of a selection of one element. *)
Definition next (n : node) : list node := first (nextAll n).

End Selections.

(* ================================================================== *)
(** * The extractors of [WebScraper] *)

Record breadcrumb : Type := mkBreadcrumb {
  name : string;
  url : string;
  position : nat
}.

Record faq : Type := mkFaq {
  question : value;
  answer : value
}.

Definition str (s : string) : value := Some (JString s).

Section Extractors.
Context {C : Cheerio} {U : UrlApi} {J : JsonApi}.

(** ** makeAbsoluteUrl (scraper.js, 563-569) *)

Definition makeAbsoluteUrl_body (url baseUrl : string) : M unit string :=
  tryCatch
    (u <- lift (URL_new url (Some baseUrl)) ;; ret (href u))
    (fun _ => ret url).

Definition makeAbsoluteUrl (url baseUrl : string) : Result string :=
  fst (makeAbsoluteUrl_body url baseUrl tt).

(** ** extractTitle (scraper.js, 279-281)

    [a || b] on strings, [None] standing for [undefined] and [null]. *)

Definition orElse (a b : option string) : option string :=
  match a with
  | Some s => if Js.truthy s then a else b
  | None => b
  end.

Definition titleTag (d : document) : string :=
  Js.trim (textOf (select d [[[Tag "title"]]])).

Definition ogTitle (d : document) : option string :=
  attrOf (select d [[[Tag "meta"; Attr "property" (AttrIs "og:title")]]])
         "content".

Definition firstHeading (d : document) : string :=
  Js.trim (textOf (first (select d [[[Tag "h1"]]]))).

Definition extractTitle (d : document) : option string :=
  orElse (Some (titleTag d))
    (orElse (ogTitle d)
       (orElse (Some (firstHeading d)) None)).

(** ** extractArticleBody (scraper.js, 340-412) *)

Definition contentSelectors : list selector :=
  [ [[[Tag "article"]; [Tag "p"]]];
    [[[Class "post-content"]; [Tag "p"]]];
    [[[Class "entry-content"]; [Tag "p"]]];
    [[[Class "article-content"]; [Tag "p"]]];
    [[[Class "content"]; [Tag "p"]]];
    [[[Tag "main"]; [Tag "p"]]] ].

Definition containerSelectors : list selector :=
  [ [[[Attr "property" (AttrIs "articleBody")]]];
    [[[Class "article-body"]]];
    [[[Class "post-body"]]];
    [[[Class "entry-body"]]];
    [[[Class "article-content"]]];
    [[[Class "post-content"]]];
    [[[Class "entry-content"]]];
    [[[Class "content-area"]]];
    [[[Class "main-content"]]];
    [[[Tag "article"]]];
    [[[Class "content"]]];
    [[[Tag "main"]]] ].

Definition unwanted : selector :=
  [ [[Tag "script"]]; [[Tag "style"]]; [[Tag "nav"]]; [[Tag "header"]];
    [[Tag "footer"]]; [[Class "navigation"]]; [[Class "breadcrumb"]];
    [[Class "social-share"]]; [[Class "comments"]]; [[Class "sidebar"]];
    [[Class "related-posts"]]; [[Class "author-box"]]; [[Class "tags"]];
    [[Class "categories"]]; [[Class "meta"]]; [[Class "advertisement"]];
    [[Class "ads"]]; [[Class "social-media"]]; [[Class "share-buttons"]] ].

(** [s.replace(/\s+/g, ' ').trim()] *)
Definition clean (s : string) : string := Js.trim (Js.collapseSpaces s).

(** The body of [paragraphs.each]: [combinedText] after one paragraph. *)
Definition addParagraph (combinedText : string) (elem : node) : string :=
  let text := Js.trim (text elem) in
  if 20 <? String.length text then combinedText +++ text +++ " "
  else combinedText.

(** The body of the first loop: [fullText] after one selector. *)
Definition tryParagraphs (d : document) (fullText : string) (sel : selector)
  : string :=
  let paragraphs := select d sel in
  if 5 <? List.length paragraphs then
    let combinedText := fold_left addParagraph paragraphs EmptyString in
    if String.length fullText <? String.length combinedText
    then combinedText else fullText
  else fullText.

(** The body of the second loop: [fullText] after one selector. *)
Definition tryContainer (d : document) (fullText : string) (sel : selector)
  : string :=
  match first (select d sel) with
  | [] => fullText
  | element :: _ =>
      let contentElement := clone element in
      let contentElement :=
        without contentElement (find contentElement unwanted) in
      let content := Js.trim (text contentElement) in
      let cleanContent := clean content in
      if (String.length fullText <? String.length cleanContent)
         && (200 <? String.length cleanContent)
      then cleanContent else fullText
  end.

(** [fullText] after the loop over [contentSelectors]. *)
Definition paragraphText (d : document) : string :=
  fold_left (tryParagraphs d) contentSelectors EmptyString.

(** [fullText] when the final test is reached. *)
Definition chosenText (d : document) : string :=
  let fullText := paragraphText d in
  if String.length fullText <? 500
  then fold_left (tryContainer d) containerSelectors fullText
  else fullText.

Definition extractArticleBody (d : document) : option string :=
  let fullText := chosenText d in
  if 200 <? String.length fullText then Some (clean fullText) else None.

(** ** extractBreadcrumbs (scraper.js, 441-515) *)

(** The local helper [ensureTrailingSlash(u)]; [url] is the parameter of
    the enclosing [extractBreadcrumbs]. *)
Definition ensureTrailingSlash (url u : string) : Result string :=
  if negb (Js.endsWith u "/") then
    match URL_new u (Some url) with
    | Throw e => Throw e
    | Ok urlObj =>
        let base := origin urlObj +++ pathname urlObj in
        let base := if negb (Js.endsWith base "/") then base +++ "/" else base in
        Ok (base
            +++ (if Js.truthy (search urlObj) then search urlObj else EmptyString)
            +++ (if Js.truthy (hash urlObj) then hash urlObj else EmptyString))
    end
  else Ok u.

Definition breadcrumbSelectors : list selector :=
  [ [[[Class "breadcrumb"]; [Tag "a"]]];
    [[[Class "breadcrumbs"]; [Tag "a"]]];
    [[[Attr "typeof" (AttrIs "BreadcrumbList")]; [Tag "a"]]];
    [[[Tag "nav"; Attr "aria-label" (AttrHasI "bread")]; [Tag "a"]]] ].

(** The callback of [elements.each]. *)
Definition recordLink (url : string) (index : nat) (element : node)
  : M (list breadcrumb) unit :=
  let text := Js.trim (text element) in
  match attr element "href" with
  | Some href =>
      if Js.truthy text && Js.truthy href then
        absoluteUrl <- lift (makeAbsoluteUrl href url) ;;
        absoluteUrl <- lift (ensureTrailingSlash url absoluteUrl) ;;
        push {| name := text; url := absoluteUrl; position := index + 1 |}
      else ret tt
  | None => ret tt
  end.

(** The loop over [breadcrumbSelectors]; the result is [found]. *)
Fixpoint trySelectors (d : document) (url : string) (sels : list selector)
  : M (list breadcrumb) bool :=
  match sels with
  | [] => ret false
  | sel :: rest =>
      let elements := select d sel in
      if 0 <? List.length elements then
        forEachIndexed elements (recordLink url) ;;
        ret true
      else trySelectors d url rest
  end.

(** The callback of [pathSegments.forEach], with the local variable
    [currentPath] threaded through the iterations. *)
Fixpoint eachSegment (url : string) (urlObj : URL) (currentPath : string)
         (index : nat) (segments : list string) : M (list breadcrumb) unit :=
  match segments with
  | [] => ret tt
  | segment :: rest =>
      let currentPath := currentPath +++ "/" +++ segment in
      let name := Js.capitalizeWords (Js.hyphensToSpaces segment) in
      let urlPath := protocol urlObj +++ "//" +++ host urlObj +++ currentPath in
      urlPath <- lift (ensureTrailingSlash url urlPath) ;;
      push {| name := name; url := urlPath; position := index + 2 |} ;;
      eachSegment url urlObj currentPath (S index) rest
  end.

(** The branch [if (!found)]: breadcrumbs built from the URL path. *)
Definition fromUrlPath (url : string) : M (list breadcrumb) unit :=
  urlObj <- lift (URL_new url None) ;;
  let pathSegments :=
    filter (fun s => 0 <? String.length s) (Js.splitOn "/" (pathname urlObj)) in
  home <- lift (ensureTrailingSlash url (protocol urlObj +++ "//" +++ host urlObj)) ;;
  push {| name := "Home"; url := home; position := 1 |} ;;
  eachSegment url urlObj EmptyString 0 pathSegments.

Definition extractBreadcrumbs_body (d : document) (url : string)
  : M (list breadcrumb) unit :=
  found <- trySelectors d url breadcrumbSelectors ;;
  when (negb found) (fromUrlPath url).

Definition extractBreadcrumbs (d : document) (url : string)
  : Result (list breadcrumb) :=
  match extractBreadcrumbs_body d url [] with
  | (Ok _, breadcrumbs) => Ok breadcrumbs
  | (Throw e, _) => Throw e
  end.

(** ** extractFaqs (scraper.js, 187-276) *)

Definition pushPair (question answer : string) : M (list faq) unit :=
  when (Js.truthy question && Js.truthy answer)
       (push {| question := str question; answer := str answer |}).

(** Method 1: schema.org microdata. *)
Definition microdataFaqs (d : document) : M (list faq) unit :=
  forEach (select d [[[Attr "itemtype" (AttrIs "https://schema.org/FAQPage")]]])
    (fun element =>
       forEach (find element [[[Attr "itemprop" (AttrIs "mainEntity")]]])
         (fun questionItem =>
            let question :=
              Js.trim (textOf (find questionItem
                                 [[[Attr "itemprop" (AttrIs "name")]]])) in
            let answer :=
              Js.trim (textOf (find questionItem
                                 [[[Attr "itemprop" (AttrIs "acceptedAnswer")];
                                   [Attr "itemprop" (AttrIs "text")]]])) in
            pushPair question answer)).

(** The callback of [data.mainEntity.forEach]. *)
Definition questionItem (item : value) : M (list faq) unit :=
  type <- lift (getProp item "@type") ;;
  if isString type "Question" then
    name <- lift (getProp item "name") ;;
    if truthy name then
      acceptedAnswer <- lift (getProp item "acceptedAnswer") ;;
      if truthy acceptedAnswer then
        let question := name in
        text <- lift (getProp acceptedAnswer "text") ;;
        answer <- (if truthy text then ret text
                   else name <- lift (getProp acceptedAnswer "name") ;;
                        ret (or_ name (str EmptyString))) ;;
        when (truthy question && truthy answer)
             (push {| question := question; answer := answer |})
      else ret tt
    else ret tt
  else ret tt.

(** The callback of the loop over the JSON-LD script tags, with its own
    [try]/[catch]; the parsed text is [$(element).html() || '']. *)
Definition jsonLdScript (element : node) : M (list faq) unit :=
  tryCatch
    (data <- lift (JSON_parse (match html element with
                               | Some h => h
                               | None => EmptyString
                               end)) ;;
     let data := Some data in
     type <- lift (getProp data "@type") ;;
     if isString type "FAQPage" then
       mainEntity <- lift (getProp data "mainEntity") ;;
       if truthy mainEntity then forEachValue mainEntity questionItem
       else ret tt
     else ret tt)
    (fun _ => ret tt).

(** Method 2: JSON-LD structured data. *)
Definition jsonLdFaqs (d : document) : M (list faq) unit :=
  forEach (select d [[[Tag "script"; Attr "type" (AttrIs "application/ld+json")]]])
          jsonLdScript.

(** The [while] loop of method 3 over [next = next.next()]. *)
Fixpoint skipBlankText (following : list node) : list node :=
  match following with
  | [] => []
  | n :: rest =>
      if (nodeType n =? "text")%string && negb (Js.truthy (Js.trim (text n)))
      then skipBlankText rest
      else following
  end.

(** Method 3: [.faq-content h3] followed by a [div]. *)
Definition faqContentFaqs (d : document) : M (list faq) unit :=
  forEach (select d [[[Class "faq-content"]; [Tag "h3"]]])
    (fun element =>
       let question := Js.trim (text element) in
       let next := first (skipBlankText (nextAll element)) in
       let answer :=
         match next with
         | n :: _ => if is_ n [[[Tag "div"]]] then Js.trim (text n)
                     else EmptyString
         | [] => EmptyString
         end in
       pushPair question answer).

(** Method 4: an [h3] followed by a [p] or a [div]. *)
Definition headingFaqs (d : document) : M (list faq) unit :=
  forEach (select d [[[Tag "h3"]]])
    (fun element =>
       match next element with
       | nextEl :: _ =>
           if is_ nextEl [[[Tag "p"]]; [[Tag "div"]]] then
             let question := Js.trim (text element) in
             let answer := Js.trim (text nextEl) in
             pushPair question answer
           else ret tt
       | [] => ret tt
       end).

Definition questionParts : selector :=
  [ [[Tag "h3"]]; [[Tag "h4"]]; [[Class "faq-question"]] ].

(** Method 5: [.faq-content .faq-item]. *)
Definition faqItemFaqs (d : document) : M (list faq) unit :=
  forEach (select d [[[Class "faq-content"]; [Class "faq-item"]]])
    (fun element =>
       let question :=
         Js.trim (textOf (first (find element questionParts))) in
       let answer :=
         Js.trim (textOf (first (not_ (find element
                                         [ [[Tag "div"]]; [[Tag "p"]];
                                           [[Class "faq-answer"]] ])
                                      questionParts))) in
       pushPair question answer).

(** [if (faqs.length === 0) { m }] *)
Definition ifNoneYet (m : M (list faq) unit) : M (list faq) unit :=
  faqs <- getArray ;;
  when (List.length faqs =? 0) m.

(** The five methods in sequence. *)
Definition cascade (d : document) : M (list faq) unit :=
  microdataFaqs d ;;
  jsonLdFaqs d ;;
  ifNoneYet (faqContentFaqs d) ;;
  ifNoneYet (headingFaqs d) ;;
  ifNoneYet (faqItemFaqs d).

(** [f.question.toLowerCase() === faq.question.toLowerCase()] *)
Definition sameQuestion {St} (faq f : faq) : M St bool :=
  a <- lift (toLowerCase (question f)) ;;
  b <- lift (toLowerCase (question faq)) ;;
  ret (a =? b)%string.

(** [self.findIndex(p)], [None] for [-1]; [i] is the index of the head. *)
Fixpoint findIndexFrom {St A} (i : nat) (self : list A) (p : A -> M St bool)
  : M St (option nat) :=
  match self with
  | [] => ret None
  | f :: rest =>
      b <- p f ;;
      if b then ret (Some i) else findIndexFrom (S i) rest p
  end.

(** [xs.filter((x, index) => p index x)]; [i] is the index of the head. *)
Fixpoint filterFrom {St A} (i : nat) (xs : list A) (p : nat -> A -> M St bool)
  : M St (list A) :=
  match xs with
  | [] => ret []
  | x :: rest =>
      b <- p i x ;;
      kept <- filterFrom (S i) rest p ;;
      ret (if b then x :: kept else kept)
  end.

(** The callback of [faqs.filter]:
    [index === self.findIndex(f => ...)]. *)
Definition isFirst {St} (self : list faq) (index : nat) (faq : faq)
  : M St bool :=
  found <- findIndexFrom 0 self (sameQuestion faq) ;;
  ret (match found with
       | Some j => index =? j
       | None => false
       end).

(** [faqs.filter((faq, index, self) => ...)] *)
Definition uniqueFaqs {St} (self : list faq) : M St (list faq) :=
  filterFrom 0 self (isFirst self).

(** The statements inside [try]. *)
Definition extractFaqs_try (d : document) : M (list faq) (list faq) :=
  cascade d ;;
  faqs <- getArray ;;
  uniqueFaqs <- uniqueFaqs faqs ;;
  ret (firstn 20 uniqueFaqs).

Definition extractFaqs_body (d : document) : M (list faq) (list faq) :=
  tryCatch (extractFaqs_try d) (fun _ => ret []).

(** [faqs] is empty when the function starts. *)
Definition extractFaqs (d : document) : Result (list faq) :=
  fst (extractFaqs_body d []).

End Extractors.

(** ** Vocabulary of the statements *)

(** What a computation pushes to an array that is empty at the start. *)
Definition pushedBy {A B} (m : M (list A) B) : list A := snd (m []).

(** The result of a computation that starts with an empty array. *)
Definition resultOf {A B} (m : M (list A) B) : Result B := fst (m []).

(** What the function returns when its body builds [breadcrumbs] from the
    empty array: the array, or the exception of the body. *)
Definition returned {A} (m : M (list A) unit) : Result (list A) :=
  match m [] with
  | (Ok _, built) => Ok built
  | (Throw e, _) => Throw e
  end.

(** The key by which two entries are the same question:
    [faq.question.toLowerCase()]. *)
Definition questionKey (f : faq) : Result string := toLowerCase (question f).

(** A link that [recordLink] records: [text && href]. *)
Definition recorded {C : Cheerio} (element : node) : bool :=
  Js.truthy (Js.trim (text element))
  && match attr element "href" with
     | Some href => Js.truthy href
     | None => false
     end.

(** The positions run 1, 2, 3, ... in the order of the entries. *)
Definition contiguous (l : list breadcrumb) : Prop :=
  map position l = seq 1 (List.length l).

(** A text that a container gave: cleaned, and longer than 200. *)
Definition fromContainer (s : string) : Prop :=
  exists content, s = clean content /\ 200 < String.length s.

(** The computation only adds to the end of the array, the same entries
    whatever the array holds, and it ends the same way. *)
Definition appends {A B} (m : M (list A) B) : Prop :=
  exists r l, forall s, m s = (r, s ++ l).

(** The computation adds entries to the end of the array and does not
    throw. *)
Definition pushes {A} (m : M (list A) unit) : Prop :=
  exists l, forall s, m s = (Ok tt, s ++ l).

(** [a === b] on the keys of two entries, when both are strings. *)
Definition sameKey (a b : Result string) : bool :=
  match a, b with
  | Ok x, Ok y => (x =? y)%string
  | _, _ => false
  end.

(** The index of the first entry of [self] with the key of [faq], the head
    of [self] having index [i]. *)
Fixpoint firstIndex (i : nat) (entry : faq) (self : list faq) : option nat :=
  match self with
  | [] => None
  | f :: rest =>
      if sameKey (questionKey f) (questionKey entry) then Some i
      else firstIndex (S i) entry rest
  end.

(** The entries of [xs], the head of which has index [i], that stand at
    the first index of their key in [self]. *)
Fixpoint keepFirst (self : list faq) (i : nat) (xs : list faq) : list faq :=
  match xs with
  | [] => []
  | x :: rest =>
      match firstIndex 0 x self with
      | Some j => if i =? j then x :: keepFirst self (S i) rest
                  else keepFirst self (S i) rest
      | None => keepFirst self (S i) rest
      end
  end.

(** The entry has a question that is a string. *)
Definition hasKey (f : faq) : Prop := exists k, questionKey f = Ok k.

(** No breadcrumb selector matches an element of the document. *)
Definition noTrail {C : Cheerio} (d : document) : Prop :=
  Forall (fun sel => select d sel = []) breadcrumbSelectors.

(** The non-empty segments of the path of a URL. *)
Definition pathSegments (urlObj : URL) : list string :=
  filter (fun s => 0 <? String.length s) (Js.splitOn "/" (pathname urlObj)).

(** The text of the entry of a segment. *)
Definition segmentName (segment : string) : string :=
  Js.capitalizeWords (Js.hyphensToSpaces segment).

(** The successive values of [currentPath]: the path up to each segment. *)
Fixpoint pathPrefixes (currentPath : string) (segments : list string)
  : list string :=
  match segments with
  | [] => []
  | segment :: rest =>
      (currentPath +++ "/" +++ segment)
      :: pathPrefixes (currentPath +++ "/" +++ segment) rest
  end.

(* ================================================================== *)
(** * A document tree for the scenarios

    An instance of [Cheerio]: the tree that cheerio builds from a page,
    with the selectors read the way cheerio (css-select) reads them.  The
    general theorems below hold for every instance; this one gives the
    concrete pages of the scenarios. *)

Module MiniDom.

#[warnings="-register-all"]
Inductive tree : Type :=
| TextNode (data : string)
| Element (tag : string) (attribs : list (string * string))
          (children : list tree).

(** An element together with its place in the document: its ancestors
    (the parent first), the siblings after it, and the child indices that
    lead to it from the root. *)
Record place : Type := mkPlace {
  self : tree;
  ancestors : list tree;
  following : list tree;
  path : list nat
}.

Definition isElement (t : tree) : bool :=
  match t with
  | Element _ _ _ => true
  | TextNode _ => false
  end.

Fixpoint assoc (key : string) (l : list (string * string)) : option string :=
  match l with
  | [] => None
  | (k, v) :: r => if (k =? key)%string then Some v else assoc key r
  end.

Definition getAttribute (t : tree) (key : string) : option string :=
  match t with
  | Element _ attribs _ => assoc key attribs
  | TextNode _ => None
  end.

(** The words of a [class] attribute. *)
Fixpoint wordsFrom (current : string) (s : string) : list string :=
  match s with
  | EmptyString => if (current =? "")%string then [] else [current]
  | String c r =>
      if Js.isSpace c
      then (if (current =? "")%string then wordsFrom EmptyString r
            else current :: wordsFrom EmptyString r)
      else wordsFrom (current +++ String c EmptyString) r
  end.

Definition words (s : string) : list string := wordsFrom EmptyString s.

Fixpoint isPrefix (p s : string) : bool :=
  match p, s with
  | EmptyString, _ => true
  | String a p', String b s' => Ascii.eqb a b && isPrefix p' s'
  | String _ _, EmptyString => false
  end.

Fixpoint contains (needle hay : string) : bool :=
  isPrefix needle hay ||
  match hay with
  | EmptyString => false
  | String _ r => contains needle r
  end.

Definition matchSimple (t : tree) (s : simple) : bool :=
  match t with
  | TextNode _ => false
  | Element tag attribs _ =>
      match s with
      | Tag n => (tag =? n)%string
      | Class c =>
          match assoc "class" attribs with
          | Some v => existsb (String.eqb c) (words v)
          | None => false
          end
      | Attr n (AttrIs v) =>
          match assoc n attribs with
          | Some x => (x =? v)%string
          | None => false
          end
      | Attr n (AttrHasI v) =>
          match assoc n attribs with
          | Some x =>
              negb (v =? "")%string
              && contains (Js.toLowerCase v) (Js.toLowerCase x)
          | None => false
          end
      end
  end.

Definition matchCompound (t : tree) (c : compound) : bool :=
  forallb (matchSimple t) c.

(** The descendant combinator: the compounds left of the subject, the
    nearest first, each matched by an ancestor further out than the one
    before. *)
Fixpoint matchChain (outer : list compound) (ancs : list tree) : bool :=
  match outer, ancs with
  | [], _ => true
  | _ :: _, [] => false
  | c :: cs, a :: rest =>
      if matchCompound a c then matchChain cs rest
      else matchChain outer rest
  end.

Definition matchComplex (t : tree) (ancs : list tree) (cx : complex) : bool :=
  match rev cx with
  | [] => false
  | subject :: outer => matchCompound t subject && matchChain outer ancs
  end.

Definition matchSelector (t : tree) (ancs : list tree) (sel : selector)
  : bool :=
  isElement t && existsb (matchComplex t ancs) sel.

(** The nodes below [t] in document order; [ancs] and [at_] are the
    ancestors and the path of [t]. *)
Fixpoint descendants (ancs : list tree) (at_ : list nat) (t : tree)
  : list place :=
  match t with
  | TextNode _ => []
  | Element _ _ children =>
      (fix each (i : nat) (cs : list tree) : list place :=
         match cs with
         | [] => []
         | c :: rest =>
             mkPlace c (t :: ancs) rest (at_ ++ [i])
             :: descendants (t :: ancs) (at_ ++ [i]) c
             ++ each (S i) rest
         end) 0 children
  end.

Definition selectIn (root : tree) (sel : selector) : list place :=
  filter (fun p => matchSelector (self p) (ancestors p) sel)
         (descendants [] [] root).

(** [find]: the selector is read from the context element, so the
    ancestors that count are the ones below it. *)
Definition findIn (p : place) (sel : selector) : list place :=
  map (fun q => mkPlace (self q) (ancestors q ++ ancestors p) (following q)
                        (path p ++ path q))
      (filter (fun q => matchSelector (self q) (removelast (ancestors q)) sel)
              (descendants [] [] (self p))).

Fixpoint textContent (t : tree) : string :=
  match t with
  | TextNode data => data
  | Element _ _ children =>
      (fix each (cs : list tree) : string :=
         match cs with
         | [] => EmptyString
         | c :: rest => textContent c +++ each rest
         end) children
  end.

(** The element siblings after a node. *)
Fixpoint siblings (ancs : list tree) (parent : list nat) (i : nat)
         (l : list tree) : list place :=
  match l with
  | [] => []
  | t :: rest =>
      (if isElement t then [mkPlace t ancs rest (parent ++ [i])] else [])
      ++ siblings ancs parent (S i) rest
  end.

Definition nextAllOf (p : place) : list place :=
  siblings (ancestors p) (removelast (path p)) (S (last (path p) 0))
           (following p).

Definition typeOf (p : place) : string :=
  match self p with
  | TextNode _ => "text"
  | Element tag _ _ =>
      if (tag =? "script")%string then "script"
      else if (tag =? "style")%string then "style" else "tag"
  end.

(** [html()] of an element whose children are text, as a script tag. *)
Definition innerHtml (p : place) : option string :=
  match self p with
  | TextNode _ => None
  | Element _ _ _ => Some (textContent (self p))
  end.

Definition cloneOf (p : place) : place := mkPlace (self p) [] [] [].

(** The paths of [paths] that start with the index [i], less that index. *)
Fixpoint under (i : nat) (paths : list (list nat)) : list (list nat) :=
  match paths with
  | [] => []
  | (j :: r) :: more => if i =? j then r :: under i more else under i more
  | [] :: more => under i more
  end.

(** The tree without the subtrees at [paths]. *)
Fixpoint prune (paths : list (list nat)) (t : tree) : tree :=
  match t with
  | TextNode _ => t
  | Element tag attribs children =>
      Element tag attribs
        ((fix each (i : nat) (cs : list tree) : list tree :=
            match cs with
            | [] => []
            | c :: rest =>
                let below := under i paths in
                if existsb (fun r => List.length r =? 0) below
                then each (S i) rest
                else prune below c :: each (S i) rest
            end) 0 children)
  end.

Definition withoutOf (p : place) (removed : list place) : place :=
  let rel := map (fun q => skipn (List.length (path p)) (path q)) removed in
  mkPlace (prune rel (self p)) (ancestors p) (following p) (path p).

#[global] Instance cheerio : Cheerio := {|
  document := tree;
  node := place;
  select := selectIn;
  find := findIn;
  text := fun p => textContent (self p);
  attr := fun p key => getAttribute (self p) key;
  html := innerHtml;
  nextAll := nextAllOf;
  nodeType := typeOf;
  is_ := fun p sel => matchSelector (self p) (ancestors p) sel;
  clone := cloneOf;
  without := withoutOf
|}.

(** The document node of a parsed page, with the [html], [head] and
    [body] elements that the parser always builds. *)
Definition page (head body : list tree) : tree :=
  Element "#document" []
    [Element "html" [] [Element "head" [] head; Element "body" [] body]].

End MiniDom.

(* ================================================================== *)
(** * A URL parser for the scenarios

    An instance of [UrlApi]: the parser of the URL Standard, which Node's
    [URL] class implements, on absolute http, https, ws, wss and ftp URLs
    with a domain host, on URLs of other schemes with an opaque path
    (mailto:, tel:, javascript:, ...), and on relative references against
    such a base.  Outside of that (credentials, IP-address hosts, hosts that
    need IDNA or percent-decoding, file: and blob: URLs, other schemes with
    an authority or a hierarchical path) the model answers [Unmodelled],
    which is not an exception of JavaScript; no scenario below reaches it. *)

Module Whatwg.

Definition unmodelled (what : string) : exn := Unmodelled what.

Definition invalid : exn := TypeError "Invalid URL".

Definition code (c : ascii) : nat := nat_of_ascii c.

Definition isAlpha (c : ascii) : bool :=
  ((65 <=? code c) && (code c <=? 90)) || ((97 <=? code c) && (code c <=? 122)).

Definition isDigit (c : ascii) : bool := (48 <=? code c) && (code c <=? 57).

Definition isHex (c : ascii) : bool :=
  isDigit c || ((65 <=? code c) && (code c <=? 70))
  || ((97 <=? code c) && (code c <=? 102)).

Definition lowerAscii (c : ascii) : ascii :=
  if (65 <=? code c) && (code c <=? 90) then ascii_of_nat (code c + 32) else c.

Fixpoint lower (s : string) : string :=
  match s with
  | EmptyString => EmptyString
  | String c r => String (lowerAscii c) (lower r)
  end.

Fixpoint all (p : ascii -> bool) (s : string) : bool :=
  match s with
  | EmptyString => true
  | String c r => p c && all p r
  end.

Definition any (p : ascii -> bool) (s : string) : bool :=
  negb (all (fun c => negb (p c)) s).

Definition among (cs : list nat) (c : ascii) : bool :=
  existsb (Nat.eqb (code c)) cs.

Definition isSlash (c : ascii) : bool := among [47; 92] c.

(** ** Preprocessing of the input *)

Fixpoint dropWhile (p : ascii -> bool) (s : string) : string :=
  match s with
  | EmptyString => EmptyString
  | String c r => if p c then dropWhile p r else s
  end.

Fixpoint dropWhileEnd (p : ascii -> bool) (s : string) : string :=
  match s with
  | EmptyString => EmptyString
  | String c r =>
      let r' := dropWhileEnd p r in
      if p c && (r' =? "")%string then EmptyString else String c r'
  end.

Fixpoint remove (p : ascii -> bool) (s : string) : string :=
  match s with
  | EmptyString => EmptyString
  | String c r => if p c then remove p r else String c (remove p r)
  end.

(** Leading and trailing C0 controls and spaces are stripped, tabs and
    newlines are removed. *)
Definition prepare (input : string) : string :=
  let c0OrSpace := fun c => code c <=? 32 in
  remove (among [9; 10; 13]) (dropWhileEnd c0OrSpace (dropWhile c0OrSpace input)).

(** The part before the first character in [p], and the rest from that
    character on. *)
Fixpoint breakAt (p : ascii -> bool) (s : string) : string * string :=
  match s with
  | EmptyString => (EmptyString, EmptyString)
  | String c r =>
      if p c then (EmptyString, s)
      else let '(a, b) := breakAt p r in (String c a, b)
  end.

Fixpoint splitAt (p : ascii -> bool) (s : string) : list string :=
  match s with
  | EmptyString => [EmptyString]
  | String c r =>
      if p c then EmptyString :: splitAt p r
      else match splitAt p r with
           | [] => [String c EmptyString]
           | w :: ws => String c w :: ws
           end
  end.

(** ** Percent-encoding *)

Definition hexDigit (n : nat) : ascii :=
  match get n "0123456789ABCDEF" with
  | Some c => c
  | None => "0"%char
  end.

Definition encodeByte (n : nat) : string :=
  String "%" (String (hexDigit (n / 16)) (String (hexDigit (n mod 16)) EmptyString)).

(** A code unit in the set is replaced by the percent-encoded bytes of
    its UTF-8 form. *)
Definition encodeChar (inSet : nat -> bool) (c : ascii) : string :=
  let n := code c in
  if inSet n then
    if n <? 128 then encodeByte n
    else encodeByte (192 + n / 64) +++ encodeByte (128 + n mod 64)
  else String c EmptyString.

Fixpoint encode (inSet : nat -> bool) (s : string) : string :=
  match s with
  | EmptyString => EmptyString
  | String c r => encodeChar inSet c +++ encode inSet r
  end.

Definition c0Set (n : nat) : bool := (n <? 32) || (126 <? n).
Definition fragmentSet (n : nat) : bool :=
  c0Set n || existsb (Nat.eqb n) [32; 34; 60; 62; 96].
Definition querySet (n : nat) : bool :=
  c0Set n || existsb (Nat.eqb n) [32; 34; 35; 60; 62].
Definition specialQuerySet (n : nat) : bool := querySet n || (n =? 39).
Definition pathSet (n : nat) : bool :=
  querySet n || existsb (Nat.eqb n) [63; 94; 96; 123; 125].

(** ** The URL record *)

Inductive urlPath : Type :=
| Opaque (p : string)
| Segments (l : list string).

Record record : Type := mkRecord {
  scheme : string;
  hostname : option string;
  port : option string;
  path : urlPath;
  query : option string;
  fragment : option string
}.

Definition special (s : string) : bool :=
  existsb (String.eqb s) ["http"; "https"; "ws"; "wss"; "ftp"].

Definition defaultPort (s : string) : nat :=
  if (s =? "http")%string || (s =? "ws")%string then 80
  else if (s =? "https")%string || (s =? "wss")%string then 443
  else 21.

(** ** Scheme *)

Fixpoint schemeTail (s : string) : option (string * string) :=
  match s with
  | EmptyString => None
  | String c r =>
      if Ascii.eqb c ":" then Some (EmptyString, r)
      else if isAlpha c || isDigit c || among [43; 45; 46] c then
        match schemeTail r with
        | Some (t, rest) => Some (String (lowerAscii c) t, rest)
        | None => None
        end
      else None
  end.

Definition splitScheme (s : string) : option (string * string) :=
  match s with
  | EmptyString => None
  | String c r =>
      if isAlpha c then
        match schemeTail r with
        | Some (t, rest) => Some (String (lowerAscii c) t, rest)
        | None => None
        end
      else None
  end.

(** ** Host and port *)

Definition forbiddenDomain (c : ascii) : bool :=
  (code c <? 32) || among [32; 35; 37; 47; 58; 60; 62; 63; 64; 91; 92; 93; 94; 124; 127] c.

(** The last label is a number: the host would be an IPv4 address. *)
Definition endsInNumber (h : string) : bool :=
  let labels := splitAt (among [46]) h in
  let labels := if (last labels "x" =? "")%string then removelast labels
                else labels in
  let l := last labels EmptyString in
  (negb (l =? "")%string && all isDigit l)
  || (MiniDom.isPrefix "0x" (lower l) && all isHex (substring 2 (String.length l) l)).

Definition parseHost (h : string) : Result string :=
  if (h =? "")%string then Throw invalid
  else if any (fun c => Ascii.eqb c "%") h then Throw (unmodelled "percent-encoded host")
  else if any (fun c => 127 <? code c) h then Throw (unmodelled "IDNA host")
  else if any (fun c => Ascii.eqb c "[") h then Throw (unmodelled "IPv6 host")
  else
    let h := lower h in
    if existsb (MiniDom.isPrefix "xn--") (splitAt (among [46]) h)
    then Throw (unmodelled "punycode host")
    else if any forbiddenDomain h then Throw invalid
    else if endsInNumber h then Throw (unmodelled "IPv4 host")
    else Ok h.

Fixpoint decimal (acc : nat) (s : string) : nat :=
  match s with
  | EmptyString => acc
  | String c r => decimal (10 * acc + (code c - 48)) r
  end.

Definition parsePort (sch : string) (p : string) : Result (option string) :=
  if (p =? "")%string then Ok None
  else if negb (all isDigit p) then Throw invalid
  else
    let digits := dropWhile (fun c => Ascii.eqb c "0") p in
    if 5 <? String.length digits then Throw invalid
    else
      let n := decimal 0 digits in
      if 256 * 256 <=? n then Throw invalid
      else if n =? defaultPort sch then Ok None
      else Ok (Some (if (digits =? "")%string then "0" else digits)).

(** ** Path, query and fragment *)

Definition singleDot (seg : string) : bool :=
  existsb (String.eqb (lower seg)) ["."; "%2e"].

Definition doubleDot (seg : string) : bool :=
  existsb (String.eqb (lower seg)) [".."; ".%2e"; "%2e."; "%2e%2e"].

(** The path state, one segment at a time; [segs] are the segments still
    to read, the last one ending the path. *)
Fixpoint walk (sofar : list string) (segs : list string) : list string :=
  match segs with
  | [] => sofar
  | seg :: rest =>
      let isLast := match rest with [] => true | _ => false end in
      if doubleDot seg then
        walk (if isLast then removelast sofar ++ [EmptyString]
              else removelast sofar) rest
      else if singleDot seg then
        walk (if isLast then sofar ++ [EmptyString] else sofar) rest
      else walk (sofar ++ [encode pathSet seg]) rest
  end.

Definition fragmentOf (s : string) : option string :=
  match s with
  | String "#" r => Some (encode fragmentSet r)
  | _ => None
  end.

(** [s] starts at the [?] or [#] that ends the path, or is empty. *)
Definition queryAndFragment (sch : string) (s : string)
  : option string * option string :=
  match s with
  | String "?" r =>
      let '(q, f) := breakAt (among [35]) r in
      (Some (encode (if special sch then specialQuerySet else querySet) q),
       fragmentOf f)
  | _ => (None, fragmentOf s)
  end.

(** The path state of a special URL on [r], the path so far being
    [sofar]. *)
Definition pathState (sch : string) (h : option string) (p : option string)
           (sofar : list string) (r : string) : record :=
  let '(pth, rest) := breakAt (among [63; 35]) r in
  let '(q, f) := queryAndFragment sch rest in
  mkRecord sch h p (Segments (walk sofar (splitAt isSlash pth))) q f.

(** The authority state of a special URL, once the slashes before it are
    skipped. *)
Definition authorityState (sch : string) (r : string) : Result record :=
  let r := dropWhile isSlash r in
  let '(auth, rest) := breakAt (among [47; 92; 63; 35]) r in
  if any (fun c => Ascii.eqb c "@") auth then Throw (unmodelled "credentials")
  else
    let '(h, p) := breakAt (among [58]) auth in
    match parseHost h with
    | Throw e => Throw e
    | Ok h =>
        match parsePort sch (match p with String _ digits => digits | _ => p end) with
        | Throw e => Throw e
        | Ok p =>
            let rest := match rest with
                        | String c r' => if isSlash c then r' else rest
                        | EmptyString => rest
                        end in
            Ok (pathState sch (Some h) p [] rest)
        end
    end.

(** The relative state: [r] is read against the special base [b]. *)
Definition relativeState (b : record) (r : string) : Result record :=
  let sofar := match path b with Segments l => l | Opaque _ => [] end in
  match r with
  | EmptyString =>
      Ok (mkRecord (scheme b) (hostname b) (port b) (path b) (query b) None)
  | String c r' =>
      if isSlash c then
        match r' with
        | String c2 _ =>
            if isSlash c2 then authorityState (scheme b) r'
            else Ok (pathState (scheme b) (hostname b) (port b) [] r')
        | EmptyString => Ok (pathState (scheme b) (hostname b) (port b) [] r')
        end
      else if Ascii.eqb c "?" then
        let '(q, f) := queryAndFragment (scheme b) r in
        Ok (mkRecord (scheme b) (hostname b) (port b) (path b) q f)
      else if Ascii.eqb c "#" then
        Ok (mkRecord (scheme b) (hostname b) (port b) (path b) (query b)
                     (fragmentOf r))
      else Ok (pathState (scheme b) (hostname b) (port b) (removelast sofar) r)
  end.

(** ** The basic URL parser *)

Definition basicParse (input : string) (base : option record) : Result record :=
  let input := prepare input in
  match splitScheme input with
  | Some (sch, rest) =>
      if (sch =? "file")%string || (sch =? "blob")%string
      then Throw (unmodelled "file: and blob: URLs")
      else if special sch then
        match base with
        | Some b =>
            if (scheme b =? sch)%string && negb (MiniDom.isPrefix "//" rest)
            then relativeState b rest
            else authorityState sch rest
        | None => authorityState sch rest
        end
      else if MiniDom.isPrefix "/" rest
      then Throw (unmodelled "a scheme that is not special, with a slash")
      else
        let '(p, qf) := breakAt (among [63; 35]) rest in
        let '(q, f) := queryAndFragment sch qf in
        Ok (mkRecord sch None None (Opaque (encode c0Set p)) q f)
  | None =>
      match base with
      | None => Throw invalid
      | Some b =>
          match path b with
          | Opaque _ =>
              match input with
              | String "#" _ =>
                  Ok (mkRecord (scheme b) (hostname b) (port b) (path b)
                               (query b) (fragmentOf input))
              | _ => Throw invalid
              end
          | Segments _ => relativeState b input
          end
      end
  end.

(** ** Serialization: the getters of the URL object *)

Definition hostOf (r : record) : string :=
  match hostname r with
  | None => EmptyString
  | Some h => h +++ match port r with
                    | Some p => ":" +++ p
                    | None => EmptyString
                    end
  end.

Definition pathnameOf (r : record) : string :=
  match path r with
  | Opaque p => p
  | Segments l => fold_right (fun seg acc => "/" +++ seg +++ acc) EmptyString l
  end.

Definition searchOf (r : record) : string :=
  match query r with
  | Some q => if (q =? "")%string then EmptyString else "?" +++ q
  | None => EmptyString
  end.

Definition hashOf (r : record) : string :=
  match fragment r with
  | Some f => if (f =? "")%string then EmptyString else "#" +++ f
  | None => EmptyString
  end.

Definition hrefOf (r : record) : string :=
  scheme r +++ ":"
  +++ match hostname r with
      | Some _ => "//" +++ hostOf r
      | None => EmptyString
      end
  +++ pathnameOf r
  +++ match query r with Some q => "?" +++ q | None => EmptyString end
  +++ match fragment r with Some f => "#" +++ f | None => EmptyString end.

Definition originOf (r : record) : string :=
  if special (scheme r) then scheme r +++ "://" +++ hostOf r else "null".

Definition toURL (r : record) : URL :=
  {| href := hrefOf r;
     protocol := scheme r +++ ":";
     host := hostOf r;
     origin := originOf r;
     pathname := pathnameOf r;
     search := searchOf r;
     hash := hashOf r |}.

(** [new URL(input, base)] *)
Definition parse (input : string) (base : option string) : Result URL :=
  match base with
  | None =>
      match basicParse input None with
      | Ok r => Ok (toURL r)
      | Throw e => Throw e
      end
  | Some b =>
      match basicParse b None with
      | Throw e => Throw e
      | Ok br =>
          match basicParse input (Some br) with
          | Ok r => Ok (toURL r)
          | Throw e => Throw e
          end
      end
  end.

#[global] Instance url : UrlApi := {| URL_new := parse |}.

End Whatwg.

(* ================================================================== *)
(** * A JSON parser for the scenarios

    An instance of [JsonApi]: [JSON.parse] on texts whose numbers are
    non-negative integer literals and whose strings escape only the quote,
    the backslash, the slash and the control letters.  Other numbers and
    [\u] escapes make the model answer [Unmodelled]. *)

Module MiniJson.

Definition code (c : ascii) : nat := nat_of_ascii c.

Definition unexpected : exn := SyntaxError "Unexpected token in JSON".

(** The white space of JSON: space, tab, LF, CR. *)
Fixpoint skipWs (s : string) : string :=
  match s with
  | String c r =>
      if existsb (Nat.eqb (code c)) [32; 9; 10; 13] then skipWs r else s
  | EmptyString => s
  end.

(** [s] without the literal [word] at its start. *)
Definition expect (word : string) (s : string) : Result string :=
  if MiniDom.isPrefix word s
  then Ok (substring (String.length word) (String.length s) s)
  else Throw unexpected.

(** The characters of a string literal after its opening quote, and what
    follows the closing quote. *)
Fixpoint stringBody (s : string) : Result (string * string) :=
  match s with
  | EmptyString => Throw unexpected
  | String c r =>
      if code c =? 34 then Ok (EmptyString, r)
      else if code c <? 32 then Throw unexpected
      else if code c =? 92 then
        match r with
        | String e r' =>
            let unescaped :=
              if code e =? 34 then Some e
              else if code e =? 92 then Some e
              else if code e =? 47 then Some e
              else if code e =? 98 then Some (ascii_of_nat 8)
              else if code e =? 102 then Some (ascii_of_nat 12)
              else if code e =? 110 then Some (ascii_of_nat 10)
              else if code e =? 114 then Some (ascii_of_nat 13)
              else if code e =? 116 then Some (ascii_of_nat 9)
              else None in
            match unescaped with
            | Some u =>
                match stringBody r' with
                | Ok (body, rest) => Ok (String u body, rest)
                | Throw x => Throw x
                end
            | None =>
                if code e =? 117 then Throw (Unmodelled "a \u escape")
                else Throw unexpected
            end
        | EmptyString => Throw unexpected
        end
      else
        match stringBody r with
        | Ok (body, rest) => Ok (String c body, rest)
        | Throw x => Throw x
        end
  end.

Definition isDigit (c : ascii) : bool := (48 <=? code c) && (code c <=? 57).

Fixpoint digits (acc : nat) (s : string) : nat * string :=
  match s with
  | String c r => if isDigit c then digits (10 * acc + (code c - 48)) r
                  else (acc, s)
  | EmptyString => (acc, s)
  end.

(** A non-negative integer literal. *)
Definition number (s : string) : Result (json * string) :=
  let '(n, rest) := digits 0 s in
  match s, rest with
  | String "0" (String d _), _ =>
      if isDigit d then Throw unexpected
      else if existsb (Nat.eqb (code d)) [46; 69; 101]
      then Throw (Unmodelled "a number with a fraction or an exponent")
      else Ok (JNumber n, rest)
  | _, String d _ =>
      if existsb (Nat.eqb (code d)) [46; 69; 101]
      then Throw (Unmodelled "a number with a fraction or an exponent")
      else Ok (JNumber n, rest)
  | _, EmptyString => Ok (JNumber n, rest)
  end.

(** A value at the start of [s], and what follows it.  The fuel bounds the
    nesting and the number of elements; the length of the text is enough. *)
Fixpoint parseValue (fuel : nat) (s : string) : Result (json * string) :=
  match fuel with
  | 0 => Throw (Unmodelled "out of fuel")
  | S fuel =>
      let s := skipWs s in
      match s with
      | EmptyString => Throw unexpected
      | String c r =>
          if code c =? 110 then
            match expect "null" s with Ok rest => Ok (JNull, rest) | Throw x => Throw x end
          else if code c =? 116 then
            match expect "true" s with Ok rest => Ok (JBool true, rest) | Throw x => Throw x end
          else if code c =? 102 then
            match expect "false" s with Ok rest => Ok (JBool false, rest) | Throw x => Throw x end
          else if code c =? 34 then
            match stringBody r with
            | Ok (body, rest) => Ok (JString body, rest)
            | Throw x => Throw x
            end
          else if code c =? 91 then
            match skipWs r with
            | String "]" rest => Ok (JArray [], rest)
            | _ =>
                match parseElements fuel r with
                | Ok (items, rest) => Ok (JArray items, rest)
                | Throw x => Throw x
                end
            end
          else if code c =? 123 then
            match skipWs r with
            | String "}" rest => Ok (JObject [], rest)
            | _ =>
                match parseMembers fuel r with
                | Ok (fields, rest) => Ok (JObject (rev fields), rest)
                | Throw x => Throw x
                end
            end
          else if isDigit c then number s
          else if code c =? 45 then Throw (Unmodelled "a negative number")
          else Throw unexpected
      end
  end

with parseElements (fuel : nat) (s : string) : Result (list json * string) :=
  match fuel with
  | 0 => Throw (Unmodelled "out of fuel")
  | S fuel =>
      match parseValue fuel s with
      | Throw x => Throw x
      | Ok (v, rest) =>
          match skipWs rest with
          | String "," rest' =>
              match parseElements fuel rest' with
              | Ok (vs, rest'') => Ok (v :: vs, rest'')
              | Throw x => Throw x
              end
          | String "]" rest' => Ok ([v], rest')
          | _ => Throw unexpected
          end
      end
  end

with parseMembers (fuel : nat) (s : string)
  : Result (list (string * json) * string) :=
  match fuel with
  | 0 => Throw (Unmodelled "out of fuel")
  | S fuel =>
      match skipWs s with
      | String c r =>
          if code c =? 34 then
            match stringBody r with
            | Throw x => Throw x
            | Ok (key, rest) =>
                match skipWs rest with
                | String ":" rest' =>
                    match parseValue fuel rest' with
                    | Throw x => Throw x
                    | Ok (v, rest'') =>
                        match skipWs rest'' with
                        | String "," more =>
                            match parseMembers fuel more with
                            | Ok (fs, after) => Ok ((key, v) :: fs, after)
                            | Throw x => Throw x
                            end
                        | String "}" after => Ok ([(key, v)], after)
                        | _ => Throw unexpected
                        end
                    end
                | _ => Throw unexpected
                end
            end
          else Throw unexpected
      | EmptyString => Throw unexpected
      end
  end.

(** [JSON.parse(text)] *)
Definition parse (text : string) : Result json :=
  match parseValue (2 * String.length text + 2) text with
  | Throw x => Throw x
  | Ok (v, rest) =>
      match skipWs rest with
      | EmptyString => Ok v
      | _ => Throw unexpected
      end
  end.

#[global] Instance json : JsonApi := {| JSON_parse := parse |}.

(** A text with every apostrophe replaced by a double quote, to write the
    JSON texts of the scenarios. *)
Fixpoint quoted (s : string) : string :=
  match s with
  | EmptyString => EmptyString
  | String c r =>
      String (if code c =? 39 then ascii_of_nat 34 else c) (quoted r)
  end.

End MiniJson.

(* ================================================================== *)
(** * The pages of the scenarios *)

Module Scenarios.
Import MiniDom.

Definition pageUrl : string := "https://ex.com/blog/post".

(** A page with nothing that an extractor looks for but a title. *)
Definition plainPage : tree :=
  page [Element "title" [] [TextNode "Hello"]]
       [Element "p" [] [TextNode "Nothing here."]].

(** [<meta property="og:title" content="X">] and no [title] tag. *)
Definition ogTitlePage : tree :=
  page [Element "meta" [("property", "og:title"); ("content", "X")] []] [].

(** The same with blanks around the content. *)
Definition paddedOgTitlePage : tree :=
  page [Element "meta" [("property", "og:title"); ("content", " X ")] []] [].

(** A breadcrumb trail whose first link is an icon, without text:
    [<nav class="breadcrumb"><a href="/"><img src="/home.png"></a>
     <a href="/blog">Blog</a></nav>]. *)
Definition iconHomePage : tree :=
  page []
    [Element "nav" [("class", "breadcrumb")]
       [Element "a" [("href", "/")] [Element "img" [("src", "/home.png")] []];
        Element "a" [("href", "/blog")] [TextNode "Blog"]]].

(** A trail whose links all have a text and an [href]:
    [<nav class="breadcrumb"><a href="/">Home</a><a href="/blog">Blog</a>
     </nav>]. *)
Definition fullTrailPage : tree :=
  page []
    [Element "nav" [("class", "breadcrumb")]
       [Element "a" [("href", "/")] [TextNode "Home"];
        Element "a" [("href", "/blog")] [TextNode "Blog"]]].

(** A trail none of whose links has both a text and an [href]:
    [<ul class="breadcrumbs"><a href="/"><img src="/home.png"></a>
     <a>Blog</a></ul>]. *)
Definition emptyLinksPage : tree :=
  page []
    [Element "ul" [("class", "breadcrumbs")]
       [Element "a" [("href", "/")] [Element "img" [("src", "/home.png")] []];
        Element "a" [] [TextNode "Blog"]]].

(** A trail that ends with a link to write to the site:
    [<nav class="breadcrumb"><a href="mailto:a@b.com?subject=x">Contact</a>
     </nav>]. *)
Definition contactLinkPage : tree :=
  page []
    [Element "nav" [("class", "breadcrumb")]
       [Element "a" [("href", "mailto:a@b.com?subject=x")]
                [TextNode "Contact"]]].

Fixpoint spaces (n : nat) : string :=
  match n with
  | 0 => EmptyString
  | S m => String " " (spaces m)
  end.

(** A paragraph of 46 characters, 30 of them the blanks of an indented
    line break in the page source. *)
Definition sparseParagraph : tree :=
  Element "p" [] [TextNode ("Lorem ipsum" +++ spaces 30 +++ "dolor")].

(** [<article>] with six such paragraphs. *)
Definition sparseArticlePage : tree :=
  page [] [Element "article" [] (repeat sparseParagraph 6)].

Definition ldJson (content : string) : tree :=
  Element "script" [("type", "application/ld+json")]
          [TextNode (MiniJson.quoted content)].

Definition faqJson (name : string) : string :=
  "{'@type':'FAQPage','mainEntity':[{'@type':'Question','name':" +++ name
  +++ ",'acceptedAnswer':{'text':'A1'}}]}".

(** The JSON-LD scenario of the specification. *)
Definition jsonLdPage : tree := page [ldJson (faqJson "'Q1'")] [].

(** A script tag with malformed JSON before the good one. *)
Definition brokenJsonPage : tree :=
  page [ldJson "{'@type':'FAQPage',"; ldJson (faqJson "'Q1'")] [].

Definition ldJsonTags (d : tree) : list place :=
  select d [[[Tag "script"; Attr "type" (AttrIs "application/ld+json")]]].

Definition noTag : place := mkPlace (TextNode EmptyString) [] [] [].

(** The two script tags of [brokenJsonPage]. *)
Definition brokenTag : place := nth 0 (ldJsonTags brokenJsonPage) noTag.
Definition goodTag : place := nth 1 (ldJsonTags brokenJsonPage) noTag.

(** A question whose name is a number. *)
Definition numericNamePage : tree := page [ldJson (faqJson "5")] [].

(** Microdata and headings on one page: method 1 finds a pair, so the
    [h3] below is not read. *)
Definition mixedPage : tree :=
  page []
    [Element "div" [("itemtype", "https://schema.org/FAQPage")]
       [Element "div" [("itemprop", "mainEntity")]
          [Element "span" [("itemprop", "name")] [TextNode " What? "];
           Element "div" [("itemprop", "acceptedAnswer")]
             [Element "span" [("itemprop", "text")] [TextNode "This."]]]];
     Element "h3" [] [TextNode "WHAT?"];
     Element "p" [] [TextNode "That."]].

(** Headings only: method 4 pairs each [h3] with the [p] after it. *)
Definition headingsPage : tree :=
  page []
    [Element "h3" [] [TextNode "What?"]; Element "p" [] [TextNode "This."];
     Element "h3" [] [TextNode "WHAT?"]; Element "p" [] [TextNode "That."];
     Element "h3" [] [TextNode "Why?"]; Element "div" [] [TextNode "So."]].

End Scenarios.

(* ================================================================== *)
(** * The rest of the scraper and the schema generator

    The extractors of [WebScraper] that come before, [extractMetadata]
    that calls them all, and the generators of [SchemaGenerator]
    (src/schemaGenerator.js). *)

(** ** More of the platform *)

(** [s.startsWith(t)] *)
Fixpoint startsWith (s t : string) : bool :=
  match t, s with
  | EmptyString, _ => true
  | String b t', String a s' => Ascii.eqb a b && startsWith s' t'
  | String _ _, EmptyString => false
  end.

(** [s.includes(t)] *)
Fixpoint includes (s t : string) : bool :=
  startsWith s t ||
  match s with
  | EmptyString => false
  | String _ r => includes r t
  end.

(** The attribute tests that the selectors of [extractDates] and
    [extractAuthorUrl] need beside the ones above. *)
Inductive attrTestMore : Type :=
| AttrStarts (v : string)   (** [[name^="v"]] *)
| AttrHas (v : string).     (** [[name*="v"]] *)

Inductive simpleMore : Type :=
| Plain (s : simple)
| AttrMore (name : string) (test : attrTestMore).

Definition selectorMore : Type := list (list (list simpleMore)).

Class CheerioMore (C : Cheerio) : Type := {
  (** [$(selector)] for these selectors *)
  selectMore : document -> selectorMore -> list node
}.

Class DateApi : Type := {
  (** [new Date(dateStr)] read the way [formatDate] reads it: [None] when
      [getTime()] is [NaN], and the string of [toISOString()] otherwise *)
  Date_new : string -> Result (option string)
}.

Class StringifyApi : Type := {
  (** [JSON.stringify(value, null, 2)] *)
  JSON_stringify : json -> string
}.

(** A computation that has no array to push to. *)
Definition run {A} (m : M unit A) : Result A := fst (m tt).

(** [value && ...] on an attribute or a field that may be absent. *)
Definition present (v : option string) : bool :=
  match v with
  | Some s => Js.truthy s
  | None => false
  end.

(** ** The record that [extractMetadata] returns *)

Module Image.
Record t : Type := mk {
  url : string;
  width : option string;
  height : option string
}.
End Image.

(** What [extractDates] returns. *)
Module Dates.
Record t : Type := mk {
  datePublished : option string;
  dateModified : option string
}.
End Dates.

(** What [extractPublisher] returns. *)
Module Publisher.
Record t : Type := mk {
  publisherName : option string;
  publisherLogo : option string
}.
End Publisher.

Record ExtractedData : Type := mkData {
  title : option string;
  description : option string;
  author : option string;
  datePublished : option string;
  dateModified : option string;
  image : option Image.t;
  articleSection : option string;
  articleBody : option string;
  breadcrumbs : option (list breadcrumb);
  faqs : option (list faq);
  publisherName : option string;
  publisherLogo : option string;
  authorUrl : option string
}.

Section MoreExtractors.
Context {C : Cheerio} {X : CheerioMore C} {U : UrlApi} {J : JsonApi}
        {D : DateApi}.

(** ** extractDescription, extractAuthor, extractArticleSection,
    extractPublisher (scraper.js, 283-289, 336-338, 517-521) *)

Definition metaContent (d : document) (key value : string) : option string :=
  attrOf (select d [[[Tag "meta"; Attr key (AttrIs value)]]]) "content".

Definition extractDescription (d : document) : option string :=
  orElse (metaContent d "name" "description")
    (orElse (metaContent d "property" "og:description") None).

Definition extractAuthor (d : document) : option string :=
  orElse (metaContent d "name" "author")
    (orElse (metaContent d "property" "article:author")
       (orElse
          (Some (Js.trim (textOf (select d [[[Attr "itemprop" (AttrIs "author")];
                                             [Attr "itemprop" (AttrIs "name")]]]))))
          None)).

Definition extractArticleSection (d : document) : option string :=
  orElse (metaContent d "property" "article:section") None.

Definition extractPublisher (d : document) : Publisher.t :=
  {| Publisher.publisherName :=
       orElse (metaContent d "property" "og:site_name") None;
     Publisher.publisherLogo :=
       orElse (attrOf (select d [[[Attr "itemprop" (AttrIs "publisher")];
                                   [Attr "itemprop" (AttrIs "logo")]]])
                      "content")
              None |}.

(** ** formatDate and extractDates (scraper.js, 296-318, 571-581) *)

Definition formatDate (dateStr : string) : Result (option string) :=
  run (tryCatch (lift (Date_new dateStr)) (fun _ => ret None)).

Definition dateElements : selectorMore :=
  [ [[Plain (Tag "meta"); AttrMore "property" (AttrStarts "article:published_time")]];
    [[Plain (Tag "meta"); AttrMore "property" (AttrStarts "article:modified_time")]];
    [[Plain (Tag "time"); AttrMore "itemprop" (AttrStarts "datePublished")]];
    [[Plain (Tag "time"); AttrMore "itemprop" (AttrStarts "dateModified")]] ].

(** [prop.includes('published_time') || prop.includes('datePublished')] *)
Definition isPublished (prop : string) : bool :=
  includes prop "published_time" || includes prop "datePublished".

Definition isModified (prop : string) : bool :=
  includes prop "modified_time" || includes prop "dateModified".

(** [datePublished = v] and [dateModified = v] on the two local
    variables of [extractDates]. *)
Definition setPublished (v : option string) : M Dates.t unit :=
  fun s => (Ok tt, {| Dates.datePublished := v;
                      Dates.dateModified := Dates.dateModified s |}).

Definition setModified (v : option string) : M Dates.t unit :=
  fun s => (Ok tt, {| Dates.datePublished := Dates.datePublished s;
                      Dates.dateModified := v |}).

(** The callback of [dateElements.each]. *)
Definition readDate (el : node) : M Dates.t unit :=
  let prop := orElse (attr el "property") (attr el "itemprop") in
  let content := orElse (attr el "content") (attr el "datetime") in
  match prop, content with
  | Some prop, Some content =>
      if Js.truthy prop && Js.truthy content then
        (if isPublished prop then
           formatted <- lift (formatDate content) ;; setPublished formatted
         else ret tt) ;;
        (if isModified prop then
           formatted <- lift (formatDate content) ;; setModified formatted
         else ret tt)
      else ret tt
  | _, _ => ret tt
  end.

Definition extractDates (d : document) : Result Dates.t :=
  match forEach (selectMore d dateElements) readDate
                {| Dates.datePublished := None; Dates.dateModified := None |} with
  | (Ok _, found) => Ok found
  | (Throw e, _) => Throw e
  end.

(** ** extractImage (scraper.js, 320-334) *)

Definition extractImage (d : document) (baseUrl : string)
  : Result (option Image.t) :=
  run (match orElse (metaContent d "property" "og:image") None with
       | Some ogImage =>
           url <- lift (makeAbsoluteUrl ogImage baseUrl) ;;
           ret (Some {| Image.url := url;
                        Image.width :=
                          orElse (metaContent d "property" "og:image:width") None;
                        Image.height :=
                          orElse (metaContent d "property" "og:image:height") None |})
       | None =>
           match orElse (attrOf (first (select d [[[Tag "img"]]])) "src") None with
           | Some regularImage =>
               url <- lift (makeAbsoluteUrl regularImage baseUrl) ;;
               ret (Some {| Image.url := url; Image.width := None;
                            Image.height := None |})
           | None => ret None
           end
       end).

(** ** extractAuthorUrl (scraper.js, 523-545) *)

Definition one (s : simple) : list simpleMore := [Plain s].

Definition authorSelectors : list selectorMore :=
  [ [[one (Attr "rel" (AttrIs "author"))]];
    [[one (Class "author"); one (Tag "a")]];
    [[one (Class "byline"); one (Tag "a")]];
    [[one (Class "article-author"); one (Tag "a")]];
    [[one (Class "post-author"); one (Tag "a")]];
    [[one (Class "entry-author"); one (Tag "a")]];
    [[[Plain (Tag "a"); AttrMore "href" (AttrHas "/author/")]]];
    [[[Plain (Tag "a"); AttrMore "href" (AttrHas "/authors/")]]];
    [[one (Class "author-info"); one (Tag "a")]];
    [[one (Class "author-name"); one (Tag "a")]] ].

(** The loop over the selectors: the first selector whose first element
    has an [href] ends it. *)
Fixpoint authorUrlFrom (d : document) (baseUrl : string)
         (sels : list selectorMore) : M unit (option string) :=
  match sels with
  | [] => ret None
  | sel :: rest =>
      let element := first (selectMore d sel) in
      match attrOf element "href" with
      | Some href =>
          if Js.truthy href then
            absolute <- lift (makeAbsoluteUrl href baseUrl) ;;
            ret (Some absolute)
          else authorUrlFrom d baseUrl rest
      | None => authorUrlFrom d baseUrl rest
      end
  end.

Definition extractAuthorUrl (d : document) (baseUrl : string)
  : Result (option string) :=
  run (authorUrlFrom d baseUrl authorSelectors).

(** ** extractJsonLd (scraper.js, 547-561) *)

(** [data && typeof data === 'object'] *)
Definition isObject (data : json) : bool :=
  match data with
  | JObject _ => true
  | JArray _ => true
  | _ => false
  end.

(** cheerio's [each] with a callback that may return [false] to end the
    loop; [body] answers whether the loop goes on. *)
Fixpoint eachWhile {St A} (xs : list A) (body : A -> M St bool) : M St unit :=
  match xs with
  | [] => ret tt
  | x :: r =>
      goOn <- body x ;;
      if goOn then eachWhile r body else ret tt
  end.

(** The callback of the loop; the state is the local variable [jsonLd]. *)
Definition readJsonLd (element : node) : M (option json) bool :=
  tryCatch
    (data <- lift (JSON_parse (match html element with
                               | Some h => h
                               | None => EmptyString
                               end)) ;;
     if isObject data then
       (fun _ => (Ok false, Some data))
     else ret true)
    (fun _ => ret true).

Definition extractJsonLd (d : document) : Result (option json) :=
  match eachWhile
          (select d [[[Tag "script"; Attr "type" (AttrIs "application/ld+json")]]])
          readJsonLd None with
  | (Ok _, jsonLd) => Ok jsonLd
  | (Throw e, _) => Throw e
  end.

(** ** extractMetadata (scraper.js, 149-178) *)

Definition extractMetadata (d : document) (url : string) : Result ExtractedData :=
  run (let title := extractTitle d in
       let description := extractDescription d in
       let author := extractAuthor d in
       dates <- lift (extractDates d) ;;
       image <- lift (extractImage d url) ;;
       let articleSection := extractArticleSection d in
       let articleBody := extractArticleBody d in
       breadcrumbs <- lift (extractBreadcrumbs d url) ;;
       faqs <- lift (extractFaqs d) ;;
       let publisher := extractPublisher d in
       authorUrl <- lift (extractAuthorUrl d url) ;;
       ret {| title := title;
              description := description;
              author := author;
              datePublished := Dates.datePublished dates;
              dateModified := Dates.dateModified dates;
              image := image;
              articleSection := articleSection;
              articleBody := articleBody;
              breadcrumbs := Some breadcrumbs;
              faqs := Some faqs;
              publisherName := Publisher.publisherName publisher;
              publisherLogo := Publisher.publisherLogo publisher;
              authorUrl := authorUrl |}).

End MoreExtractors.

(** ** The schema generator (src/schemaGenerator.js) *)

(** A property of an object literal: [JSON.stringify] leaves out a
    property whose value is [undefined]. *)
Definition field (key : string) (v : value) : list (string * json) :=
  match v with
  | Some j => [(key, j)]
  | None => []
  end.

(** The double quote and the line feed of the template literals. *)
Definition quote : string := String (ascii_of_nat 34) EmptyString.
Definition newline : string := String (ascii_of_nat 10) EmptyString.

(** The template that wraps a schema:
    [<script type="application/ld+json">\n...\n</script>]. *)
Definition scriptTag {G : StringifyApi} (schema : json) : string :=
  "<script type=" +++ quote +++ "application/ld+json" +++ quote +++ ">"
  +++ newline +++ JSON_stringify schema +++ newline +++ "</script>".

(** [xs.map((x, index) => f index x)], the index counted from [i]. *)
Fixpoint mapFrom {St A B} (i : nat) (xs : list A) (f : nat -> A -> M St B)
  : M St (list B) :=
  match xs with
  | [] => ret []
  | x :: rest =>
      y <- f i x ;;
      ys <- mapFrom (S i) rest f ;;
      ret (y :: ys)
  end.

Section Generator.
Context {U : UrlApi} {G : StringifyApi}.

(** The helper of [generateBreadcrumbSchema] (schemaGenerator.js,
    125-137). *)
Definition ensureSlash (u : string) : Result string :=
  run (if negb (Js.endsWith u "/") then
         tryCatch
           (urlObj <- lift (URL_new u None) ;;
            let base := origin urlObj +++ pathname urlObj in
            let base := if negb (Js.endsWith base "/") then base +++ "/" else base in
            ret (base
                 +++ (if Js.truthy (search urlObj) then search urlObj
                      else EmptyString)
                 +++ (if Js.truthy (hash urlObj) then hash urlObj
                      else EmptyString)))
           (fun _ => ret (if Js.endsWith u "/" then u else u +++ "/"))
       else ret u).

(** The callback of [data.breadcrumbs.map]. *)
Definition listItem (index : nat) (crumb : breadcrumb) : M unit json :=
  item <- lift (ensureSlash (url crumb)) ;;
  ret (JObject [ ("@type", JString "ListItem");
                 ("position", JNumber (index + 1));
                 ("name", JString (name crumb));
                 ("item", JString item) ]).

(** The object [schema] of [generateBreadcrumbSchema]. *)
Definition breadcrumbSchema (crumbs : list breadcrumb) : Result json :=
  run (items <- mapFrom 0 crumbs listItem ;;
       ret (JObject [ ("@context", JString "https://schema.org");
                      ("@type", JString "BreadcrumbList");
                      ("itemListElement", JArray items) ])).

(** generateBreadcrumbSchema (schemaGenerator.js, 118-150); [None] is
    [null]. *)
Definition generateBreadcrumbSchema (data : ExtractedData)
  : Result (option string) :=
  match breadcrumbs data with
  | None => Ok None
  | Some crumbs =>
      if List.length crumbs =? 0 then Ok None
      else match breadcrumbSchema crumbs with
           | Ok schema => Ok (Some (scriptTag schema))
           | Throw e => Throw e
           end
  end.

(** The callback of [data.faqs.map]. *)
Definition questionEntry (f : faq) : json :=
  JObject ([("@type", JString "Question")]
           ++ field "name" (question f)
           ++ [("acceptedAnswer",
                JObject ([("@type", JString "Answer")] ++ field "text" (answer f)))]).

(** The object [schema] of [generateFaqSchema]. *)
Definition faqSchema (entries : list faq) : json :=
  JObject [ ("@context", JString "https://schema.org");
            ("@type", JString "FAQPage");
            ("mainEntity", JArray (map questionEntry entries)) ].

(** generateFaqSchema (schemaGenerator.js, 167-185) *)
Definition generateFaqSchema (data : ExtractedData) : option string :=
  match faqs data with
  | None => None
  | Some entries =>
      if List.length entries =? 0 then None
      else Some (scriptTag (faqSchema entries))
  end.

End Generator.

(** ** Vocabulary of the statements about them *)

(** [object[key]] of a JSON value that is an object. *)
Definition member (key : string) (v : json) : value :=
  match v with
  | JObject fields => lookup key fields
  | _ => None
  end.

(** The property and the value that [readDate] reads on an element, when
    both are there. *)
Definition dated {C : Cheerio} (el : node) : option (string * string) :=
  match orElse (attr el "property") (attr el "itemprop"),
        orElse (attr el "content") (attr el "datetime") with
  | Some prop, Some content =>
      if Js.truthy prop && Js.truthy content then Some (prop, content) else None
  | _, _ => None
  end.

(** The element sets [datePublished]. *)
Definition setsPublished {C : Cheerio} (el : node) : bool :=
  match dated el with
  | Some (prop, _) => isPublished prop
  | None => false
  end.

(** The element sets [dateModified]. *)
Definition setsModified {C : Cheerio} (el : node) : bool :=
  match dated el with
  | Some (prop, _) => isModified prop
  | None => false
  end.

(** What [formatDate] returns, [null] standing for every failure. *)
Definition formatted {D : DateApi} (dateStr : string) : option string :=
  match Date_new dateStr with
  | Ok iso => iso
  | Throw _ => None
  end.

(** The first element of the selector has an [href]. *)
Definition firstHref {C : Cheerio} {X : CheerioMore C} (d : document)
           (sel : selectorMore) : option string :=
  orElse (attrOf (first (selectMore d sel)) "href") None.

(** The script tag holds an object or an array. *)
Definition holdsObject {C : Cheerio} {J : JsonApi} (element : node)
  : option json :=
  match JSON_parse (match html element with
                    | Some h => h
                    | None => EmptyString
                    end) with
  | Ok data => if isObject data then Some data else None
  | Throw _ => None
  end.

(** An entry that [extractFaqs] may push: a question and an answer that
    are truthy. *)
Definition complete (f : faq) : Prop :=
  truthy (question f) = true /\ truthy (answer f) = true.

(** The computation only adds entries with the property [P] to the end of
    the array. *)
Definition appendsOnly {A B} (P : A -> Prop) (m : M (list A) B) : Prop :=
  exists r l, (forall s, m s = (r, s ++ l)) /\ Forall P l.

(** The same, and the computation does not throw. *)
Definition pushesOnly {A} (P : A -> Prop) (m : M (list A) unit) : Prop :=
  exists l, (forall s, m s = (Ok tt, s ++ l)) /\ Forall P l.

(** A field that is absent or not empty. *)
Definition filled (v : option string) : Prop :=
  match v with
  | Some s => s <> EmptyString
  | None => True
  end.

(** ** More vocabulary *)

(** The two variables of [extractDates] after one element. *)
Definition dateStep {C : Cheerio} {D : DateApi} (found : Dates.t) (el : node)
  : Dates.t :=
  match dated el with
  | Some (prop, content) =>
      {| Dates.datePublished :=
           if isPublished prop then formatted content
           else Dates.datePublished found;
         Dates.dateModified :=
           if isModified prop then formatted content
           else Dates.dateModified found |}
  | None => found
  end.

(** The [src] that [extractImage] reads when there is no [og:image]. *)
Definition firstImage {C : Cheerio} (d : document) : option string :=
  orElse (attrOf (first (select d [[[Tag "img"]]])) "src") None.

(** The [og:image] that [extractImage] reads. *)
Definition ogImage {C : Cheerio} (d : document) : option string :=
  orElse (attrOf (select d [[[Tag "meta"; Attr "property" (AttrIs "og:image")]]])
                 "content")
         None.

(** The script tags that [extractJsonLd] scans. *)
Definition jsonLdTags {C : Cheerio} (d : document) : list node :=
  select d [[[Tag "script"; Attr "type" (AttrIs "application/ld+json")]]].

(** An entry whose question and answer are strings without white space
    at either end. *)
Definition trimmed (f : faq) : Prop :=
  exists q a, question f = str q /\ answer f = str a
              /\ Js.trim q = q /\ Js.trim a = a.

(* ================================================================== *)
(** * The instances of the rest of the platform, for the scenarios *)

(** The selectors of [selectorMore] on the trees of [MiniDom]. *)
Module MiniDomMore.
Import MiniDom.

Definition matchSimpleMore (t : tree) (s : simpleMore) : bool :=
  match s with
  | Plain s => matchSimple t s
  | AttrMore n (AttrStarts v) =>
      match getAttribute t n with
      | Some x => negb (v =? "")%string && startsWith x v
      | None => false
      end
  | AttrMore n (AttrHas v) =>
      match getAttribute t n with
      | Some x => negb (v =? "")%string && includes x v
      | None => false
      end
  end.

Definition matchCompoundMore (t : tree) (c : list simpleMore) : bool :=
  forallb (matchSimpleMore t) c.

Fixpoint matchChainMore (outer : list (list simpleMore)) (ancs : list tree)
  : bool :=
  match outer, ancs with
  | [], _ => true
  | _ :: _, [] => false
  | c :: cs, a :: rest =>
      if matchCompoundMore a c then matchChainMore cs rest
      else matchChainMore outer rest
  end.

Definition matchComplexMore (t : tree) (ancs : list tree)
           (cx : list (list simpleMore)) : bool :=
  match rev cx with
  | [] => false
  | subject :: outer => matchCompoundMore t subject && matchChainMore outer ancs
  end.

Definition selectMoreIn (root : tree) (sel : selectorMore) : list place :=
  filter (fun p => isElement (self p)
                   && existsb (matchComplexMore (self p) (ancestors p)) sel)
         (descendants [] [] root).

#[global] Instance cheerioMore : CheerioMore cheerio :=
  {| selectMore := selectMoreIn |}.

End MiniDomMore.

(** An instance of [DateApi] on two kinds of strings: a date and time in
    the format of [toISOString], which [new Date] reads and
    [toISOString] writes back unchanged, and a string without a digit,
    which [new Date] reads as an invalid date.  On other strings the
    model answers [Unmodelled]. *)
Module MiniDate.

Definition isDigit (c : ascii) : bool :=
  (48 <=? nat_of_ascii c) && (nat_of_ascii c <=? 57).

(** [s] has the shape [pattern], where [d] stands for a digit. *)
Fixpoint shaped (pattern s : string) : bool :=
  match pattern, s with
  | EmptyString, EmptyString => true
  | String p pattern', String c s' =>
      (if Ascii.eqb p "d" then isDigit c else Ascii.eqb p c)
      && shaped pattern' s'
  | _, _ => false
  end.

Fixpoint decimal (acc : nat) (s : string) : nat :=
  match s with
  | EmptyString => acc
  | String c r => decimal (10 * acc + (nat_of_ascii c - 48)) r
  end.

Definition numberAt (from len : nat) (s : string) : nat :=
  decimal 0 (substring from len s).

(** The fields are those of a date that exists in every year. *)
Definition inRange (s : string) : bool :=
  (1 <=? numberAt 5 2 s) && (numberAt 5 2 s <=? 12)
  && (1 <=? numberAt 8 2 s) && (numberAt 8 2 s <=? 28)
  && (numberAt 11 2 s <=? 23)
  && (numberAt 14 2 s <=? 59)
  && (numberAt 17 2 s <=? 59).

Fixpoint noDigit (s : string) : bool :=
  match s with
  | EmptyString => true
  | String c r => negb (isDigit c) && noDigit r
  end.

Definition parse (s : string) : Result (option string) :=
  if shaped "dddd-dd-ddTdd:dd:dd.dddZ" s && inRange s then Ok (Some s)
  else if noDigit s then Ok None
  else Throw (Unmodelled "a date that is not in the format of toISOString").

#[global] Instance date : DateApi := {| Date_new := parse |}.

End MiniDate.

(** * Pages for the rest of the extractors *)

Module MorePages.
Import MiniDom.

Definition meta (key value content : string) : tree :=
  Element "meta" [(key, value); ("content", content)] [].

(** Two publication dates, the second one not a date, and a date of
    modification:
    [<meta property="article:published_time" content="2024-01-02T03:04:05.000Z">
     <meta property="article:published_time" content="yesterday">
     <time itemprop="dateModified" datetime="2024-05-06T07:08:09.000Z">]. *)
Definition datesPage : tree :=
  page [meta "property" "article:published_time" "2024-01-02T03:04:05.000Z";
        meta "property" "article:published_time" "yesterday"]
       [Element "time" [("itemprop", "dateModified");
                        ("datetime", "2024-05-06T07:08:09.000Z")]
                [TextNode "6 May"]].

(** The elements that [extractDates] selects on [datesPage]. *)
Definition dateNodes : list place :=
  MiniDomMore.selectMoreIn datesPage dateElements.

Definition noNode : place := mkPlace (TextNode EmptyString) [] [] [].

(** An author box whose first link has no [href], and a link to the
    author's page after it:
    [<div class="author"><a>Jane</a><a href="/team/jane">Profile</a></div>
     <a href="/authors/jane">More by Jane</a>]. *)
Definition authorPage : tree :=
  page []
    [Element "div" [("class", "author")]
       [Element "a" [] [TextNode "Jane"];
        Element "a" [("href", "/team/jane")] [TextNode "Profile"]];
     Element "a" [("href", "/authors/jane")] [TextNode "More by Jane"]].

(** A breadcrumb trail whose link has an [href] that is no URL:
    [<nav class="breadcrumb"><a href="http://a b">Home</a></nav>]. *)
Definition badHrefPage : tree :=
  page []
    [Element "nav" [("class", "breadcrumb")]
       [Element "a" [("href", "http://a b")] [TextNode "Home"]]].

(** The link of [badHrefPage]. *)
Definition badLink : place :=
  nth 0 (selectIn badHrefPage [[[Class "breadcrumb"]; [Tag "a"]]]) noNode.

(** The page that carries the schema generated for one question; the
    members of each object are written last first, the order in which
    [MiniJson.parse] lists them. *)
Definition faqSchemaPage : tree :=
  page [Scenarios.ldJson
          ("{'mainEntity':[{'acceptedAnswer':{'text':'A1','@type':'Answer'},"
           +++ "'name':'Q1','@type':'Question'}],"
           +++ "'@type':'FAQPage','@context':'https://schema.org'}")]
       [].

(** The script tag of [faqSchemaPage]. *)
Definition faqSchemaTag : place :=
  nth 0 (Scenarios.ldJsonTags faqSchemaPage) noNode.

(** Five short paragraphs in an [article], and a long text in [main]:
    the paragraphs are too few to be read. *)
Definition longText : string :=
  "Lorem ipsum dolor sit amet, consectetur adipiscing elit, sed do eiusmod "
  +++ "tempor incididunt ut labore et dolore magna aliqua. Ut enim ad minim "
  +++ "veniam, quis nostrud exercitation ullamco laboris nisi ut aliquip ex "
  +++ "ea commodo consequat.".

Definition fewParagraphsPage : tree :=
  page []
    [Element "article" []
       (repeat (Element "p" [] [TextNode "Short."]) 5);
     Element "main" [] [TextNode longText]].

(** A page with a title, a description and a site name that are empty. *)
Definition emptyFieldsPage : tree :=
  page [Element "title" [] [TextNode "  "];
        meta "name" "description" EmptyString;
        meta "property" "og:site_name" EmptyString]
       [].

(** A page whose first image is loaded later and has no [src]:
    [<img data-src="/a.png"><img src="/b.png">]. *)
Definition lazyImagePage : tree :=
  page []
    [Element "img" [("data-src", "/a.png")] [];
     Element "img" [("src", "/b.png")] []].


(** A breadcrumb of the page at [/blog/post] whose position is 3 though
    it is the second of the list, as [extractBreadcrumbs] leaves it after
    a link without text. *)
Definition gapTrail : list breadcrumb :=
  [ {| name := "Home"; url := "https://ex.com/"; position := 1 |};
    {| name := "Post"; url := "https://ex.com/blog/post"; position := 3 |} ].

End MorePages.
(* ================================================================== *)
(** * Properties of the string operations *)

Module JsFacts.
Import Js.

Lemma trimStart_noLeadingSpace (s : string) : noLeadingSpace (trimStart s).
Proof.
  induction s as [|c r IH]; simpl; [exact I|].
  destruct (isSpace c) eqn:E; [exact IH | exact E].
Qed.

Lemma trimStart_fixed (s : string) : noLeadingSpace s -> trimStart s = s.
Proof.
  destruct s as [|c r]; simpl; [reflexivity|].
  intros ->. reflexivity.
Qed.

Lemma trimEnd_noLeadingSpace (s : string) :
  noLeadingSpace s -> noLeadingSpace (trimEnd s).
Proof.
  destruct s as [|c r]; simpl; [exact id|].
  intros E. rewrite E. exact E.
Qed.

Lemma trimEnd_idempotent (s : string) : trimEnd (trimEnd s) = trimEnd s.
Proof.
  induction s as [|c r IH]; simpl; [reflexivity|].
  destruct (isSpace c && (trimEnd r =? "")%string) eqn:E; simpl;
    [reflexivity|].
  rewrite IH, E. reflexivity.
Qed.

(** [trim] leaves a trimmed string as it is. *)
Lemma trim_idempotent (s : string) : trim (trim s) = trim s.
Proof.
  unfold trim.
  rewrite (trimStart_fixed (trimEnd (trimStart s))).
  - apply trimEnd_idempotent.
  - apply trimEnd_noLeadingSpace, trimStart_noLeadingSpace.
Qed.

Lemma tidyFrom_weaken (s : string) :
  tidyFrom true s = true -> tidyFrom false s = true.
Proof.
  destruct s as [|c r]; simpl; [reflexivity|].
  destruct (isSpace c); [discriminate | exact id].
Qed.

Lemma collapseFrom_tidy (s : string) :
  tidyFrom true (collapseFrom true s) = true
  /\ tidyFrom false (collapseFrom false s) = true.
Proof.
  induction s as [|c r [IHt IHf]]; simpl; [split; reflexivity|].
  destruct (isSpace c) eqn:E; simpl.
  - split; [exact IHt|].
    change (isSpace " ") with true. simpl. exact IHt.
  - rewrite E. split; exact IHf.
Qed.

Lemma collapseFrom_fixed (s : string) :
  forall b, tidyFrom b s = true -> collapseFrom b s = s.
Proof.
  induction s as [|c r IH]; intros b; simpl; [reflexivity|].
  destruct (isSpace c) eqn:E.
  - destruct b; simpl; [discriminate|].
    intros H. apply andb_prop in H as [H Hr].
    apply Ascii.eqb_eq in H. subst c.
    rewrite (IH true Hr). reflexivity.
  - intros H. rewrite (IH false H). reflexivity.
Qed.

Lemma trimStart_tidy (s : string) :
  tidyFrom false s = true -> tidyFrom false (trimStart s) = true.
Proof.
  induction s as [|c r IH]; simpl; [reflexivity|].
  destruct (isSpace c) eqn:E; simpl.
  - intros H. apply andb_prop in H as [_ H].
    apply IH, tidyFrom_weaken, H.
  - rewrite E. exact id.
Qed.

Lemma trimEnd_tidy (s : string) :
  forall b, tidyFrom b s = true -> tidyFrom b (trimEnd s) = true.
Proof.
  induction s as [|c r IH]; intros b; simpl; [reflexivity|].
  destruct (isSpace c) eqn:E; simpl.
  - destruct (trimEnd r =? "")%string eqn:Er; simpl; [reflexivity|].
    rewrite E. intros H.
    apply andb_prop in H as [H Hr]. rewrite H. simpl. apply IH, Hr.
  - rewrite E. apply IH.
Qed.

Lemma trim_collapse_tidy (s : string) :
  tidyFrom false (trim (collapseSpaces s)) = true.
Proof.
  unfold trim, collapseSpaces.
  apply trimEnd_tidy, trimStart_tidy, collapseFrom_tidy.
Qed.

(** [s.replace(/\s+/g, ' ').trim()] leaves its own results as they are. *)
Lemma trim_collapse_idempotent (s : string) :
  trim (collapseSpaces (trim (collapseSpaces s))) = trim (collapseSpaces s).
Proof.
  unfold collapseSpaces at 1.
  rewrite (collapseFrom_fixed _ _ (trim_collapse_tidy s)).
  apply trim_idempotent.
Qed.

End JsFacts.

(* ================================================================== *)
(** * makeAbsoluteUrl *)

Section MakeAbsoluteUrl.
Context {U : UrlApi}.

(** C9. [makeAbsoluteUrl(R, A)] never throws: for every base [A] and every
    string [R] it returns a string, the [href] of the resolved URL, and [R]
    itself, unchanged, when the [URL] constructor throws on [R] and [A]. *)
Theorem makeAbsoluteUrl_never_throws (R A : string) :
  makeAbsoluteUrl R A
  = Ok (match URL_new R (Some A) with
        | Ok resolved => href resolved
        | Throw _ => R
        end).
Proof.
  unfold makeAbsoluteUrl, makeAbsoluteUrl_body, tryCatch, bind, lift, ret.
  destruct (URL_new R (Some A)); reflexivity.
Qed.

End MakeAbsoluteUrl.

(* ================================================================== *)
(** * extractTitle *)

Section Title.
Context {C : Cheerio}.

Lemma titleTag_trimmed (d : document) : Js.trim (titleTag d) = titleTag d.
Proof. apply JsFacts.trim_idempotent. Qed.

Lemma firstHeading_trimmed (d : document) :
  Js.trim (firstHeading d) = firstHeading d.
Proof. apply JsFacts.trim_idempotent. Qed.

Lemma textOf_nil : textOf [] = EmptyString.
Proof. reflexivity. Qed.

(** C6, as amended.  The title is the first non-empty one of the text of
    the [title] tags, the [content] of the Open Graph title and the text
    of the first [h1]; the texts of the tags are trimmed, the [content]
    attribute is returned as it is written.  With an Open Graph title "X"
    and no [title] tag, the title is "X". *)
Theorem extractTitle_cascade (d : document) :
  extractTitle d
  = (if Js.truthy (titleTag d) then Some (titleTag d)
     else match ogTitle d with
          | Some content =>
              if Js.truthy content then Some content
              else if Js.truthy (firstHeading d) then Some (firstHeading d)
                   else None
          | None =>
              if Js.truthy (firstHeading d) then Some (firstHeading d)
              else None
          end)
  /\ Js.trim (titleTag d) = titleTag d
  /\ Js.trim (firstHeading d) = firstHeading d
  /\ (select d [[[Tag "title"]]] = [] -> ogTitle d = Some "X" ->
      extractTitle d = Some "X").
Proof.
  split; [|split; [apply titleTag_trimmed|split; [apply firstHeading_trimmed|]]].
  - unfold extractTitle, orElse.
    destruct (Js.truthy (titleTag d)); [reflexivity|].
    destruct (ogTitle d) as [content|].
    + destruct (Js.truthy content); [reflexivity|].
      destruct (Js.truthy (firstHeading d)); reflexivity.
    + destruct (Js.truthy (firstHeading d)); reflexivity.
  - intros Hno Hog. unfold extractTitle, orElse, titleTag.
    rewrite Hno, Hog. reflexivity.
Qed.

End Title.

(** The page of the scenario discharges the hypotheses of
    [extractTitle_cascade]. *)
Lemma extractTitle_cascade_witness :
  extractTitle Scenarios.ogTitlePage = Some "X".
Proof.
  apply (extractTitle_cascade (C := MiniDom.cheerio) Scenarios.ogTitlePage);
    reflexivity.
Defined.

(** C6 as stated fails: the [content] of the Open Graph title is returned
    with the blanks around it. *)
Lemma extractTitle_not_trimmed :
  extractTitle Scenarios.paddedOgTitlePage = Some " X "
  /\ Js.trim " X " <> " X ".
Proof. split; [reflexivity | discriminate]. Qed.

(* ================================================================== *)
(** * extractArticleBody *)

Section ArticleBody.
Context {C : Cheerio}.

Lemma clean_idempotent (s : string) : clean (clean s) = clean s.
Proof. apply JsFacts.trim_collapse_idempotent. Qed.

Lemma tryContainer_cases (d : document) (fullText : string) (sel : selector) :
  tryContainer d fullText sel = fullText
  \/ fromContainer (tryContainer d fullText sel).
Proof.
  unfold tryContainer.
  destruct (first (select d sel)) as [|element rest]; [left; reflexivity|].
  match goal with
  | |- context [if ?c then _ else _] => destruct c eqn:E
  end; [right | left; reflexivity].
  apply andb_prop in E as [_ E]. apply Nat.ltb_lt in E.
  eexists. split; [reflexivity | exact E].
Qed.

Lemma containers_cases (d : document) (sels : list selector) :
  forall fullText,
    fold_left (tryContainer d) sels fullText = fullText
    \/ fromContainer (fold_left (tryContainer d) sels fullText).
Proof.
  induction sels as [|sel rest IH]; intros fullText; simpl;
    [left; reflexivity|].
  destruct (IH (tryContainer d fullText sel)) as [E | H]; [|right; exact H].
  rewrite E. apply tryContainer_cases.
Qed.

Lemma chosenText_cases (d : document) :
  chosenText d = paragraphText d \/ fromContainer (chosenText d).
Proof.
  unfold chosenText.
  destruct (String.length (paragraphText d) <? 500); [|left; reflexivity].
  apply containers_cases.
Qed.

(** C3, as amended.  [extractArticleBody] tests the length of the chosen
    text before the final clean-up: it returns absent exactly when the
    chosen text has 200 characters or fewer, and otherwise the chosen
    text with its white space collapsed and trimmed.  A returned text of
    200 characters or fewer is therefore possible, and only when the
    chosen text is the concatenation of paragraphs, of more than 200
    characters before the clean-up; a text chosen from a container is
    returned with more than 200 characters. *)
Theorem extractArticleBody_threshold (d : document) :
  (extractArticleBody d = None <-> String.length (chosenText d) <= 200)
  /\ (forall r, extractArticleBody d = Some r ->
                r = clean (chosenText d) /\ 200 < String.length (chosenText d))
  /\ (forall r, extractArticleBody d = Some r -> String.length r <= 200 ->
                chosenText d = paragraphText d
                /\ 200 < String.length (paragraphText d)).
Proof.
  unfold extractArticleBody.
  destruct (200 <? String.length (chosenText d)) eqn:E.
  - apply Nat.ltb_lt in E.
    split; [split; [discriminate | intros H; exfalso; apply (Nat.lt_irrefl 200);
                                   apply Nat.lt_le_trans with (1 := E), H]|].
    split.
    + intros r [= <-]. split; [reflexivity | exact E].
    + intros r [= <-] Hshort.
      destruct (chosenText_cases d) as [Ep | [content [Ec Hlong]]].
      * rewrite <- Ep. split; [reflexivity | exact E].
      * exfalso. rewrite Ec in Hshort. rewrite clean_idempotent in Hshort.
        rewrite <- Ec in Hshort.
        apply (Nat.lt_irrefl 200).
        apply Nat.lt_le_trans with (1 := Hlong), Hshort.
  - apply Nat.ltb_ge in E.
    split; [split; [intros _; exact E | reflexivity]|].
    split; intros r; discriminate.
Qed.

End ArticleBody.

(** The article of six sparse paragraphs discharges the hypotheses of
    [extractArticleBody_threshold]: its body is returned, it is short, and
    it comes from the paragraphs. *)
Lemma extractArticleBody_threshold_witness :
  chosenText Scenarios.sparseArticlePage = paragraphText Scenarios.sparseArticlePage
  /\ 200 < String.length (paragraphText Scenarios.sparseArticlePage).
Proof.
  eapply (proj2 (proj2 (extractArticleBody_threshold (C := MiniDom.cheerio)
                          Scenarios.sparseArticlePage))).
  - vm_compute. reflexivity.
  - apply Nat.leb_le. vm_compute. reflexivity.
Defined.

(** C3 as stated fails: six paragraphs of 46 characters each make 282
    characters, more than 200, and the text returned for them has 107. *)
Lemma extractArticleBody_short :
  extractArticleBody Scenarios.sparseArticlePage
  = Some "Lorem ipsum dolor Lorem ipsum dolor Lorem ipsum dolor Lorem ipsum dolor Lorem ipsum dolor Lorem ipsum dolor"
  /\ String.length (paragraphText Scenarios.sparseArticlePage) = 282
  /\ String.length "Lorem ipsum dolor Lorem ipsum dolor Lorem ipsum dolor Lorem ipsum dolor Lorem ipsum dolor Lorem ipsum dolor" = 107.
Proof. repeat split; vm_compute; reflexivity. Qed.

(* ================================================================== *)
(** * Computations that only push *)

Section Pushing.
Context {A : Type}.

Lemma appends_run {B} (m : M (list A) B) :
  appends m -> forall s, m s = (resultOf m, s ++ pushedBy m).
Proof.
  intros [r [l H]] s. unfold resultOf, pushedBy.
  rewrite (H []), (H s). reflexivity.
Qed.

Lemma pushes_run (m : M (list A) unit) :
  pushes m -> forall s, m s = (Ok tt, s ++ pushedBy m).
Proof.
  intros [l H] s. unfold pushedBy. rewrite (H []), (H s). reflexivity.
Qed.

Lemma pushes_appends (m : M (list A) unit) : pushes m -> appends m.
Proof. intros [l H]. exists (Ok tt), l. exact H. Qed.

Lemma appends_ret {B} (b : B) : appends (A := A) (ret b).
Proof. exists (Ok b), []. intros s. unfold ret. now rewrite app_nil_r. Qed.

Lemma appends_throw {B} (e : exn) : appends (@throw (list A) B e).
Proof. exists (Throw e), []. intros s. unfold throw. now rewrite app_nil_r. Qed.

Lemma appends_lift {B} (r : Result B) : appends (A := A) (lift r).
Proof. exists r, []. intros s. unfold lift. now rewrite app_nil_r. Qed.

Lemma appends_push (x : A) : appends (push x).
Proof. exists (Ok tt), [x]. reflexivity. Qed.

Lemma appends_bind {B B'} (m : M (list A) B) (k : B -> M (list A) B') :
  appends m -> (forall b, appends (k b)) -> appends (bind m k).
Proof.
  intros [r [l Hm]] Hk. destruct r as [b | e].
  - destruct (Hk b) as [r' [l' Hb]]. exists r', (l ++ l'). intros s.
    unfold bind. rewrite Hm, Hb, app_assoc. reflexivity.
  - exists (Throw e), l. intros s. unfold bind. rewrite Hm. reflexivity.
Qed.

Lemma appends_when (c : bool) (m : M (list A) unit) :
  appends m -> appends (when c m).
Proof. destruct c; simpl; [exact id | intros _; apply appends_ret]. Qed.

Lemma appends_forEach {X} (xs : list X) (body : X -> M (list A) unit) :
  (forall x, appends (body x)) -> appends (forEach xs body).
Proof.
  intros H. induction xs as [|x r IH]; simpl.
  - apply appends_ret.
  - apply appends_bind; [apply H | intros _; exact IH].
Qed.

Lemma pushes_ret : pushes (A := A) (ret tt).
Proof. exists []. intros s. unfold ret. now rewrite app_nil_r. Qed.

Lemma pushes_push (x : A) : pushes (push x).
Proof. exists [x]. reflexivity. Qed.

Lemma pushes_when (c : bool) (m : M (list A) unit) :
  pushes m -> pushes (when c m).
Proof. destruct c; simpl; [exact id | intros _; apply pushes_ret]. Qed.

Lemma pushes_seq (m k : M (list A) unit) :
  pushes m -> pushes k -> pushes (m ;; k).
Proof.
  intros [l Hm] [l' Hk]. exists (l ++ l'). intros s.
  unfold bind. rewrite Hm, Hk, app_assoc. reflexivity.
Qed.

Lemma pushes_forEach {X} (xs : list X) (body : X -> M (list A) unit) :
  (forall x, pushes (body x)) -> pushes (forEach xs body).
Proof.
  intros H. induction xs as [|x r IH]; simpl.
  - apply pushes_ret.
  - apply pushes_seq; [apply H | exact IH].
Qed.

(** A [try] whose [catch] does nothing: what was pushed before the
    exception stays, and nothing is thrown. *)
Lemma pushes_tryCatch (m : M (list A) unit) :
  appends m -> pushes (tryCatch m (fun _ => ret tt)).
Proof.
  intros [r [l H]]. exists l. intros s. unfold tryCatch. rewrite H.
  destruct r as [[] | e]; reflexivity.
Qed.

Lemma pushedBy_seq (m k : M (list A) unit) :
  pushes m -> pushes k -> pushedBy (m ;; k) = pushedBy m ++ pushedBy k.
Proof.
  intros Hm Hk. unfold pushedBy at 1, bind.
  rewrite (pushes_run Hm), (pushes_run Hk). reflexivity.
Qed.

End Pushing.

(* ================================================================== *)
(** * extractFaqs: the cascade *)

Section Cascade.
Context {C : Cheerio} {J : JsonApi}.

Lemma pushPair_pushes (question answer : string) :
  pushes (pushPair question answer).
Proof. apply pushes_when, pushes_push. Qed.

Lemma microdataFaqs_pushes (d : document) : pushes (microdataFaqs d).
Proof.
  apply pushes_forEach; intros element.
  apply pushes_forEach; intros item. apply pushPair_pushes.
Qed.

Lemma questionItem_appends (item : value) : appends (questionItem item).
Proof.
  unfold questionItem.
  apply appends_bind; [apply appends_lift | intros type].
  destruct (isString type "Question"); [|apply appends_ret].
  apply appends_bind; [apply appends_lift | intros name].
  destruct (truthy name); [|apply appends_ret].
  apply appends_bind; [apply appends_lift | intros acceptedAnswer].
  destruct (truthy acceptedAnswer); [|apply appends_ret].
  apply appends_bind; [apply appends_lift | intros text].
  apply appends_bind; [|intros answer; apply appends_when, appends_push].
  destruct (truthy text); [apply appends_ret|].
  apply appends_bind; [apply appends_lift | intros name'; apply appends_ret].
Qed.

Lemma forEachValue_appends (v : value) (callback : value -> M (list faq) unit) :
  (forall item, appends (callback item)) -> appends (forEachValue v callback).
Proof.
  intros H. destruct v as [[| | | |items|]|]; simpl;
    try apply appends_throw.
  apply appends_forEach. intros item. apply H.
Qed.

Lemma jsonLdScript_pushes (element : node) : pushes (jsonLdScript element).
Proof.
  apply pushes_tryCatch.
  apply appends_bind; [apply appends_lift | intros data].
  apply appends_bind; [apply appends_lift | intros type].
  destruct (isString type "FAQPage"); [|apply appends_ret].
  apply appends_bind; [apply appends_lift | intros mainEntity].
  destruct (truthy mainEntity); [|apply appends_ret].
  apply forEachValue_appends, questionItem_appends.
Qed.

Lemma jsonLdFaqs_pushes (d : document) : pushes (jsonLdFaqs d).
Proof. apply pushes_forEach, jsonLdScript_pushes. Qed.

Lemma faqContentFaqs_pushes (d : document) : pushes (faqContentFaqs d).
Proof. apply pushes_forEach; intros element. apply pushPair_pushes. Qed.

Lemma headingFaqs_pushes (d : document) : pushes (headingFaqs d).
Proof.
  apply pushes_forEach; intros element.
  destruct (next element) as [|nextEl rest]; [apply pushes_ret|].
  destruct (is_ nextEl _); [apply pushPair_pushes | apply pushes_ret].
Qed.

Lemma faqItemFaqs_pushes (d : document) : pushes (faqItemFaqs d).
Proof. apply pushes_forEach; intros element. apply pushPair_pushes. Qed.

(** A guarded method on an array that holds something does nothing; on
    the empty array it is the method. *)
Lemma ifNoneYet_run (m : M (list faq) unit) (s : list faq) :
  pushes m ->
  ifNoneYet m s = (Ok tt, match s with [] => pushedBy m | _ :: _ => s end).
Proof.
  intros Hm. unfold ifNoneYet, bind, getArray.
  destruct s as [|f r]; simpl.
  - rewrite (pushes_run Hm). reflexivity.
  - reflexivity.
Qed.

(** The array at the end of the cascade that starts with the empty one. *)
Lemma cascade_run (d : document) :
  cascade d []
  = (Ok tt,
     match pushedBy (microdataFaqs d) ++ pushedBy (jsonLdFaqs d) with
     | _ :: _ => pushedBy (microdataFaqs d) ++ pushedBy (jsonLdFaqs d)
     | [] =>
         match pushedBy (faqContentFaqs d) with
         | _ :: _ => pushedBy (faqContentFaqs d)
         | [] =>
             match pushedBy (headingFaqs d) with
             | _ :: _ => pushedBy (headingFaqs d)
             | [] => pushedBy (faqItemFaqs d)
             end
         end
     end).
Proof.
  unfold cascade, bind.
  rewrite (pushes_run (microdataFaqs_pushes d)).
  rewrite (pushes_run (jsonLdFaqs_pushes d)). simpl.
  rewrite (ifNoneYet_run _ (faqContentFaqs_pushes d)).
  rewrite (ifNoneYet_run _ (headingFaqs_pushes d)).
  rewrite (ifNoneYet_run _ (faqItemFaqs_pushes d)).
  destruct (pushedBy (microdataFaqs d) ++ pushedBy (jsonLdFaqs d));
    [|reflexivity].
  destruct (pushedBy (faqContentFaqs d)); [|reflexivity].
  destruct (pushedBy (headingFaqs d)); reflexivity.
Qed.

Lemma cascade_result (d : document) :
  cascade d [] = (Ok tt, pushedBy (cascade d)).
Proof. unfold pushedBy. rewrite cascade_run. reflexivity. Qed.

(** C2.  Methods 1 and 2 both run, whatever the other finds, and what
    they push adds up; each of the methods 3, 4 and 5 runs only when the
    array is still empty.  The cascade does not throw, and when method 1
    or 2 pushes a pair the array at its end holds their pairs only. *)
Theorem cascade_accumulates (d : document) :
  pushedBy (microdataFaqs d ;; jsonLdFaqs d)
  = pushedBy (microdataFaqs d) ++ pushedBy (jsonLdFaqs d)
  /\ cascade d []
     = (Ok tt,
        match pushedBy (microdataFaqs d) ++ pushedBy (jsonLdFaqs d) with
        | _ :: _ => pushedBy (microdataFaqs d) ++ pushedBy (jsonLdFaqs d)
        | [] =>
            match pushedBy (faqContentFaqs d) with
            | _ :: _ => pushedBy (faqContentFaqs d)
            | [] =>
                match pushedBy (headingFaqs d) with
                | _ :: _ => pushedBy (headingFaqs d)
                | [] => pushedBy (faqItemFaqs d)
                end
            end
        end)
  /\ (pushedBy (microdataFaqs d) ++ pushedBy (jsonLdFaqs d) <> [] ->
      pushedBy (cascade d)
      = pushedBy (microdataFaqs d) ++ pushedBy (jsonLdFaqs d)).
Proof.
  split; [|split].
  - apply pushedBy_seq; [apply microdataFaqs_pushes | apply jsonLdFaqs_pushes].
  - apply cascade_run.
  - intros Hsome. unfold pushedBy at 1. rewrite cascade_run. simpl.
    destruct (pushedBy (microdataFaqs d) ++ pushedBy (jsonLdFaqs d));
      [contradiction | reflexivity].
Qed.

End Cascade.

(** The page with microdata and headings discharges the hypothesis of
    [cascade_accumulates]: method 1 pushes a pair, and the heading that
    method 4 would pair is not in the array. *)
Lemma cascade_accumulates_witness :
  pushedBy (cascade Scenarios.mixedPage)
  = [ {| question := str "What?"; answer := str "This." |} ]
  /\ pushedBy (headingFaqs Scenarios.mixedPage)
     = [ {| question := str "WHAT?"; answer := str "That." |} ].
Proof.
  split; [|reflexivity].
  rewrite (proj2 (proj2 (cascade_accumulates (C := MiniDom.cheerio)
                           (J := MiniJson.json) Scenarios.mixedPage))).
  - reflexivity.
  - discriminate.
Defined.

(* ================================================================== *)
(** * extractFaqs: deduplication *)

Section Dedup.

Lemma sameKey_eq (a b : Result string) :
  sameKey a b = true -> a = b.
Proof.
  destruct a as [x|], b as [y|]; simpl; try discriminate.
  intros H. apply String.eqb_eq in H. now subst.
Qed.


Lemma sameKey_refl (k : string) : sameKey (Ok k) (Ok k) = true.
Proof. simpl. apply String.eqb_refl. Qed.

Lemma firstIndex_key (entry entry' : faq) (self : list faq) :
  questionKey entry = questionKey entry' ->
  forall i, firstIndex i entry self = firstIndex i entry' self.
Proof.
  intros E. induction self as [|f rest IH]; intros i; simpl; [reflexivity|].
  rewrite E, IH. reflexivity.
Qed.

(** What [firstIndex] finds: an entry with the key, none before it. *)
Lemma firstIndex_some (entry : faq) (self : list faq) :
  forall i j, firstIndex i entry self = Some j ->
    i <= j
    /\ (exists f, nth_error self (j - i) = Some f
                  /\ sameKey (questionKey f) (questionKey entry) = true)
    /\ (forall n g, n < j - i -> nth_error self n = Some g ->
                    sameKey (questionKey g) (questionKey entry) = false).
Proof.
  induction self as [|f rest IH]; intros i j; simpl; [discriminate|].
  destruct (sameKey (questionKey f) (questionKey entry)) eqn:E.
  - intros [= <-]. rewrite Nat.sub_diag. split; [apply le_n|]. split.
    + exists f. split; [reflexivity | exact E].
    + intros n g Hn. inversion Hn.
  - intros H. destruct (IH _ _ H) as [Hle [[g [Hg Hk]] Hbefore]].
    assert (Hj : j - i = S (j - S i)) by lia.
    split; [lia|]. rewrite Hj. split.
    + exists g. split; [exact Hg | exact Hk].
    + intros [|n] g'; simpl.
      * intros _ [= <-]. exact E.
      * intros Hn. apply Hbefore. lia.
Qed.

Lemma firstIndex_found (entry : faq) (self : list faq) :
  hasKey entry -> In entry self ->
  forall i, exists j, firstIndex i entry self = Some j.
Proof.
  intros [k Hk]. induction self as [|f rest IH]; intros Hin i; [inversion Hin|].
  simpl. destruct (sameKey (questionKey f) (questionKey entry)) eqn:E.
  - exists i. reflexivity.
  - destruct Hin as [-> | Hin].
    + rewrite Hk, sameKey_refl in E. discriminate.
    + apply IH, Hin.
Qed.

(** An entry that [keepFirst] keeps stands at the first index of its key. *)
Lemma keepFirst_in (self : list faq) (xs : list faq) :
  forall i x, In x (keepFirst self i xs) ->
    exists n, nth_error xs n = Some x /\ firstIndex 0 x self = Some (i + n).
Proof.
  induction xs as [|y rest IH]; intros i x; simpl; [intros []|].
  assert (Hrest : In x (keepFirst self (S i) rest) ->
                  exists n, nth_error (y :: rest) n = Some x
                            /\ firstIndex 0 x self = Some (i + n)).
  { intros H. destruct (IH _ _ H) as [n [Hn Hf]].
    exists (S n). split; [exact Hn|]. rewrite Hf. f_equal. lia. }
  destruct (firstIndex 0 y self) as [j|] eqn:E; [|exact Hrest].
  destruct (i =? j) eqn:Eij; [|exact Hrest].
  intros [<- | H]; [|exact (Hrest H)].
  apply Nat.eqb_eq in Eij. subst j.
  exists 0. split; [reflexivity|]. rewrite E. f_equal. lia.
Qed.


Lemma keepFirst_NoDup (self : list faq) (xs : list faq) :
  forall i, NoDup (map questionKey (keepFirst self i xs)).
Proof.
  induction xs as [|y rest IH]; intros i; simpl; [constructor|].
  destruct (firstIndex 0 y self) as [j|] eqn:E; [|apply IH].
  destruct (i =? j) eqn:Eij; [|apply IH].
  apply Nat.eqb_eq in Eij. subst j. simpl. constructor; [|apply IH].
  intros Hin. apply in_map_iff in Hin as [x [Hkey Hx]].
  apply keepFirst_in in Hx as [n [_ Hf]].
  rewrite (firstIndex_key x y self Hkey) in Hf. rewrite E in Hf.
  injection Hf. lia.
Qed.



End Dedup.

Section Unique.
Context {St : Type}.

Lemma sameQuestion_run (entry f : faq) (s : St) :
  sameQuestion entry f s
  = (match questionKey f, questionKey entry with
     | Ok a, Ok b => Ok (a =? b)%string
     | Throw e, _ => Throw e
     | Ok _, Throw e => Throw e
     end, s).
Proof.
  unfold sameQuestion, bind, lift, ret, questionKey.
  destruct (toLowerCase (question f)); [|reflexivity].
  destruct (toLowerCase (question entry)); reflexivity.
Qed.

Lemma sameQuestion_ok (entry f : faq) (s s' : St) (b : bool) :
  sameQuestion entry f s = (Ok b, s') ->
  s' = s /\ b = sameKey (questionKey f) (questionKey entry)
  /\ hasKey entry /\ hasKey f.
Proof.
  rewrite sameQuestion_run. unfold hasKey.
  destruct (questionKey f) as [a|]; [|discriminate].
  destruct (questionKey entry) as [k|]; [|discriminate].
  intros [= <- <-]. repeat split; eauto.
Qed.

Lemma sameQuestion_total (entry f : faq) (s : St) :
  hasKey entry -> hasKey f ->
  sameQuestion entry f s
  = (Ok (sameKey (questionKey f) (questionKey entry)), s).
Proof.
  intros [k Hk] [a Ha]. rewrite sameQuestion_run, Hk, Ha. reflexivity.
Qed.

(** When [findIndex] returns, it returns the first index of the key. *)
Lemma findIndexFrom_ok (entry : faq) (self : list faq) :
  forall i (s s' : St) r,
    findIndexFrom i self (sameQuestion entry) s = (Ok r, s') ->
    s' = s /\ r = firstIndex i entry self /\ (self <> [] -> hasKey entry).
Proof.
  induction self as [|f rest IH]; intros i s s' r; simpl.
  - unfold ret. intros [= <- <-]. repeat split. intros H. now elim H.
  - unfold bind.
    destruct (sameQuestion entry f s) as [[b|e] s1] eqn:E; [|discriminate].
    apply sameQuestion_ok in E as [-> [-> [Hk _]]].
    destruct (sameKey (questionKey f) (questionKey entry)).
    + unfold ret. intros [= <- <-]. repeat split. intros _. exact Hk.
    + intros H. apply IH in H as [-> [-> _]]. repeat split. intros _. exact Hk.
Qed.

Lemma findIndexFrom_total (entry : faq) (self : list faq) :
  hasKey entry -> Forall hasKey self ->
  forall i (s : St),
    findIndexFrom i self (sameQuestion entry) s
    = (Ok (firstIndex i entry self), s).
Proof.
  intros Hk Hself. induction Hself as [|f rest Hf _ IH]; intros i s; simpl;
    [reflexivity|].
  unfold bind. rewrite (sameQuestion_total s Hk Hf).
  destruct (sameKey (questionKey f) (questionKey entry)); [reflexivity|].
  apply IH.
Qed.

(** When the filter returns, it returns the entries at the first index of
    their keys, and every entry it went through has a key. *)
Lemma filterFrom_isFirst_ok (self : list faq) (xs : list faq) :
  forall i (s s' : St) out,
    filterFrom i xs (isFirst self) s = (Ok out, s') ->
    s' = s /\ out = keepFirst self i xs /\ (self <> [] -> Forall hasKey xs).
Proof.
  induction xs as [|x rest IH]; intros i s s' out; simpl.
  - unfold ret. intros [= <- <-]. repeat split. intros _. constructor.
  - unfold bind at 1. unfold isFirst at 1. unfold bind at 1.
    destruct (findIndexFrom 0 self (sameQuestion x) s) as [[found|e] s1] eqn:E;
      [|discriminate].
    apply findIndexFrom_ok in E as [-> [-> Hk]]. unfold ret at 1.
    unfold bind.
    destruct (filterFrom (S i) rest (isFirst self) s) as [[kept|e] s2] eqn:Er;
      [|discriminate].
    apply IH in Er as [-> [-> Hrest]]. unfold ret. intros [= <- <-].
    split; [reflexivity|]. split.
    + destruct (firstIndex 0 x self) as [j|]; [|reflexivity].
      destruct (i =? j); reflexivity.
    + intros Hne. constructor; [apply Hk, Hne | apply Hrest, Hne].
Qed.

Lemma filterFrom_isFirst_total (self : list faq) (xs : list faq) :
  Forall hasKey self -> Forall hasKey xs ->
  forall i (s : St),
    filterFrom i xs (isFirst self) s = (Ok (keepFirst self i xs), s).
Proof.
  intros Hself Hxs. induction Hxs as [|x rest Hx _ IH]; intros i s; simpl;
    [reflexivity|].
  unfold bind at 1. unfold isFirst at 1. unfold bind at 1.
  rewrite (findIndexFrom_total Hx Hself). unfold ret at 1. unfold bind.
  rewrite IH. unfold ret.
  destruct (firstIndex 0 x self) as [j|]; [|reflexivity].
  destruct (i =? j); reflexivity.
Qed.

Lemma uniqueFaqs_ok (self : list faq) (s s' : St) (out : list faq) :
  uniqueFaqs self s = (Ok out, s') ->
  s' = s /\ out = keepFirst self 0 self /\ Forall hasKey self.
Proof.
  intros H. apply filterFrom_isFirst_ok in H as [-> [-> Hk]].
  repeat split. destruct self as [|f rest]; [constructor|].
  apply Hk. discriminate.
Qed.

Lemma uniqueFaqs_total (self : list faq) (s : St) :
  Forall hasKey self -> uniqueFaqs self s = (Ok (keepFirst self 0 self), s).
Proof. intros H. apply (filterFrom_isFirst_total H H). Qed.

End Unique.

Section ListFacts.
Context {A : Type}.

Lemma firstn_In (n : nat) (l : list A) (x : A) : In x (firstn n l) -> In x l.
Proof.
  revert l. induction n as [|n IH]; intros [|y r]; simpl; try intros [].
  - left. assumption.
  - right. apply IH. assumption.
Qed.

Lemma firstn_NoDup (n : nat) (l : list A) : NoDup l -> NoDup (firstn n l).
Proof.
  revert l. induction n as [|n IH]; intros [|y r] H; simpl; try constructor.
  - inversion H as [|? ? Hy Hr]; subst.
    intros Hin. apply Hy. apply (firstn_In _ _ _ Hin).
  - inversion H; subst. apply IH. assumption.
Qed.

End ListFacts.

(* ================================================================== *)
(** * extractFaqs: the result *)

Section Faqs.
Context {C : Cheerio} {J : JsonApi}.


Lemma jsonLdScript_malformed (bad : node) (e : exn) (s : list faq) :
  JSON_parse (match html bad with Some h => h | None => EmptyString end)
  = Throw e ->
  jsonLdScript bad s = (Ok tt, s).
Proof.
  intros H. unfold jsonLdScript, tryCatch, bind, lift. rewrite H. reflexivity.
Qed.

Lemma forEach_app {St X} (xs ys : list X) (body : X -> M St unit) (s : St) :
  forEach (xs ++ ys) body s = (forEach xs body ;; forEach ys body) s.
Proof.
  revert s. induction xs as [|x r IH]; intros s; simpl; [reflexivity|].
  unfold bind. destruct (body x s) as [[u|e] s1]; [|reflexivity].
  rewrite IH. reflexivity.
Qed.

(** C5.  [extractFaqs] never throws: it returns a list for every
    document, the empty list when the statements inside its [try] throw;
    and a script tag whose text [JSON.parse] rejects changes nothing in
    the scan of the tags before and after it. *)
Theorem extractFaqs_never_throws (d : document) :
  (exists l, extractFaqs d = Ok l)
  /\ (forall e, resultOf (extractFaqs_try d) = Throw e -> extractFaqs d = Ok [])
  /\ (forall before bad after e,
        JSON_parse (match html bad with Some h => h | None => EmptyString end)
        = Throw e ->
        forall s, forEach (before ++ bad :: after) jsonLdScript s
                  = forEach (before ++ after) jsonLdScript s).
Proof.
  unfold extractFaqs, extractFaqs_body, tryCatch, resultOf.
  split; [|split].
  - destruct (extractFaqs_try d []) as [[l|e] s]; simpl; eauto.
  - intros e. destruct (extractFaqs_try d []) as [[l|e'] s]; simpl;
      [discriminate | reflexivity].
  - intros before bad after e Hbad s. rewrite !forEach_app. unfold bind.
    destruct (forEach before jsonLdScript s) as [[u|e'] s1]; [|reflexivity].
    simpl. unfold bind. rewrite (jsonLdScript_malformed _ _ Hbad).
    reflexivity.
Qed.

End Faqs.



(** The page whose question has a number for its name discharges the
    second hypothesis of [extractFaqs_never_throws] (the [filter] throws on
    it), the page with a malformed script tag the third one. *)
Lemma extractFaqs_never_throws_witness :
  extractFaqs Scenarios.numericNamePage = Ok []
  /\ forEach ([] ++ Scenarios.brokenTag :: [Scenarios.goodTag]) jsonLdScript []
     = forEach ([] ++ [Scenarios.goodTag]) jsonLdScript [].
Proof.
  split.
  - eapply (proj1 (proj2 (extractFaqs_never_throws (C := MiniDom.cheerio)
                            (J := MiniJson.json) Scenarios.numericNamePage))).
    vm_compute. reflexivity.
  - eapply (proj2 (proj2 (extractFaqs_never_throws (C := MiniDom.cheerio)
                            (J := MiniJson.json) Scenarios.brokenJsonPage))).
    vm_compute. reflexivity.
Defined.

(* ================================================================== *)
(** * extractBreadcrumbs *)

Section Breadcrumbs.
Context {C : Cheerio} {U : UrlApi}.

Lemma extractBreadcrumbs_returned (d : document) (url : string) :
  extractBreadcrumbs d url = returned (extractBreadcrumbs_body d url).
Proof. reflexivity. Qed.

Lemma length_nil_iff {X} (l : list X) : (0 <? List.length l) = false <-> l = [].
Proof.
  destruct l; simpl; split; try reflexivity; discriminate.
Qed.

(** No selector of the list matches: the loop ends with [found] false and
    the array as it was. *)
Lemma trySelectors_none (d : document) (url : string) (sels : list selector) :
  Forall (fun sel => select d sel = []) sels ->
  forall s, trySelectors d url sels s = (Ok false, s).
Proof.
  intros H. induction H as [|sel rest Hsel _ IH]; intros s; simpl;
    [reflexivity|].
  rewrite Hsel. simpl. apply IH.
Qed.

(** The first selector that matches an element ends the loop. *)
Lemma trySelectors_commit (d : document) (url : string)
      (before after : list selector) (sel : selector) :
  Forall (fun s => select d s = []) before ->
  select d sel <> [] ->
  forall s, trySelectors d url (before ++ sel :: after) s
            = (forEachIndexed (select d sel) (recordLink url) ;; ret true) s.
Proof.
  intros H Hsel. induction H as [|sel' rest Hsel' _ IH]; intros s; simpl.
  - destruct (select d sel) as [|e r]; [contradiction|]. reflexivity.
  - rewrite Hsel'. simpl. apply IH.
Qed.

Lemma recordLink_skips (url : string) (index : nat) (element : node)
      (s : list breadcrumb) :
  recorded element = false -> recordLink url index element s = (Ok tt, s).
Proof.
  unfold recorded, recordLink.
  destruct (attr element "href") as [href|]; [|reflexivity].
  intros ->. reflexivity.
Qed.

Lemma eachFrom_skips (url : string) (elements : list node) :
  Forall (fun e => recorded e = false) elements ->
  forall i s, eachFrom i elements (recordLink url) s = (Ok tt, s).
Proof.
  intros H. induction H as [|e r He _ IH]; intros i s; simpl; [reflexivity|].
  unfold bind. rewrite recordLink_skips by exact He. apply IH.
Qed.

Lemma extractBreadcrumbs_fallback (d : document) (url : string) :
  noTrail d -> extractBreadcrumbs d url = returned (fromUrlPath url).
Proof.
  intros H. unfold extractBreadcrumbs, returned, extractBreadcrumbs_body, bind.
  rewrite trySelectors_none by exact H. reflexivity.
Qed.

Lemma extractBreadcrumbs_commit (d : document) (url : string)
      (before after : list selector) (sel : selector) :
  breadcrumbSelectors = before ++ sel :: after ->
  Forall (fun s => select d s = []) before ->
  select d sel <> [] ->
  extractBreadcrumbs d url
  = returned (forEachIndexed (select d sel) (recordLink url)).
Proof.
  intros Hsplit Hbefore Hsel.
  unfold extractBreadcrumbs, returned, extractBreadcrumbs_body, bind.
  rewrite Hsplit, trySelectors_commit by assumption. unfold bind.
  destruct (forEachIndexed (select d sel) (recordLink url) [])
    as [[[]|e] built]; reflexivity.
Qed.

(** C10.  The first selector that matches an element commits: the result
    is what its links give, an empty list when no link has both a text
    and an [href], and the later selectors and the URL path are not
    read; the breadcrumbs come from the URL path when no selector
    matches an element. *)
Theorem breadcrumbs_first_match_commits (d : document) (url : string) :
  (forall before sel after,
      breadcrumbSelectors = before ++ sel :: after ->
      Forall (fun s => select d s = []) before ->
      select d sel <> [] ->
      extractBreadcrumbs d url
      = returned (forEachIndexed (select d sel) (recordLink url))
      /\ (Forall (fun e => recorded e = false) (select d sel) ->
          extractBreadcrumbs d url = Ok []))
  /\ (noTrail d -> extractBreadcrumbs d url = returned (fromUrlPath url)).
Proof.
  split; [|apply extractBreadcrumbs_fallback].
  intros before sel after Hsplit Hbefore Hsel.
  rewrite (@extractBreadcrumbs_commit d url before after sel Hsplit Hbefore Hsel).
  split; [reflexivity|].
  intros Hnone. unfold returned, forEachIndexed.
  rewrite eachFrom_skips by exact Hnone. reflexivity.
Qed.

(** Every iteration of [pathSegments.forEach] that returns has pushed
    one entry per segment: consecutive positions, the names of the
    segments, the canonical URLs of the path prefixes. *)
Lemma eachSegment_ok (base : string) (urlObj : URL) (segments : list string) :
  forall currentPath index s s',
    eachSegment base urlObj currentPath index segments s = (Ok tt, s') ->
    exists added,
      s' = s ++ added
      /\ map position added = seq (index + 2) (List.length segments)
      /\ map name added = map segmentName segments
      /\ Forall2 (fun b prefix =>
                    ensureTrailingSlash
                      base (protocol urlObj +++ "//" +++ host urlObj +++ prefix)
                    = Ok (url b))
                 added (pathPrefixes currentPath segments).
Proof.
  induction segments as [|segment rest IH]; intros currentPath index s s'; simpl.
  - unfold ret. intros [= <-]. exists []. rewrite app_nil_r.
    repeat split. constructor.
  - unfold bind, lift.
    destruct (ensureTrailingSlash base _) as [urlPath|e] eqn:E; [|discriminate].
    unfold push. intros H. apply IH in H as [added [-> [Hpos [Hname Hurl]]]].
    eexists (_ :: added). rewrite <- app_assoc. simpl.
    split; [reflexivity|]. split; [|split].
    + f_equal. rewrite Hpos. reflexivity.
    + f_equal. exact Hname.
    + constructor; [exact E | exact Hurl].
Qed.

(** What the branch of the URL path returns: a Home entry at the origin,
    then the entries of the segments. *)
Lemma fromUrlPath_ok (base : string) (l : list breadcrumb) :
  returned (fromUrlPath base) = Ok l ->
  exists urlObj home rest,
    URL_new base None = Ok urlObj
    /\ l = home :: rest
    /\ name home = "Home"
    /\ ensureTrailingSlash base (protocol urlObj +++ "//" +++ host urlObj)
       = Ok (url home)
    /\ map name rest = map segmentName (pathSegments urlObj)
    /\ Forall2 (fun b prefix =>
                  ensureTrailingSlash
                    base (protocol urlObj +++ "//" +++ host urlObj +++ prefix)
                  = Ok (url b))
               rest (pathPrefixes EmptyString (pathSegments urlObj))
    /\ contiguous l.
Proof.
  unfold returned, fromUrlPath, bind, lift.
  destruct (URL_new base None) as [urlObj|e]; [|discriminate].
  destruct (ensureTrailingSlash base _) as [home|e] eqn:Ehome; [|discriminate].
  unfold push. simpl.
  destruct (eachSegment base urlObj EmptyString 0 _ _) as [[[]|e] built] eqn:E;
    [|discriminate].
  intros [= <-].
  apply eachSegment_ok in E as [rest [-> [Hpos [Hname Hurl]]]].
  exists urlObj, {| name := "Home"; url := home; position := 1 |}, rest.
  split; [reflexivity|]. split; [reflexivity|]. split; [reflexivity|].
  split; [exact Ehome|]. split; [exact Hname|]. split; [exact Hurl|].
  unfold contiguous. simpl. f_equal. rewrite Hpos. f_equal.
  rewrite <- (length_map position rest), Hpos, length_seq. reflexivity.
Qed.

End Breadcrumbs.

(** C7.  When no breadcrumb selector matches, the breadcrumbs of
    [https://ex.com/a/b-c] are Home at [https://ex.com/], A at
    [https://ex.com/a/] and B C at [https://ex.com/a/b-c/], at the
    positions 1, 2 and 3.  For every URL, the list that is returned then
    starts with a Home entry whose URL is the protocol and host with a
    trailing slash, followed by one entry per non-empty segment of the
    path, named by the segment with its hyphens turned to spaces and its
    words capitalized, with the canonical URL of the path up to the
    segment, the positions running from 1. *)
Theorem breadcrumbs_from_url_path {C : Cheerio} (d : document) :
  noTrail d ->
  extractBreadcrumbs (U := Whatwg.url) d "https://ex.com/a/b-c"
  = Ok [ {| name := "Home"; url := "https://ex.com/"; position := 1 |};
         {| name := "A"; url := "https://ex.com/a/"; position := 2 |};
         {| name := "B C"; url := "https://ex.com/a/b-c/"; position := 3 |} ]
  /\ forall (U : UrlApi) (base : string) (l : list breadcrumb),
       extractBreadcrumbs d base = Ok l ->
       exists urlObj home rest,
         URL_new base None = Ok urlObj
         /\ l = home :: rest
         /\ name home = "Home"
         /\ ensureTrailingSlash base (protocol urlObj +++ "//" +++ host urlObj)
            = Ok (url home)
         /\ map name rest = map segmentName (pathSegments urlObj)
         /\ Forall2 (fun b prefix =>
                       ensureTrailingSlash
                         base (protocol urlObj +++ "//" +++ host urlObj +++ prefix)
                       = Ok (url b))
                    rest (pathPrefixes EmptyString (pathSegments urlObj))
         /\ contiguous l.
Proof.
  intros Hnone. split.
  - rewrite extractBreadcrumbs_fallback by exact Hnone.
    vm_compute. reflexivity.
  - intros U base l. rewrite extractBreadcrumbs_fallback by exact Hnone.
    apply fromUrlPath_ok.
Qed.

Lemma plainPage_noTrail : noTrail Scenarios.plainPage.
Proof. repeat constructor. Qed.

(** A page without a breadcrumb trail discharges the hypothesis of
    [breadcrumbs_from_url_path]. *)
Lemma breadcrumbs_from_url_path_witness :
  extractBreadcrumbs (U := Whatwg.url) Scenarios.plainPage "https://ex.com/a/b-c"
  = Ok [ {| name := "Home"; url := "https://ex.com/"; position := 1 |};
         {| name := "A"; url := "https://ex.com/a/"; position := 2 |};
         {| name := "B C"; url := "https://ex.com/a/b-c/"; position := 3 |} ].
Proof.
  apply (proj1 (@breadcrumbs_from_url_path MiniDom.cheerio Scenarios.plainPage
                                           plainPage_noTrail)).
Defined.

(** The page whose links lack a text or an [href] discharges the
    hypotheses of the first part of [breadcrumbs_first_match_commits]: its
    second selector matches two links, none is recorded, and the result is
    empty though the URL has a path.  The page without a trail discharges
    the hypothesis of the second part. *)
Lemma breadcrumbs_first_match_commits_witness :
  extractBreadcrumbs (U := Whatwg.url) Scenarios.emptyLinksPage Scenarios.pageUrl
  = Ok []
  /\ extractBreadcrumbs (U := Whatwg.url) Scenarios.plainPage Scenarios.pageUrl
     = returned (fromUrlPath (U := Whatwg.url) Scenarios.pageUrl).
Proof.
  split.
  - eapply (proj1 (breadcrumbs_first_match_commits
                     (C := MiniDom.cheerio) (U := Whatwg.url)
                     Scenarios.emptyLinksPage Scenarios.pageUrl)
              [ [[[Class "breadcrumb"]; [Tag "a"]]] ]
              [[[Class "breadcrumbs"]; [Tag "a"]]]).
    + reflexivity.
    + repeat constructor.
    + vm_compute. discriminate.
    + vm_compute. repeat constructor.
  - apply (proj2 (breadcrumbs_first_match_commits
                    (C := MiniDom.cheerio) (U := Whatwg.url)
                    Scenarios.plainPage Scenarios.pageUrl)).
    exact plainPage_noTrail.
Defined.

(** C1 fails on the selector branch: the position of an entry is the index
    of its link among the matched links, plus one, and a link without text
    before it leaves a gap.  Here the only entry has position 2. *)
Theorem breadcrumbs_position_gap :
  extractBreadcrumbs (U := Whatwg.url) Scenarios.iconHomePage Scenarios.pageUrl
  = Ok [ {| name := "Blog"; url := "https://ex.com/blog/"; position := 2 |} ]
  /\ map position
         [ {| name := "Blog"; url := "https://ex.com/blog/"; position := 2 |} ]
     <> seq 1 1.
Proof. split; [vm_compute; reflexivity | discriminate]. Qed.

(** C8 fails on a URL with an opaque origin: the origin of a [mailto:] URL
    is the string null, the first application returns a string that is no
    more that URL, and the second one resolves it against the page. *)
Theorem ensureTrailingSlash_not_idempotent :
  ensureTrailingSlash (U := Whatwg.url) Scenarios.pageUrl "mailto:a@b.com?subject=x"
  = Ok "nulla@b.com/?subject=x"
  /\ ensureTrailingSlash (U := Whatwg.url) Scenarios.pageUrl "nulla@b.com/?subject=x"
     = Ok "https://ex.com/blog/nulla@b.com/?subject=x"
  /\ extractBreadcrumbs (U := Whatwg.url) Scenarios.contactLinkPage Scenarios.pageUrl
     = Ok [ {| name := "Contact"; url := "nulla@b.com/?subject=x"; position := 1 |} ].
Proof. repeat split; vm_compute; reflexivity. Qed.

(* ================================================================== *)
(** * What holds of the positions and of the trailing slash *)

Section Positions.
Context {C : Cheerio} {U : UrlApi}.

Lemma recordLink_ok (base : string) (index : nat) (element : node)
      (s s' : list breadcrumb) :
  recordLink base index element s = (Ok tt, s') ->
  (recorded element = false /\ s' = s)
  \/ (recorded element = true
      /\ exists b, s' = s ++ [b] /\ position b = index + 1
                   /\ name b = Js.trim (text element)).
Proof.
  unfold recordLink, recorded.
  destruct (attr element "href") as [href|].
  - destruct (Js.truthy (Js.trim (text element)) && Js.truthy href).
    + unfold bind, lift.
      destruct (makeAbsoluteUrl href base) as [absolute|e]; [|discriminate].
      destruct (ensureTrailingSlash base absolute) as [slashed|e];
        [|discriminate].
      unfold push. intros [= <-]. right. split; [reflexivity|].
      eexists. repeat split.
    + unfold ret. intros [= <-]. left. split; reflexivity.
  - unfold ret. intros [= <-]. left. split; [|reflexivity].
    apply andb_false_r.
Qed.

(** The entries that the loop over the matched links pushes: positions
    that increase, each one the index of a link plus one. *)
Lemma eachFrom_ok (base : string) (elements : list node) :
  forall index s s',
    eachFrom index elements (recordLink base) s = (Ok tt, s') ->
    exists added,
      s' = s ++ added
      /\ StronglySorted lt (map position added)
      /\ Forall (fun b => index < position b
                          /\ position b <= index + List.length elements) added
      /\ (Forall (fun e => recorded e = true) elements ->
          map position added = seq (index + 1) (List.length elements)).
Proof.
  induction elements as [|element rest IH]; intros index s s'; simpl.
  - unfold ret. intros [= <-]. exists []. rewrite app_nil_r.
    repeat split; constructor.
  - unfold bind.
    destruct (recordLink base index element s) as [[[]|e] s1] eqn:E;
      [|discriminate].
    intros H. apply IH in H as [added [-> [Hsorted [Hbounds Hall]]]].
    assert (Hlater : Forall (fun b => index < position b
                         /\ position b <= index + S (List.length rest)) added).
    { apply Forall_impl with (2 := Hbounds). intros b [Hlo Hhi]. lia. }
    apply recordLink_ok in E as [[Hskip ->] | [Hrec [b [-> [Hpos _]]]]].
    + exists added. split; [reflexivity|]. split; [exact Hsorted|].
      split; [exact Hlater|].
      intros Hrecorded. inversion Hrecorded as [|? ? He _]; subst.
      rewrite Hskip in He. discriminate.
    + exists (b :: added). rewrite <- app_assoc. split; [reflexivity|].
      simpl. split; [|split].
      * constructor; [exact Hsorted|].
        apply Forall_map. apply Forall_impl with (2 := Hbounds).
        intros b' [Hlo _]. lia.
      * constructor; [lia | exact Hlater].
      * intros Hrecorded. inversion Hrecorded as [|? ? _ Hrest]; subst.
        rewrite Hpos, (Hall Hrest). reflexivity.
Qed.

Lemma endsWith_slash (s : string) : Js.endsWith (s +++ "/") "/" = true.
Proof.
  induction s as [|c r IH]; simpl; [reflexivity|].
  rewrite IH. apply orb_true_r.
Qed.

Lemma append_empty_r (s : string) : s +++ EmptyString = s.
Proof. induction s as [|c r IH]; simpl; [|rewrite IH]; reflexivity. Qed.

(** X1.  The entries of the selector branch.  When a breadcrumb selector
    matches and the function returns, the positions of the entries
    increase strictly and lie between 1 and the number of matched links;
    they are 1, 2, 3, ... when every matched link has a text and an
    [href]. *)
Theorem breadcrumbs_selector_positions (d : document) (base : string)
        (before after : list selector) (sel : selector) (l : list breadcrumb) :
  breadcrumbSelectors = before ++ sel :: after ->
  Forall (fun s => select d s = []) before ->
  select d sel <> [] ->
  extractBreadcrumbs d base = Ok l ->
  StronglySorted lt (map position l)
  /\ Forall (fun b => 1 <= position b
                      /\ position b <= List.length (select d sel)) l
  /\ (Forall (fun e => recorded e = true) (select d sel) -> contiguous l).
Proof.
  intros Hsplit Hbefore Hsel.
  rewrite (@extractBreadcrumbs_commit C U d base before after sel Hsplit Hbefore Hsel).
  unfold returned, forEachIndexed.
  destruct (eachFrom 0 (select d sel) (recordLink base) []) as [[[]|e] built] eqn:E;
    [|discriminate].
  intros [= <-]. apply eachFrom_ok in E as [added [-> [Hsorted [Hbounds Hall]]]].
  simpl. split; [exact Hsorted|]. split.
  - apply Forall_impl with (2 := Hbounds). intros b [Hlo Hhi]. lia.
  - intros Hrecorded. unfold contiguous. rewrite (Hall Hrecorded).
    rewrite <- (length_map position added), (Hall Hrecorded), length_seq.
    reflexivity.
Qed.

(** X2.  The strings that [ensureTrailingSlash] leaves as they are.  A string
    that ends with a slash is returned unchanged; so is, at a second
    application, every result that ends with a slash, which is the case
    when the input parses to a URL without search and without hash. *)
Theorem ensureTrailingSlash_fixed (base u : string) :
  (Js.endsWith u "/" = true -> ensureTrailingSlash base u = Ok u)
  /\ (forall urlObj r,
        Js.endsWith u "/" = false ->
        URL_new u (Some base) = Ok urlObj ->
        search urlObj = EmptyString -> hash urlObj = EmptyString ->
        ensureTrailingSlash base u = Ok r ->
        Js.endsWith r "/" = true /\ ensureTrailingSlash base r = Ok r).
Proof.
  split.
  - intros H. unfold ensureTrailingSlash. rewrite H. reflexivity.
  - intros urlObj r Hu Hparse Hsearch Hhash.
    unfold ensureTrailingSlash at 1. rewrite Hu, Hparse, Hsearch, Hhash. simpl.
    intros [= <-].
    rewrite append_empty_r.
    assert (Hends : Js.endsWith
                      (if negb (Js.endsWith (origin urlObj +++ pathname urlObj) "/")
                       then (origin urlObj +++ pathname urlObj) +++ "/"
                       else origin urlObj +++ pathname urlObj)
                      "/" = true).
    { destruct (Js.endsWith (origin urlObj +++ pathname urlObj) "/") eqn:E; simpl;
        [exact E | apply endsWith_slash]. }
    split; [exact Hends|].
    unfold ensureTrailingSlash. rewrite Hends. reflexivity.
Qed.

End Positions.

(** The trail whose links all have a text and an [href] discharges the
    hypotheses of [breadcrumbs_selector_positions]. *)
Lemma breadcrumbs_selector_positions_witness :
  contiguous
    [ {| name := "Home"; url := "https://ex.com/"; position := 1 |};
      {| name := "Blog"; url := "https://ex.com/blog/"; position := 2 |} ].
Proof.
  eapply (@breadcrumbs_selector_positions MiniDom.cheerio Whatwg.url
            Scenarios.fullTrailPage Scenarios.pageUrl
            [] _ [[[Class "breadcrumb"]; [Tag "a"]]]).
  - reflexivity.
  - constructor.
  - vm_compute. discriminate.
  - vm_compute. reflexivity.
  - vm_compute. repeat constructor.
Defined.

(** A URL without search and hash discharges the hypotheses of
    [ensureTrailingSlash_fixed]. *)
Lemma ensureTrailingSlash_fixed_witness :
  Js.endsWith "https://ex.com/blog/" "/" = true
  /\ ensureTrailingSlash (U := Whatwg.url) Scenarios.pageUrl "https://ex.com/blog/"
     = Ok "https://ex.com/blog/".
Proof.
  eapply (proj2 (@ensureTrailingSlash_fixed Whatwg.url Scenarios.pageUrl
                                           "https://ex.com/blog")).
  - reflexivity.
  - vm_compute. reflexivity.
  - reflexivity.
  - reflexivity.
  - vm_compute. reflexivity.
Defined.

(* ================================================================== *)
(** * The FAQ scenarios on concrete pages *)

(** The JSON-LD scenario of the specification: one question, one
    answer. *)
Theorem extractFaqs_jsonLd_scenario :
  extractFaqs Scenarios.jsonLdPage
  = Ok [ {| question := str "Q1"; answer := str "A1" |} ].
Proof. vm_compute. reflexivity. Qed.

(** A script tag with malformed JSON before it changes nothing. *)
Example extractFaqs_brokenJson :
  Scenarios.ldJsonTags Scenarios.brokenJsonPage
  = [Scenarios.brokenTag; Scenarios.goodTag]
  /\ extractFaqs Scenarios.brokenJsonPage
     = Ok [ {| question := str "Q1"; answer := str "A1" |} ].
Proof. split; vm_compute; reflexivity. Qed.

(** A question whose name is the number 5 is pushed by method 2, the
    [filter] throws on it, and the result is the empty list. *)
Example extractFaqs_numericName :
  pushedBy (cascade Scenarios.numericNamePage)
  = [ {| question := Some (JNumber 5); answer := str "A1" |} ]
  /\ resultOf (extractFaqs_try Scenarios.numericNamePage)
     = Throw (TypeError "toLowerCase is not a function")
  /\ extractFaqs Scenarios.numericNamePage = Ok [].
Proof. repeat split; vm_compute; reflexivity. Qed.

(** Three headings, two of them the same question but for the case: the
    first of the two is kept. *)
Example extractFaqs_headings :
  extractFaqs Scenarios.headingsPage
  = Ok [ {| question := str "What?"; answer := str "This." |};
         {| question := str "Why?"; answer := str "So." |} ].
Proof. vm_compute. reflexivity. Qed.

(* ================================================================== *)
(** * extractFaqs: what the entries are *)

Section PushingOnly.
Context {A : Type} (P : A -> Prop).

Lemma appendsOnly_ret {B} (b : B) : appendsOnly P (ret (St := list A) b).
Proof.
  exists (Ok b), []. split; [|constructor].
  intros s. unfold ret. now rewrite app_nil_r.
Qed.

Lemma appendsOnly_throw {B} (e : exn) : appendsOnly P (@throw (list A) B e).
Proof.
  exists (Throw e), []. split; [|constructor].
  intros s. unfold throw. now rewrite app_nil_r.
Qed.

Lemma appendsOnly_lift {B} (r : Result B) : appendsOnly P (lift (St := list A) r).
Proof.
  exists r, []. split; [|constructor].
  intros s. unfold lift. now rewrite app_nil_r.
Qed.

Lemma appendsOnly_bind {B B'} (m : M (list A) B) (k : B -> M (list A) B') :
  appendsOnly P m -> (forall b, appendsOnly P (k b)) -> appendsOnly P (bind m k).
Proof.
  intros [r [l [Hm Hl]]] Hk. destruct r as [b | e].
  - destruct (Hk b) as [r' [l' [Hb Hl']]]. exists r', (l ++ l').
    split; [|apply Forall_app; split; assumption].
    intros s. unfold bind. rewrite Hm, Hb, app_assoc. reflexivity.
  - exists (Throw e), l. split; [|exact Hl].
    intros s. unfold bind. rewrite Hm. reflexivity.
Qed.

(** A guarded [push]: the entry has the property when the guard holds. *)
Lemma appendsOnly_guarded_push (c : bool) (x : A) :
  (c = true -> P x) -> appendsOnly P (when c (push x)).
Proof.
  intros H. destruct c; simpl.
  - exists (Ok tt), [x]. split; [reflexivity|]. constructor; [auto | constructor].
  - apply appendsOnly_ret.
Qed.

Lemma appendsOnly_forEach {X} (xs : list X) (body : X -> M (list A) unit) :
  (forall x, appendsOnly P (body x)) -> appendsOnly P (forEach xs body).
Proof.
  intros H. induction xs as [|x r IH]; simpl.
  - apply appendsOnly_ret.
  - apply appendsOnly_bind; [apply H | intros _; exact IH].
Qed.

Lemma pushesOnly_appendsOnly (m : M (list A) unit) :
  pushesOnly P m -> appendsOnly P m.
Proof. intros [l H]. exists (Ok tt), l. exact H. Qed.

Lemma pushesOnly_tryCatch (m : M (list A) unit) :
  appendsOnly P m -> pushesOnly P (tryCatch m (fun _ => ret tt)).
Proof.
  intros [r [l [H Hl]]]. exists l. split; [|exact Hl].
  intros s. unfold tryCatch. rewrite H. destruct r as [[] | e]; reflexivity.
Qed.

Lemma pushesOnly_ret : pushesOnly P (ret (St := list A) tt).
Proof.
  exists []. split; [|constructor]. intros s. unfold ret. now rewrite app_nil_r.
Qed.

Lemma pushesOnly_guarded_push (c : bool) (x : A) :
  (c = true -> P x) -> pushesOnly P (when c (push x)).
Proof.
  intros H. destruct c; simpl; [|apply pushesOnly_ret].
  exists [x]. split; [reflexivity|]. constructor; [auto | constructor].
Qed.

Lemma pushesOnly_forEach {X} (xs : list X) (body : X -> M (list A) unit) :
  (forall x, pushesOnly P (body x)) -> pushesOnly P (forEach xs body).
Proof.
  intros H. induction xs as [|x r IH]; simpl; [apply pushesOnly_ret|].
  destruct (H x) as [l [Hx Hl]]. destruct IH as [l' [Hr Hl']].
  exists (l ++ l'). split; [|apply Forall_app; split; assumption].
  intros s. unfold bind. rewrite Hx, Hr, app_assoc. reflexivity.
Qed.

Lemma pushesOnly_pushedBy (m : M (list A) unit) :
  pushesOnly P m -> Forall P (pushedBy m).
Proof.
  intros [l [H Hl]]. unfold pushedBy. rewrite (H []). exact Hl.
Qed.

End PushingOnly.

Section Entries.
Context {C : Cheerio} {J : JsonApi}.

Lemma pushPair_complete (question answer : string) :
  pushesOnly complete (pushPair question answer).
Proof.
  apply pushesOnly_guarded_push. intros H.
  apply andb_prop in H as [Hq Ha]. split; assumption.
Qed.

Lemma questionItem_complete (item : value) :
  appendsOnly complete (questionItem item).
Proof.
  unfold questionItem.
  apply appendsOnly_bind; [apply appendsOnly_lift | intros type].
  destruct (isString type "Question"); [|apply appendsOnly_ret].
  apply appendsOnly_bind; [apply appendsOnly_lift | intros name].
  destruct (truthy name) eqn:Hname; [|apply appendsOnly_ret].
  apply appendsOnly_bind; [apply appendsOnly_lift | intros acceptedAnswer].
  destruct (truthy acceptedAnswer); [|apply appendsOnly_ret].
  apply appendsOnly_bind; [apply appendsOnly_lift | intros text].
  apply appendsOnly_bind.
  - destruct (truthy text); [apply appendsOnly_ret|].
    apply appendsOnly_bind; [apply appendsOnly_lift | intros n; apply appendsOnly_ret].
  - intros answer. apply appendsOnly_guarded_push. intros H.
    apply andb_prop in H as [_ Ha]. split; assumption.
Qed.

Lemma jsonLdScript_complete (element : node) :
  pushesOnly complete (jsonLdScript element).
Proof.
  apply pushesOnly_tryCatch.
  apply appendsOnly_bind; [apply appendsOnly_lift | intros data].
  apply appendsOnly_bind; [apply appendsOnly_lift | intros type].
  destruct (isString type "FAQPage"); [|apply appendsOnly_ret].
  apply appendsOnly_bind; [apply appendsOnly_lift | intros mainEntity].
  destruct (truthy mainEntity); [|apply appendsOnly_ret].
  destruct mainEntity as [[| | | |items|]|]; simpl; try apply appendsOnly_throw.
  apply appendsOnly_forEach. intros item. apply questionItem_complete.
Qed.

(** Every entry that the cascade leaves in the array has a truthy question
    and a truthy answer. *)
Lemma cascade_complete (d : document) : Forall complete (pushedBy (cascade d)).
Proof.
  assert (H1 : Forall complete (pushedBy (microdataFaqs d))).
  { apply pushesOnly_pushedBy, pushesOnly_forEach. intros element.
    apply pushesOnly_forEach. intros item. apply pushPair_complete. }
  assert (H2 : Forall complete (pushedBy (jsonLdFaqs d))).
  { apply pushesOnly_pushedBy, pushesOnly_forEach, jsonLdScript_complete. }
  assert (H3 : Forall complete (pushedBy (faqContentFaqs d))).
  { apply pushesOnly_pushedBy, pushesOnly_forEach. intros element.
    apply pushPair_complete. }
  assert (H4 : Forall complete (pushedBy (headingFaqs d))).
  { apply pushesOnly_pushedBy, pushesOnly_forEach. intros element.
    destruct (next element) as [|nextEl rest]; [apply pushesOnly_ret|].
    destruct (is_ nextEl _); [apply pushPair_complete | apply pushesOnly_ret]. }
  assert (H5 : Forall complete (pushedBy (faqItemFaqs d))).
  { apply pushesOnly_pushedBy, pushesOnly_forEach. intros element.
    apply pushPair_complete. }
  unfold pushedBy at 1. rewrite cascade_run. simpl.
  destruct (pushedBy (microdataFaqs d) ++ pushedBy (jsonLdFaqs d)) eqn:E.
  - destruct (pushedBy (faqContentFaqs d)); [|exact H3].
    destruct (pushedBy (headingFaqs d)); [exact H5 | exact H4].
  - rewrite <- E. apply Forall_app. split; assumption.
Qed.

(** What [extractFaqs] returns, in terms of the array of the cascade: its
    entries at the first index of their key, at most 20 of them, or the
    empty list when the [filter] throws. *)
Lemma extractFaqs_shape (d : document) (l : list faq) :
  extractFaqs d = Ok l ->
  (l = firstn 20 (keepFirst (pushedBy (cascade d)) 0 (pushedBy (cascade d)))
   /\ Forall hasKey (pushedBy (cascade d)))
  \/ l = [].
Proof.
  unfold extractFaqs, extractFaqs_body, extractFaqs_try, tryCatch.
  unfold bind at 1. rewrite cascade_result.
  unfold bind at 1. unfold getArray at 1. unfold bind.
  destruct (uniqueFaqs (pushedBy (cascade d)) (pushedBy (cascade d)))
    as [[out|e] s'] eqn:E; simpl.
  - apply uniqueFaqs_ok in E as [-> [-> Hkeys]].
    intros [= <-]. left. split; [reflexivity | exact Hkeys].
  - intros [= <-]. right. reflexivity.
Qed.

Lemma keepFirst_incl (self xs : list faq) :
  forall i f, In f (keepFirst self i xs) -> In f xs.
Proof.
  intros i f H. apply keepFirst_in in H as [n [Hn _]].
  apply (nth_error_In _ _ Hn).
Qed.

(** X4.  Every entry of the list that [extractFaqs] returns is complete:
    its question is a string that is not empty and its answer is truthy,
    whichever of the five methods found it. *)
Theorem extractFaqs_entries_complete (d : document) (l : list faq) :
  extractFaqs d = Ok l ->
  Forall (fun f => (exists q, question f = Some (JString q) /\ q <> EmptyString)
                   /\ truthy (answer f) = true) l.
Proof.
  intros H. apply extractFaqs_shape in H as [[-> Hkeys] | ->]; [|constructor].
  apply Forall_forall. intros f Hf.
  apply firstn_In, keepFirst_incl in Hf.
  pose proof (cascade_complete d) as Hc.
  rewrite Forall_forall in Hc, Hkeys.
  destruct (Hc f Hf) as [Hq Ha]. destruct (Hkeys f Hf) as [k Hk].
  split; [|exact Ha].
  unfold questionKey, toLowerCase in Hk.
  destruct (question f) as [[| | |q| |]|]; try discriminate.
  exists q. split; [reflexivity|].
  intros ->. simpl in Hq. discriminate.
Qed.

End Entries.

(* ================================================================== *)
(** * extractArticleBody: the text that is returned *)

Section ArticleText.
Context {C : Cheerio}.

(** X5.  A text that [extractArticleBody] returns is normalised: it has
    no white space at either end, its white space is single spaces, and
    cleaning it again changes nothing. *)
Theorem extractArticleBody_normalised (d : document) (r : string) :
  extractArticleBody d = Some r ->
  clean r = r
  /\ Js.trim r = r
  /\ Js.tidyFrom false r = true.
Proof.
  unfold extractArticleBody.
  destruct (200 <? String.length (chosenText d)); [|discriminate].
  intros [= <-]. split; [apply clean_idempotent|]. split.
  - unfold clean. apply JsFacts.trim_idempotent.
  - apply JsFacts.trim_collapse_tidy.
Qed.

Lemma tryParagraphs_few (d : document) (fullText : string) (sel : selector) :
  List.length (select d sel) <= 5 -> tryParagraphs d fullText sel = fullText.
Proof.
  intros H. unfold tryParagraphs.
  destruct (5 <? List.length (select d sel)) eqn:E; [|reflexivity].
  apply Nat.ltb_lt in E. lia.
Qed.

Lemma paragraphs_few (d : document) (sels : list selector) (fullText : string) :
  Forall (fun sel => List.length (select d sel) <= 5) sels ->
  fold_left (tryParagraphs d) sels fullText = fullText.
Proof.
  intros H. revert fullText.
  induction H as [|sel rest Hsel _ IH]; intros fullText; simpl; [reflexivity|].
  rewrite tryParagraphs_few by exact Hsel. apply IH.
Qed.

(** X6.  Paragraphs count only when a content selector matches more than
    five of them.  On a page where every content selector matches five
    paragraphs or fewer, the paragraphs give no text at all, however long
    they are, and a body is returned only from a container: it is then
    the cleaned text of that container and has more than 200
    characters. *)
Theorem extractArticleBody_few_paragraphs (d : document) :
  Forall (fun sel => List.length (select d sel) <= 5) contentSelectors ->
  paragraphText d = EmptyString
  /\ forall r, extractArticleBody d = Some r ->
               r = chosenText d /\ fromContainer r.
Proof.
  intros Hfew.
  assert (Hp : paragraphText d = EmptyString).
  { unfold paragraphText. rewrite paragraphs_few by exact Hfew. reflexivity. }
  split; [exact Hp|]. intros r.
  unfold extractArticleBody.
  destruct (200 <? String.length (chosenText d)) eqn:E; [|discriminate].
  intros [= <-].
  destruct (chosenText_cases d) as [Ep | [content [Ec Hlong]]].
  - rewrite Ep, Hp in E. discriminate.
  - assert (Er : clean (chosenText d) = chosenText d).
    { rewrite Ec. apply clean_idempotent. }
    rewrite Er. split; [reflexivity|]. exists content. split; assumption.
Qed.

End ArticleText.

(** The page with five paragraphs and a long [main] element discharges
    the hypothesis of [extractArticleBody_few_paragraphs]; its body is the
    text of [main]. *)
Lemma extractArticleBody_few_paragraphs_witness :
  paragraphText MorePages.fewParagraphsPage = EmptyString
  /\ MorePages.longText = chosenText MorePages.fewParagraphsPage.
Proof.
  assert (H : Forall (fun sel => List.length
                                   (select MorePages.fewParagraphsPage sel) <= 5)
                     contentSelectors).
  { repeat constructor; apply Nat.leb_le; vm_compute; reflexivity. }
  split.
  - exact (proj1 (extractArticleBody_few_paragraphs (C := MiniDom.cheerio)
                    MorePages.fewParagraphsPage H)).
  - apply (proj2 (extractArticleBody_few_paragraphs (C := MiniDom.cheerio)
                    MorePages.fewParagraphsPage H)).
    vm_compute. reflexivity.
Defined.

(** The article of six sparse paragraphs discharges the hypothesis of
    [extractArticleBody_normalised]. *)
Lemma extractArticleBody_normalised_witness :
  clean "Lorem ipsum dolor Lorem ipsum dolor Lorem ipsum dolor Lorem ipsum dolor Lorem ipsum dolor Lorem ipsum dolor"
  = "Lorem ipsum dolor Lorem ipsum dolor Lorem ipsum dolor Lorem ipsum dolor Lorem ipsum dolor Lorem ipsum dolor".
Proof.
  apply (extractArticleBody_normalised (C := MiniDom.cheerio)
           Scenarios.sparseArticlePage).
  vm_compute. reflexivity.
Defined.

(* ================================================================== *)
(** * From the generated FAQ schema back to the entries *)

Section Fixed.

(** In a list without two equal keys every entry stands at the first
    index of its key. *)
Lemma firstIndex_at (self : list faq) (n : nat) (x : faq) :
  Forall hasKey self -> NoDup (map questionKey self) ->
  nth_error self n = Some x -> firstIndex 0 x self = Some n.
Proof.
  intros Hkeys Hnodup Hn.
  assert (Hx : hasKey x).
  { rewrite Forall_forall in Hkeys. apply Hkeys, (nth_error_In _ _ Hn). }
  destruct (@firstIndex_found x self Hx (nth_error_In _ _ Hn) 0) as [j Hj].
  rewrite Hj. f_equal.
  destruct (firstIndex_some _ _ _ Hj) as [_ [[f [Hf Hsame]] _]].
  rewrite Nat.sub_0_r in Hf. apply sameKey_eq in Hsame.
  rewrite NoDup_nth_error in Hnodup. apply Hnodup.
  - rewrite length_map. apply nth_error_Some. rewrite Hf. discriminate.
  - rewrite (map_nth_error _ _ _ Hf), (map_nth_error _ _ _ Hn), Hsame.
    reflexivity.
Qed.

Lemma keepFirst_all (self xs : list faq) :
  forall i, (forall n x, nth_error xs n = Some x ->
                         firstIndex 0 x self = Some (i + n)) ->
            keepFirst self i xs = xs.
Proof.
  induction xs as [|x rest IH]; intros i H; simpl; [reflexivity|].
  rewrite (H 0 x eq_refl), Nat.add_0_r, Nat.eqb_refl. f_equal.
  apply IH. intros n y Hn. rewrite (H (S n) y Hn). f_equal. lia.
Qed.

(** Removing the duplicates of a list that has none changes nothing. *)
Lemma keepFirst_fixed (l : list faq) :
  Forall hasKey l -> NoDup (map questionKey l) -> keepFirst l 0 l = l.
Proof.
  intros Hkeys Hnodup. apply keepFirst_all.
  intros n x Hn. apply (@firstIndex_at l n x Hkeys Hnodup Hn).
Qed.

End Fixed.

Section RoundTrip.
Context {C : Cheerio} {J : JsonApi}.

(** What method 2 reads in the entry that [generateFaqSchema] writes for
    [f]: [f] itself. *)
Lemma questionItem_questionEntry (f : faq) (s : list faq) :
  complete f -> hasKey f ->
  questionItem (Some (questionEntry f)) s = (Ok tt, s ++ [f]).
Proof.
  intros [Hq Ha] [k Hk]. destruct f as [q a]. simpl in *.
  unfold questionKey, toLowerCase in Hk. simpl in Hk.
  destruct q as [[| | |q| |]|]; try discriminate.
  destruct a as [a|]; [|discriminate].
  unfold questionItem, questionEntry, bind, lift, ret, when, push. simpl.
  simpl in Hq, Ha. rewrite Hq, Ha. simpl.
  change (truthy (Some a)) with
    (match a with
     | JNull => false
     | JBool b => b
     | JNumber n => negb (n =? 0)
     | JString s1 => Js.truthy s1
     | _ => true
     end).
  rewrite Ha. reflexivity.
Qed.

Lemma questionEntries_run (l : list faq) :
  Forall complete l -> Forall hasKey l ->
  forall s, forEach (map questionEntry l)
                    (fun item => questionItem (Some item)) s
            = (Ok tt, s ++ l).
Proof.
  intros Hc Hk. induction l as [|f rest IH]; intros s; simpl.
  - unfold ret. rewrite app_nil_r. reflexivity.
  - inversion Hc; inversion Hk; subst. unfold bind.
    rewrite questionItem_questionEntry by assumption.
    rewrite IH by assumption. rewrite <- app_assoc. reflexivity.
Qed.

(** The entries that [extractFaqs] returns: complete, with string
    questions, no two of them the same, and at most 20. *)
Lemma extractFaqs_returns (d : document) (l : list faq) :
  extractFaqs d = Ok l ->
  Forall complete l /\ Forall hasKey l /\ NoDup (map questionKey l)
  /\ List.length l <= 20.
Proof.
  intros H. apply extractFaqs_shape in H as [[-> Hkeys] | ->].
  - assert (Hin : forall f, In f (firstn 20 (keepFirst (pushedBy (cascade d)) 0
                                               (pushedBy (cascade d)))) ->
                            In f (pushedBy (cascade d))).
    { intros f Hf. apply firstn_In, keepFirst_incl in Hf. exact Hf. }
    pose proof (cascade_complete d) as Hc.
    rewrite Forall_forall in Hc, Hkeys.
    split; [apply Forall_forall; intros f Hf; apply Hc, Hin, Hf|].
    split; [apply Forall_forall; intros f Hf; apply Hkeys, Hin, Hf|].
    split; [rewrite <- firstn_map; apply firstn_NoDup, keepFirst_NoDup|].
    apply firstn_le_length.
  - repeat split; try constructor. apply Nat.le_0_l.
Qed.

(** X3.  The FAQ schema leads back to the entries it was generated from.
    Let [l] be a list that [extractFaqs] returned, not empty; on a page
    without FAQ microdata whose only JSON-LD script tag holds the object
    that [generateFaqSchema] builds from [l], [extractFaqs] returns [l]
    again, in the same order. *)
Theorem faqSchema_round_trip (d0 d : document) (l : list faq) (tag : node) :
  extractFaqs d0 = Ok l ->
  l <> [] ->
  select d [[[Attr "itemtype" (AttrIs "https://schema.org/FAQPage")]]] = [] ->
  select d [[[Tag "script"; Attr "type" (AttrIs "application/ld+json")]]]
  = [tag] ->
  JSON_parse (match html tag with Some h => h | None => EmptyString end)
  = Ok (faqSchema l) ->
  extractFaqs d = Ok l.
Proof.
  intros H0 Hne Hmicro Htags Hparse.
  apply extractFaqs_returns in H0 as [Hc [Hk [Hnodup Hlen]]].
  assert (H1 : pushedBy (microdataFaqs d) = []).
  { unfold pushedBy, microdataFaqs. rewrite Hmicro. reflexivity. }
  assert (H2 : pushedBy (jsonLdFaqs d) = l).
  { unfold pushedBy, jsonLdFaqs. rewrite Htags. simpl.
    unfold bind at 1. unfold jsonLdScript, tryCatch.
    unfold bind at 1. rewrite Hparse. simpl.
    unfold bind at 1. simpl.
    unfold bind at 1. unfold lift at 1. simpl.
    rewrite (@questionEntries_run l Hc Hk). reflexivity. }
  assert (Hcascade : pushedBy (cascade d) = l).
  { unfold pushedBy at 1. rewrite cascade_run, H1, H2. simpl.
    destruct l; [contradiction | reflexivity]. }
  unfold extractFaqs, extractFaqs_body, extractFaqs_try, tryCatch.
  unfold bind at 1. rewrite cascade_result, Hcascade.
  unfold bind at 1. unfold getArray at 1. unfold bind.
  rewrite (uniqueFaqs_total l Hk).
  rewrite (@keepFirst_fixed l Hk Hnodup).
  unfold ret. cbn [fst].
  rewrite firstn_all2 by exact Hlen. reflexivity.
Qed.

End RoundTrip.

(** The page that carries the generated schema of the JSON-LD scenario
    discharges the hypotheses of [faqSchema_round_trip]. *)
Lemma faqSchema_round_trip_witness :
  extractFaqs MorePages.faqSchemaPage
  = Ok [ {| question := str "Q1"; answer := str "A1" |} ].
Proof.
  apply (@faqSchema_round_trip MiniDom.cheerio MiniJson.json
           Scenarios.jsonLdPage MorePages.faqSchemaPage _
           MorePages.faqSchemaTag).
  - vm_compute. reflexivity.
  - discriminate.
  - vm_compute. reflexivity.
  - vm_compute. reflexivity.
  - vm_compute. reflexivity.
Defined.

(** The JSON-LD scenario discharges the hypothesis of
    [extractFaqs_entries_complete]. *)
Lemma extractFaqs_entries_complete_witness :
  Forall (fun f => (exists q, question f = Some (JString q) /\ q <> EmptyString)
                   /\ truthy (answer f) = true)
         [ {| question := str "Q1"; answer := str "A1" |} ].
Proof.
  apply (extractFaqs_entries_complete (C := MiniDom.cheerio)
           (J := MiniJson.json) Scenarios.jsonLdPage).
  vm_compute. reflexivity.
Defined.

(* ================================================================== *)
(** * extractDates *)

Section DatesFacts.
Context {C : Cheerio} {X : CheerioMore C} {D : DateApi}.

(** [formatDate] never throws: a failure of [new Date] gives [null]. *)
Lemma formatDate_formatted (dateStr : string) :
  formatDate dateStr = Ok (formatted dateStr).
Proof.
  unfold formatDate, formatted, run, tryCatch, lift, ret.
  destruct (Date_new dateStr); reflexivity.
Qed.

Lemma readDate_run (el : node) (found : Dates.t) :
  readDate el found = (Ok tt, dateStep found el).
Proof.
  unfold readDate, dateStep, dated.
  destruct (orElse (attr el "property") (attr el "itemprop")) as [prop|];
    [|reflexivity].
  destruct (orElse (attr el "content") (attr el "datetime")) as [content|];
    [|reflexivity].
  destruct (Js.truthy prop && Js.truthy content); [|reflexivity].
  unfold bind, lift, ret, setPublished, setModified.
  rewrite formatDate_formatted. destruct found as [p m]. simpl.
  destruct (isPublished prop), (isModified prop); reflexivity.
Qed.

Lemma readDates_run (els : list node) (found : Dates.t) :
  forEach els readDate found = (Ok tt, fold_left dateStep els found).
Proof.
  revert found. induction els as [|el rest IH]; intros found; simpl;
    [reflexivity|].
  unfold bind. rewrite readDate_run. apply IH.
Qed.

Lemma extractDates_run (d : document) :
  extractDates d
  = Ok (fold_left dateStep (selectMore d dateElements)
                  {| Dates.datePublished := None; Dates.dateModified := None |}).
Proof. unfold extractDates. rewrite readDates_run. reflexivity. Qed.

(** Elements that do not set a variable leave it as it is. *)
Lemma published_kept (els : list node) (found : Dates.t) :
  Forall (fun e => setsPublished e = false) els ->
  Dates.datePublished (fold_left dateStep els found) = Dates.datePublished found.
Proof.
  intros H. revert found.
  induction H as [|el rest Hel _ IH]; intros found; simpl; [reflexivity|].
  rewrite IH. unfold dateStep. unfold setsPublished in Hel.
  destruct (dated el) as [[prop content]|]; [|reflexivity].
  simpl. rewrite Hel. reflexivity.
Qed.

Lemma modified_kept (els : list node) (found : Dates.t) :
  Forall (fun e => setsModified e = false) els ->
  Dates.dateModified (fold_left dateStep els found) = Dates.dateModified found.
Proof.
  intros H. revert found.
  induction H as [|el rest Hel _ IH]; intros found; simpl; [reflexivity|].
  rewrite IH. unfold dateStep. unfold setsModified in Hel.
  destruct (dated el) as [[prop content]|]; [|reflexivity].
  simpl. rewrite Hel. reflexivity.
Qed.

(** X7.  [extractDates] never throws, and the last element decides: the
    date published is the formatted value of the last selected element
    that names a publication date, [null] when that value is no date,
    even when an element before it had a date, and [null] when no element
    names one.  The same holds for the date modified. *)
Theorem extractDates_last_wins (d : document) :
  (exists found, extractDates d = Ok found)
  /\ (forall found before el after prop content,
        extractDates d = Ok found ->
        selectMore d dateElements = before ++ el :: after ->
        dated el = Some (prop, content) ->
        Forall (fun e => setsPublished e = false) after ->
        isPublished prop = true ->
        Dates.datePublished found = formatted content)
  /\ (forall found before el after prop content,
        extractDates d = Ok found ->
        selectMore d dateElements = before ++ el :: after ->
        dated el = Some (prop, content) ->
        Forall (fun e => setsModified e = false) after ->
        isModified prop = true ->
        Dates.dateModified found = formatted content)
  /\ (forall found,
        extractDates d = Ok found ->
        (Forall (fun e => setsPublished e = false) (selectMore d dateElements) ->
         Dates.datePublished found = None)
        /\ (Forall (fun e => setsModified e = false) (selectMore d dateElements) ->
            Dates.dateModified found = None)).
Proof.
  rewrite extractDates_run. split; [eexists; reflexivity|].
  split; [|split].
  - intros found before el after prop content [= <-] -> Hel Hafter Hprop.
    rewrite fold_left_app. simpl. rewrite published_kept by exact Hafter.
    unfold dateStep. rewrite Hel. simpl. rewrite Hprop. reflexivity.
  - intros found before el after prop content [= <-] -> Hel Hafter Hprop.
    rewrite fold_left_app. simpl. rewrite modified_kept by exact Hafter.
    unfold dateStep. rewrite Hel. simpl. rewrite Hprop. reflexivity.
  - intros found [= <-]. split; intros H.
    + rewrite published_kept by exact H. reflexivity.
    + rewrite modified_kept by exact H. reflexivity.
Qed.

End DatesFacts.

(** On the page with two publication dates the second one, which is no
    date, decides: the date published is [null]. *)
Lemma extractDates_last_wins_witness :
  Dates.datePublished
    {| Dates.datePublished := None;
       Dates.dateModified := Some "2024-05-06T07:08:09.000Z" |}
  = formatted (D := MiniDate.date) "yesterday"
  /\ formatted (D := MiniDate.date) "2024-01-02T03:04:05.000Z"
     = Some "2024-01-02T03:04:05.000Z".
Proof.
  split; [|reflexivity].
  apply (proj1 (proj2 (extractDates_last_wins (C := MiniDom.cheerio)
                         (D := MiniDate.date) MorePages.datesPage))
           _ [nth 0 MorePages.dateNodes MorePages.noNode]
           (nth 1 MorePages.dateNodes MorePages.noNode)
           [nth 2 MorePages.dateNodes MorePages.noNode]
           "article:published_time" "yesterday").
  - vm_compute. reflexivity.
  - vm_compute. reflexivity.
  - vm_compute. reflexivity.
  - repeat constructor.
  - vm_compute. reflexivity.
Defined.

(* ================================================================== *)
(** * extractImage, extractAuthorUrl and extractJsonLd *)

Section Absolute.
Context {U : UrlApi}.

(** [makeAbsoluteUrl] returns a string, whatever the [URL] constructor
    does. *)
Lemma makeAbsoluteUrl_returns (url baseUrl : string) :
  exists absolute, makeAbsoluteUrl url baseUrl = Ok absolute.
Proof.
  unfold makeAbsoluteUrl, makeAbsoluteUrl_body, tryCatch, bind, lift, ret.
  destruct (URL_new url (Some baseUrl)); eexists; reflexivity.
Qed.

Lemma makeAbsoluteUrl_unparsed (url baseUrl : string) (e : exn) :
  URL_new url (Some baseUrl) = Throw e -> makeAbsoluteUrl url baseUrl = Ok url.
Proof.
  intros H.
  unfold makeAbsoluteUrl, makeAbsoluteUrl_body, tryCatch, bind, lift, ret.
  rewrite H. reflexivity.
Qed.

End Absolute.

Section ImageFacts.
Context {C : Cheerio} {U : UrlApi}.

Lemma orElse_none_truthy (a : option string) (s : string) :
  orElse a None = Some s -> a = Some s /\ Js.truthy s = true.
Proof.
  destruct a as [x|]; simpl; [|discriminate].
  destruct (Js.truthy x) eqn:E; [|discriminate].
  intros [= <-]. split; [reflexivity | exact E].
Qed.

(** X8.  [extractImage] never throws.  An [og:image] that is not empty
    decides, with the width and height of the page's meta tags;
    otherwise the [src] of the first [img] of the page decides, without
    width and height, and when that first [img] has no [src], or an empty
    one, the image is [null], whatever the images after it have. *)
Theorem extractImage_sources (d : document) (baseUrl : string) :
  (exists r, extractImage d baseUrl = Ok r)
  /\ (forall src, ogImage d = Some src ->
        exists absolute img,
          makeAbsoluteUrl src baseUrl = Ok absolute
          /\ extractImage d baseUrl = Ok (Some img)
          /\ Image.url img = absolute)
  /\ (forall src, ogImage d = None -> firstImage d = Some src ->
        exists absolute,
          makeAbsoluteUrl src baseUrl = Ok absolute
          /\ extractImage d baseUrl
             = Ok (Some {| Image.url := absolute; Image.width := None;
                           Image.height := None |}))
  /\ (ogImage d = None -> firstImage d = None ->
      extractImage d baseUrl = Ok None).
Proof.
  unfold extractImage, ogImage, firstImage, metaContent, run.
  destruct (orElse (attrOf (select d [[[Tag "meta"; Attr "property"
                                                       (AttrIs "og:image")]]])
                           "content") None) as [og|].
  - destruct (makeAbsoluteUrl_returns og baseUrl) as [absolute Habs].
    unfold bind, lift, ret. rewrite Habs. simpl.
    split; [eexists; reflexivity|]. split; [|split].
    + intros src [= <-]. rewrite Habs.
      eexists. eexists. split; [reflexivity|]. split; reflexivity.
    + intros src H. discriminate.
    + intros H. discriminate.
  - destruct (orElse (attrOf (first (select d [[[Tag "img"]]])) "src") None)
      as [regular|].
    + destruct (makeAbsoluteUrl_returns regular baseUrl) as [absolute Habs].
      unfold bind, lift, ret. rewrite Habs. simpl.
      split; [eexists; reflexivity|]. split; [|split].
      * intros src H. discriminate.
      * intros src _ [= <-]. rewrite Habs. eexists. split; reflexivity.
      * intros _ H. discriminate.
    + split; [eexists; reflexivity|]. split; [|split].
      * intros src H. discriminate.
      * intros src _ H. discriminate.
      * reflexivity.
Qed.

End ImageFacts.

Section AuthorUrlFacts.
Context {C : Cheerio} {X : CheerioMore C} {U : UrlApi}.

Lemma authorUrlFrom_skips (d : document) (baseUrl : string)
      (before rest : list selectorMore) :
  Forall (fun sel => firstHref d sel = None) before ->
  authorUrlFrom d baseUrl (before ++ rest) tt = authorUrlFrom d baseUrl rest tt.
Proof.
  intros H. induction H as [|sel more Hsel _ IH]; simpl; [reflexivity|].
  unfold firstHref in Hsel.
  destruct (attrOf (first (selectMore d sel)) "href") as [href|]; [|exact IH].
  simpl in Hsel. destruct (Js.truthy href); [discriminate | exact IH].
Qed.

Lemma authorUrlFrom_returns (d : document) (baseUrl : string)
      (sels : list selectorMore) :
  exists r, authorUrlFrom d baseUrl sels tt = (Ok r, tt).
Proof.
  induction sels as [|sel rest IH]; simpl; [eexists; reflexivity|].
  destruct (attrOf (first (selectMore d sel)) "href") as [href|]; [|exact IH].
  destruct (Js.truthy href); [|exact IH].
  destruct (makeAbsoluteUrl_returns href baseUrl) as [absolute Habs].
  unfold bind, lift, ret. rewrite Habs. eexists. reflexivity.
Qed.

(** X9.  [extractAuthorUrl] never throws.  The selectors are tried in
    their order and only the first element of each is looked at: the
    first selector whose first element has an [href] that is not empty
    decides, with that [href] made absolute, and when no selector has
    such a first element the result is [undefined]. *)
Theorem extractAuthorUrl_first_link (d : document) (baseUrl : string) :
  (exists r, extractAuthorUrl d baseUrl = Ok r)
  /\ (forall before sel after href,
        authorSelectors = before ++ sel :: after ->
        Forall (fun s => firstHref d s = None) before ->
        firstHref d sel = Some href ->
        exists absolute,
          makeAbsoluteUrl href baseUrl = Ok absolute
          /\ extractAuthorUrl d baseUrl = Ok (Some absolute))
  /\ (Forall (fun s => firstHref d s = None) authorSelectors ->
      extractAuthorUrl d baseUrl = Ok None).
Proof.
  unfold extractAuthorUrl, run. split; [|split].
  - destruct (authorUrlFrom_returns d baseUrl authorSelectors) as [r Hr].
    exists r. rewrite Hr. reflexivity.
  - intros before sel after href -> Hbefore Hsel.
    rewrite authorUrlFrom_skips by exact Hbefore. simpl.
    unfold firstHref in Hsel.
    apply orElse_none_truthy in Hsel as [-> Htruthy]. rewrite Htruthy.
    destruct (makeAbsoluteUrl_returns href baseUrl) as [absolute Habs].
    exists absolute. split; [exact Habs|].
    unfold bind, lift, ret. rewrite Habs. reflexivity.
  - intros H.
    rewrite <- (app_nil_r authorSelectors).
    rewrite authorUrlFrom_skips by exact H. reflexivity.
Qed.

End AuthorUrlFacts.

Section JsonLdFacts.
Context {C : Cheerio} {J : JsonApi}.

Lemma readJsonLd_skips (element : node) (jsonLd : option json) :
  holdsObject element = None -> readJsonLd element jsonLd = (Ok true, jsonLd).
Proof.
  unfold holdsObject, readJsonLd, tryCatch, bind, lift, ret.
  destruct (JSON_parse _) as [data|e]; [|reflexivity].
  destruct (isObject data); [discriminate | reflexivity].
Qed.

Lemma readJsonLd_holds (element : node) (jsonLd : option json) (data : json) :
  holdsObject element = Some data ->
  readJsonLd element jsonLd = (Ok false, Some data).
Proof.
  unfold holdsObject, readJsonLd, tryCatch, bind, lift, ret.
  destruct (JSON_parse _) as [parsed|e]; [|discriminate].
  destruct (isObject parsed); [|discriminate].
  intros [= <-]. reflexivity.
Qed.

Lemma eachWhile_skips (before rest : list node) (jsonLd : option json) :
  Forall (fun e => holdsObject e = None) before ->
  eachWhile (before ++ rest) readJsonLd jsonLd = eachWhile rest readJsonLd jsonLd.
Proof.
  intros H. induction H as [|el more Hel _ IH]; simpl; [reflexivity|].
  unfold bind. rewrite readJsonLd_skips by exact Hel. exact IH.
Qed.

Lemma eachWhile_returns (els : list node) (jsonLd : option json) :
  exists r, eachWhile els readJsonLd jsonLd = (Ok tt, r).
Proof.
  induction els as [|el rest IH]; simpl; [eexists; reflexivity|].
  unfold bind. destruct (holdsObject el) as [data|] eqn:E.
  - rewrite (@readJsonLd_holds el jsonLd data E). eexists. reflexivity.
  - rewrite readJsonLd_skips by exact E. exact IH.
Qed.

(** X10.  [extractJsonLd] never throws.  It returns what the first script
    tag that holds an object or an array parses to; the tags before it,
    whose text is malformed or parses to something else, are passed
    over, and the tags after it are not read.  Without such a tag the
    result is [null]. *)
Theorem extractJsonLd_first_object (d : document) :
  (exists r, extractJsonLd d = Ok r)
  /\ (forall before element after data,
        jsonLdTags d = before ++ element :: after ->
        Forall (fun e => holdsObject e = None) before ->
        holdsObject element = Some data ->
        extractJsonLd d = Ok (Some data))
  /\ (Forall (fun e => holdsObject e = None) (jsonLdTags d) ->
      extractJsonLd d = Ok None).
Proof.
  unfold extractJsonLd, jsonLdTags. split; [|split].
  - destruct (eachWhile_returns
                (select d [[[Tag "script";
                             Attr "type" (AttrIs "application/ld+json")]]])
                None) as [r Hr].
    exists r. rewrite Hr. reflexivity.
  - intros before element after data -> Hbefore Helement.
    rewrite eachWhile_skips by exact Hbefore. simpl. unfold bind.
    rewrite (@readJsonLd_holds element None data Helement). reflexivity.
  - intros H.
    rewrite <- (app_nil_r (select d _)).
    rewrite eachWhile_skips by exact H. reflexivity.
Qed.

End JsonLdFacts.

(** On the page whose first image has no [src] the image is [null],
    though the second image has one. *)
Lemma extractImage_sources_witness :
  extractImage MorePages.lazyImagePage Scenarios.pageUrl = Ok None
  /\ List.length (select MorePages.lazyImagePage [[[Tag "img"]]]) = 2.
Proof.
  split; [|reflexivity].
  apply (proj2 (proj2 (proj2 (extractImage_sources (C := MiniDom.cheerio)
                                (U := Whatwg.url) MorePages.lazyImagePage
                                Scenarios.pageUrl)))).
  - vm_compute. reflexivity.
  - vm_compute. reflexivity.
Defined.

(** On the page with an author box the box's first link has no [href],
    so the selector [.author a] is passed over though its second link
    has one, and the link to [/authors/jane] decides. *)
Lemma extractAuthorUrl_first_link_witness :
  extractAuthorUrl MorePages.authorPage Scenarios.pageUrl
  = Ok (Some "https://ex.com/authors/jane")
  /\ List.length (selectMore MorePages.authorPage
                    [[one (Class "author"); one (Tag "a")]]) = 2.
Proof.
  split; [|reflexivity].
  destruct (proj1 (proj2 (extractAuthorUrl_first_link (C := MiniDom.cheerio)
                            (U := Whatwg.url) MorePages.authorPage
                            Scenarios.pageUrl))
              (firstn 7 authorSelectors)
              [[[Plain (Tag "a"); AttrMore "href" (AttrHas "/authors/")]]]
              (skipn 8 authorSelectors)
              "/authors/jane")
    as [absolute [Habs Hresult]].
  - reflexivity.
  - repeat constructor.
  - vm_compute. reflexivity.
  - rewrite Hresult. vm_compute in Habs.
    injection Habs as <-. reflexivity.
Defined.

(** On the page with a malformed script tag before a good one the good
    one is returned. *)
Lemma extractJsonLd_first_object_witness :
  extractJsonLd Scenarios.brokenJsonPage
  = Ok (holdsObject Scenarios.goodTag)
  /\ holdsObject Scenarios.brokenTag = None.
Proof.
  split; [|reflexivity].
  apply (proj1 (proj2 (extractJsonLd_first_object (C := MiniDom.cheerio)
                         (J := MiniJson.json) Scenarios.brokenJsonPage))
           [Scenarios.brokenTag] Scenarios.goodTag []).
  - vm_compute. reflexivity.
  - repeat constructor.
  - vm_compute. reflexivity.
Defined.

(* ================================================================== *)
(** * extractBreadcrumbs and extractMetadata: when they throw *)

Section Throws.
Context {C : Cheerio} {U : UrlApi}.

Lemma eachFrom_app {St A} (xs ys : list A) (body : nat -> A -> M St unit) :
  forall i s,
    eachFrom i (xs ++ ys) body s
    = (eachFrom i xs body ;; eachFrom (i + List.length xs) ys body) s.
Proof.
  induction xs as [|x r IH]; intros i s; simpl.
  - rewrite Nat.add_0_r. reflexivity.
  - unfold bind. destruct (body i x s) as [[u|e] s1]; [|reflexivity].
    rewrite IH. unfold bind. rewrite <- Nat.add_succ_comm. reflexivity.
Qed.

(** A link with a text whose [href] the [URL] constructor rejects makes
    the callback throw. *)
Lemma recordLink_throws (url : string) (index : nat) (element : node)
      (href : string) (e : exn) (s : list breadcrumb) :
  recorded element = true ->
  attr element "href" = Some href ->
  Js.endsWith href "/" = false ->
  URL_new href (Some url) = Throw e ->
  recordLink url index element s = (Throw e, s).
Proof.
  intros Hrec Hattr Hslash Hurl. unfold recorded in Hrec.
  unfold recordLink. rewrite Hattr in *. rewrite Hrec.
  unfold bind, lift.
  erewrite makeAbsoluteUrl_unparsed by exact Hurl.
  unfold ensureTrailingSlash. rewrite Hslash, Hurl. reflexivity.
Qed.

(** X11.  [extractBreadcrumbs] throws on a link that is no URL.  When
    the selector that commits has, among its links, one with a text and
    an [href] that does not end in a slash and that the [URL]
    constructor rejects, the function throws, and the breadcrumbs of the
    links before it are lost with it.  It also throws, with the
    exception of the constructor, when no selector matches and the URL
    of the page itself is rejected. *)
Theorem extractBreadcrumbs_throws (d : document) (url : string) :
  (forall before sel after earlier element later href e,
      breadcrumbSelectors = before ++ sel :: after ->
      Forall (fun s => select d s = []) before ->
      select d sel = earlier ++ element :: later ->
      recorded element = true ->
      attr element "href" = Some href ->
      Js.endsWith href "/" = false ->
      URL_new href (Some url) = Throw e ->
      (exists e', extractBreadcrumbs d url = Throw e')
      /\ (Forall (fun el => recorded el = false) earlier ->
          extractBreadcrumbs d url = Throw e))
  /\ (forall e, noTrail d -> URL_new url None = Throw e ->
                extractBreadcrumbs d url = Throw e).
Proof.
  split.
  - intros before sel after earlier element later href e
           Hsplit Hbefore Hsel Hrec Hattr Hslash Hurl.
    assert (Hne : select d sel <> []).
    { rewrite Hsel. destruct earlier; discriminate. }
    rewrite (@extractBreadcrumbs_commit _ _ d url before after sel Hsplit Hbefore Hne).
    unfold returned, forEachIndexed. rewrite Hsel, eachFrom_app. unfold bind.
    split.
    + destruct (eachFrom 0 earlier (recordLink url) []) as [[u|e'] s1].
      * simpl. unfold bind.
        rewrite (@recordLink_throws url _ element href e s1 Hrec Hattr Hslash Hurl).
        exists e. reflexivity.
      * exists e'. reflexivity.
    + intros Hnone. rewrite eachFrom_skips by exact Hnone. simpl. unfold bind.
      rewrite (@recordLink_throws url _ element href e [] Hrec Hattr Hslash Hurl).
      reflexivity.
  - intros e Hnone Hurl. rewrite extractBreadcrumbs_fallback by exact Hnone.
    unfold returned, fromUrlPath, bind, lift. rewrite Hurl. reflexivity.
Qed.

End Throws.

(** The page whose breadcrumb link has the [href] [http://a b] discharges
    the hypotheses of [extractBreadcrumbs_throws]. *)
Lemma extractBreadcrumbs_throws_witness :
  extractBreadcrumbs MorePages.badHrefPage Scenarios.pageUrl
  = Throw (TypeError "Invalid URL").
Proof.
  apply (proj1 (extractBreadcrumbs_throws (C := MiniDom.cheerio)
                  (U := Whatwg.url) MorePages.badHrefPage Scenarios.pageUrl)
           [] [[[Class "breadcrumb"]; [Tag "a"]]] (skipn 1 breadcrumbSelectors)
           [] MorePages.badLink [] "http://a b" (TypeError "Invalid URL")).
  - reflexivity.
  - constructor.
  - vm_compute. reflexivity.
  - vm_compute. reflexivity.
  - vm_compute. reflexivity.
  - vm_compute. reflexivity.
  - vm_compute. reflexivity.
  - constructor.
Defined.

Section Metadata.
Context {C : Cheerio} {X : CheerioMore C} {U : UrlApi} {J : JsonApi}
        {D : DateApi}.

Lemma extractImage_returns (d : document) (baseUrl : string) :
  exists r, extractImage d baseUrl = Ok r.
Proof.
  unfold extractImage, run.
  destruct (orElse (metaContent d "property" "og:image") None) as [og|].
  - destruct (makeAbsoluteUrl_returns og baseUrl) as [absolute Habs].
    unfold bind, lift, ret. rewrite Habs. eexists. reflexivity.
  - destruct (orElse (attrOf (first (select d [[[Tag "img"]]])) "src") None)
      as [regular|]; [|eexists; reflexivity].
    destruct (makeAbsoluteUrl_returns regular baseUrl) as [absolute Habs].
    unfold bind, lift, ret. rewrite Habs. eexists. reflexivity.
Qed.

Lemma extractAuthorUrl_returns (d : document) (baseUrl : string) :
  exists r, extractAuthorUrl d baseUrl = Ok r.
Proof.
  unfold extractAuthorUrl, run.
  destruct (authorUrlFrom_returns d baseUrl authorSelectors) as [r Hr].
  exists r. rewrite Hr. reflexivity.
Qed.

Lemma extractFaqs_total (d : document) : exists l, extractFaqs d = Ok l.
Proof.
  unfold extractFaqs, extractFaqs_body, tryCatch.
  destruct (extractFaqs_try d []) as [[l|e] s]; simpl; eauto.
Qed.

(** X12.  [extractMetadata] throws exactly when [extractBreadcrumbs]
    does, with the same exception: no other extractor throws.  When the
    breadcrumbs are returned, so is the record, with these breadcrumbs,
    the list of [extractFaqs] and the fields of the other extractors. *)
Theorem extractMetadata_throws_with_breadcrumbs (d : document) (url : string) :
  (forall e, extractBreadcrumbs d url = Throw e ->
             extractMetadata d url = Throw e)
  /\ (forall crumbs, extractBreadcrumbs d url = Ok crumbs ->
        exists data,
          extractMetadata d url = Ok data
          /\ breadcrumbs data = Some crumbs
          /\ (exists l, extractFaqs d = Ok l /\ faqs data = Some l)
          /\ title data = extractTitle d
          /\ description data = extractDescription d
          /\ author data = extractAuthor d
          /\ articleSection data = extractArticleSection d
          /\ articleBody data = extractArticleBody d
          /\ extractDates d
             = Ok {| Dates.datePublished := datePublished data;
                     Dates.dateModified := dateModified data |}
          /\ extractImage d url = Ok (image data)
          /\ extractPublisher d
             = {| Publisher.publisherName := publisherName data;
                  Publisher.publisherLogo := publisherLogo data |}
          /\ extractAuthorUrl d url = Ok (authorUrl data)).
Proof.
  unfold extractMetadata, run, bind, lift, ret.
  rewrite extractDates_run.
  destruct (fold_left dateStep (selectMore d dateElements) _) as [published modified].
  destruct (extractImage_returns d url) as [img ->].
  destruct (extractFaqs_total d) as [l ->].
  destruct (extractAuthorUrl_returns d url) as [link ->].
  split.
  - intros e ->. reflexivity.
  - intros crumbs ->. eexists. split; [reflexivity|]. simpl.
    split; [reflexivity|]. split; [exists l; split; reflexivity|].
    repeat (split; [reflexivity|]). reflexivity.
Qed.

Lemma orElse_filled (a b : option string) :
  filled b -> filled (orElse a b).
Proof.
  intros Hb. destruct a as [s|]; simpl; [|exact Hb].
  destruct (Js.truthy s) eqn:E; [|exact Hb].
  simpl. intros ->. discriminate.
Qed.

(** X13.  The text fields are absent or not empty: an empty title,
    description, author, section, publisher name or publisher logo is
    never returned, a tag with an empty content counts as no tag. *)
Theorem extractors_filled (d : document) :
  filled (extractTitle d)
  /\ filled (extractDescription d)
  /\ filled (extractAuthor d)
  /\ filled (extractArticleSection d)
  /\ filled (Publisher.publisherName (extractPublisher d))
  /\ filled (Publisher.publisherLogo (extractPublisher d)).
Proof.
  unfold extractTitle, extractDescription, extractAuthor,
    extractArticleSection, extractPublisher.
  cbn [Publisher.publisherName Publisher.publisherLogo].
  repeat split; repeat apply orElse_filled; exact I.
Qed.

End Metadata.

(** The page with the bad breadcrumb link makes [extractMetadata] throw. *)
Lemma extractMetadata_throws_with_breadcrumbs_witness :
  extractMetadata (C := MiniDom.cheerio) (D := MiniDate.date)
    MorePages.badHrefPage Scenarios.pageUrl
  = Throw (TypeError "Invalid URL").
Proof.
  apply (proj1 (extractMetadata_throws_with_breadcrumbs
                  (C := MiniDom.cheerio) (D := MiniDate.date)
                  MorePages.badHrefPage Scenarios.pageUrl)).
  vm_compute. reflexivity.
Defined.

(* ================================================================== *)
(** * The schema generator *)

Section GeneratorFacts.
Context {U : UrlApi} {G : StringifyApi}.

Lemma ensureSlash_returns (u : string) : exists r, ensureSlash u = Ok r.
Proof.
  unfold ensureSlash, run, tryCatch, bind, lift, ret.
  destruct (Js.endsWith u "/"); simpl; [eexists; reflexivity|].
  destruct (URL_new u None); eexists; reflexivity.
Qed.

(** X15.  The helper of the generator never throws.  It leaves a string
    that ends in a slash as it is; a string that the [URL] constructor
    rejects gets a slash at its end, and is then left as it is; and on a
    string that the constructor reads alone as it reads it against the
    page, the helper returns what the helper of [extractBreadcrumbs]
    returns. *)
Theorem ensureSlash_never_throws (u : string) :
  (exists r, ensureSlash u = Ok r)
  /\ (Js.endsWith u "/" = true -> ensureSlash u = Ok u)
  /\ (forall e, Js.endsWith u "/" = false -> URL_new u None = Throw e ->
                ensureSlash u = Ok (u +++ "/")
                /\ ensureSlash (u +++ "/") = Ok (u +++ "/"))
  /\ (forall url r, URL_new u (Some url) = URL_new u None ->
                    ensureTrailingSlash url u = Ok r ->
                    ensureSlash u = Ok r).
Proof.
  split; [apply ensureSlash_returns|].
  unfold ensureSlash, ensureTrailingSlash, run, tryCatch, bind, lift, ret.
  split; [|split].
  - intros ->. reflexivity.
  - intros e -> ->. simpl. rewrite endsWith_slash. split; reflexivity.
  - intros url r ->.
    destruct (Js.endsWith u "/"); simpl; [exact id|].
    destruct (URL_new u None) as [urlObj|e]; [exact id | discriminate].
Qed.

(** The entries that [map] builds from the index [i] on. *)
Lemma mapFrom_listItem (crumbs : list breadcrumb) :
  forall i,
    exists items,
      mapFrom i crumbs listItem tt = (Ok items, tt)
      /\ List.length items = List.length crumbs
      /\ forall n crumb, nth_error crumbs n = Some crumb ->
           exists item u,
             nth_error items n = Some item
             /\ member "position" item = Some (JNumber (i + n + 1))
             /\ member "name" item = Some (JString (name crumb))
             /\ ensureSlash (url crumb) = Ok u
             /\ member "item" item = Some (JString u).
Proof.
  induction crumbs as [|crumb rest IH]; intros i; simpl.
  - exists []. split; [reflexivity|]. split; [reflexivity|].
    intros [|n] c; discriminate.
  - destruct (IH (S i)) as [items [Hrun [Hlen Hitems]]].
    destruct (ensureSlash_returns (url crumb)) as [u Hu].
    unfold bind at 1. unfold listItem at 1. unfold bind at 1, lift at 1.
    rewrite Hu. unfold ret at 1. unfold bind at 1. rewrite Hrun.
    eexists. split; [reflexivity|]. split; [simpl; rewrite Hlen; reflexivity|].
    intros [|n] c; simpl.
    + intros [= <-]. eexists. exists u. split; [reflexivity|].
      rewrite Nat.add_0_r. repeat split. exact Hu.
    + intros Hn. destruct (Hitems n c Hn) as [item [v [H1 [H2 H3]]]].
      exists item, v. split; [exact H1|].
      replace (i + S n + 1) with (S i + n + 1) by lia.
      split; [exact H2 | exact H3].
Qed.

(** X14.  The breadcrumb schema numbers its items anew.
    [generateBreadcrumbSchema] never throws; it returns [null] exactly
    when the breadcrumbs are absent or empty; otherwise it returns the
    script tag of a schema with one item for each breadcrumb, in their
    order, whose position is the place of the breadcrumb in the list,
    counted from 1, whatever position the breadcrumb itself carries, with
    the name of the breadcrumb and its URL ending in a slash where the
    helper gives one. *)
Theorem breadcrumbSchema_renumbers (data : ExtractedData) :
  (exists r, generateBreadcrumbSchema data = Ok r)
  /\ (generateBreadcrumbSchema data = Ok None
      <-> breadcrumbs data = None \/ breadcrumbs data = Some [])
  /\ (forall crumbs,
        breadcrumbs data = Some crumbs -> crumbs <> [] ->
        exists items,
          generateBreadcrumbSchema data
          = Ok (Some (scriptTag
                        (JObject [ ("@context", JString "https://schema.org");
                                   ("@type", JString "BreadcrumbList");
                                   ("itemListElement", JArray items) ])))
          /\ List.length items = List.length crumbs
          /\ forall n crumb, nth_error crumbs n = Some crumb ->
               exists item u,
                 nth_error items n = Some item
                 /\ member "position" item = Some (JNumber (n + 1))
                 /\ member "name" item = Some (JString (name crumb))
                 /\ ensureSlash (url crumb) = Ok u
                 /\ member "item" item = Some (JString u)).
Proof.
  unfold generateBreadcrumbSchema, breadcrumbSchema, run.
  destruct (breadcrumbs data) as [crumbs|].
  - destruct (mapFrom_listItem crumbs 0) as [items [Hrun [Hlen Hitems]]].
    unfold bind, ret. rewrite Hrun. simpl.
    destruct crumbs as [|crumb rest]; simpl.
    + split; [eexists; reflexivity|]. split.
      * split; [right; reflexivity | reflexivity].
      * intros crumbs [= <-] H. contradiction.
    + split; [eexists; reflexivity|]. split.
      * split; [discriminate | intros [H | H]; discriminate].
      * intros crumbs [= <-] _. exists items.
        split; [reflexivity|]. split; [exact Hlen | exact Hitems].
  - split; [eexists; reflexivity|]. split.
    + split; [left; reflexivity | reflexivity].
    + intros crumbs H. discriminate.
Qed.

End GeneratorFacts.

(** The string [http://a b], which the [URL] constructor rejects,
    discharges the hypotheses of the second part of
    [ensureSlash_never_throws]. *)
Lemma ensureSlash_never_throws_witness :
  ensureSlash (U := Whatwg.url) "http://a b" = Ok "http://a b/"
  /\ ensureSlash (U := Whatwg.url) "http://a b/" = Ok "http://a b/".
Proof.
  apply (proj1 (proj2 (proj2 (ensureSlash_never_throws (U := Whatwg.url)
                                "http://a b")))
           (TypeError "Invalid URL")).
  - vm_compute. reflexivity.
  - vm_compute. reflexivity.
Defined.

(* ================================================================== *)
(** * extractFaqs: the entries read from the elements of the page *)

Section Trimmed.
Context {C : Cheerio} {J : JsonApi}.

Lemma pushPair_trimmed (question answer : string) :
  Js.trim question = question -> Js.trim answer = answer ->
  pushesOnly trimmed (pushPair question answer).
Proof.
  intros Hq Ha. apply pushesOnly_guarded_push. intros _.
  exists question, answer. repeat split; assumption.
Qed.

Lemma pushPair_trim (question answer : string) :
  pushesOnly trimmed (pushPair (Js.trim question) (Js.trim answer)).
Proof. apply pushPair_trimmed; apply JsFacts.trim_idempotent. Qed.

Lemma microdataFaqs_trimmed (d : document) :
  Forall trimmed (pushedBy (microdataFaqs d)).
Proof.
  apply pushesOnly_pushedBy, pushesOnly_forEach. intros element.
  apply pushesOnly_forEach. intros item. apply pushPair_trim.
Qed.

Lemma faqContentFaqs_trimmed (d : document) :
  Forall trimmed (pushedBy (faqContentFaqs d)).
Proof.
  apply pushesOnly_pushedBy, pushesOnly_forEach. intros element.
  apply pushPair_trimmed; [apply JsFacts.trim_idempotent|].
  destruct (first (skipBlankText (nextAll element))) as [|n rest];
    [reflexivity|].
  destruct (is_ n _); [apply JsFacts.trim_idempotent | reflexivity].
Qed.

Lemma headingFaqs_trimmed (d : document) :
  Forall trimmed (pushedBy (headingFaqs d)).
Proof.
  apply pushesOnly_pushedBy, pushesOnly_forEach. intros element.
  destruct (next element) as [|nextEl rest]; [apply pushesOnly_ret|].
  destruct (is_ nextEl _); [apply pushPair_trim | apply pushesOnly_ret].
Qed.

Lemma faqItemFaqs_trimmed (d : document) :
  Forall trimmed (pushedBy (faqItemFaqs d)).
Proof.
  apply pushesOnly_pushedBy, pushesOnly_forEach. intros element.
  apply pushPair_trim.
Qed.

(** X16.  What the elements of the page give is trimmed.  When the
    JSON-LD script tags give no entry, every question and every answer
    that [extractFaqs] returns is a string without white space at either
    end; the entries of method 2 are the values of the JSON text as they
    are. *)
Theorem extractFaqs_trimmed (d : document) (l : list faq) :
  extractFaqs d = Ok l ->
  pushedBy (jsonLdFaqs d) = [] ->
  Forall trimmed l.
Proof.
  intros H Hnone. apply extractFaqs_shape in H as [[-> _] | ->]; [|constructor].
  assert (Hc : Forall trimmed (pushedBy (cascade d))).
  { unfold pushedBy at 1. rewrite cascade_run, Hnone, app_nil_r. simpl.
    pose proof (microdataFaqs_trimmed d) as H1.
    destruct (pushedBy (microdataFaqs d)); [|exact H1].
    pose proof (faqContentFaqs_trimmed d) as H3.
    destruct (pushedBy (faqContentFaqs d)); [|exact H3].
    pose proof (headingFaqs_trimmed d) as H4.
    destruct (pushedBy (headingFaqs d)); [|exact H4].
    apply faqItemFaqs_trimmed. }
  rewrite Forall_forall in Hc. apply Forall_forall. intros f Hf.
  apply Hc. apply firstn_In, keepFirst_incl in Hf. exact Hf.
Qed.

End Trimmed.

(** The page of headings discharges the hypotheses of
    [extractFaqs_trimmed]. *)
Lemma extractFaqs_trimmed_witness :
  Forall trimmed [ {| question := str "What?"; answer := str "This." |};
                   {| question := str "Why?"; answer := str "So." |} ].
Proof.
  apply (extractFaqs_trimmed (C := MiniDom.cheerio) (J := MiniJson.json)
           Scenarios.headingsPage).
  - vm_compute. reflexivity.
  - vm_compute. reflexivity.
Defined.
